(** * HealthCanvas: the biomarker analytics of [frontend/src/HealthCanvas.jsx]

    A shallow embedding of the reference catalog ([BIOMARKER_DEFINITIONS]),
    the classifier ([getStatus]), the trend analyzer ([calculateTrend]),
    the pattern detector ([detectPatterns]), the score aggregation of
    [HealthScoreDashboard], the goal progress of [GoalsTracker] and the
    lists built by [VisitPreparation], with the properties the
    specification states about them.

    Modelling conventions.
    - A JavaScript number is an IEEE 754 double. The value of a record
      or of the catalog is written as a rational ([Q]) and stands for the
      double nearest to it ([float64]); comparisons of such values are
      exact. The percent changes of [calculateTrend] and
      [VisitPreparation] are computed in double arithmetic (type
      [jsnum], with the infinities and [NaN]): every operation returns
      the double nearest to the exact result, the even one on a tie.
      Zero has no sign. The scores, the goal progress, the sparkline and
      the demo values are computed on the rationals.
    - A record's [date] is the time value [new Date(r.date)] converts it to,
      an integer number of milliseconds ([Z]).
    - [Array.prototype.sort] is stable; it is modelled by a stable
      insertion sort driven by the sign of the comparator.
    - A marker identifier is a string; the catalog is an association list
      in the order of the object literal, which is the order
      [Object.keys] and [Object.entries] enumerate it in. Properties the
      catalog object inherits from [Object.prototype] are not modelled. *)

From stdpp Require Import gmap strings list sorting pretty.
From Stdlib Require Import QArith Qround Qabs Qminmax Qpower Lqa.

Open Scope Q_scope.

(** ** Numbers *)

Definition Qleb (x y : Q) : bool := Qle_bool x y.
Definition Qltb (x y : Q) : bool := negb (Qle_bool y x).
Definition Qeqb (x y : Q) : bool := Qeq_bool x y.

(** ** The reference catalog *)

Inductive Status := optimal | normal | attention | critical.

Global Instance Status_eq_dec : EqDecision Status.
Proof. solve_decision. Defined.

(** The fields of a catalog entry the analytics read, with [name] and
    [unit], which [VisitPreparation] copies into its result.
    [higherIsBetter] is [true], [false] or [null]. *)
Record BiomarkerDefinition := mkDef {
  name : string;
  unit_ : string;
  category : string;
  normalRange : Q * Q;
  optimalRange : Q * Q;
  criticalLow : Q;
  criticalHigh : Q;
  higherIsBetter : option bool
}.

Definition BIOMARKER_DEFINITIONS : list (string * BiomarkerDefinition) := [
    ("glucose", mkDef "Fasting Glucose" "mg/dL" "Metabolic" (70, 100) (72, 90) 54 126 (Some false));
    ("hba1c", mkDef "HbA1c" "%" "Metabolic" (4.0, 5.6) (4.5, 5.2) 3.5 6.5 (Some false));
    ("insulin", mkDef "Fasting Insulin" "µIU/mL" "Metabolic" (2.6, 24.9) (3, 10) 1 30 (Some false));
    ("totalCholesterol", mkDef "Total Cholesterol" "mg/dL" "Cardiovascular" (125, 200) (140, 180) 100 240 None);
    ("ldl", mkDef "LDL Cholesterol" "mg/dL" "Cardiovascular" (0, 100) (0, 70) 0 160 (Some false));
    ("hdl", mkDef "HDL Cholesterol" "mg/dL" "Cardiovascular" (40, 100) (60, 100) 35 120 (Some true));
    ("triglycerides", mkDef "Triglycerides" "mg/dL" "Cardiovascular" (0, 150) (0, 100) 0 500 (Some false));
    ("homocysteine", mkDef "Homocysteine" "µmol/L" "Cardiovascular" (5, 15) (6, 10) 3 20 (Some false));
    ("creatinine", mkDef "Creatinine" "mg/dL" "Kidney" (0.7, 1.3) (0.8, 1.1) 0.5 1.5 (Some false));
    ("egfr", mkDef "eGFR" "mL/min" "Kidney" (90, 120) (100, 120) 60 150 (Some true));
    ("bun", mkDef "BUN" "mg/dL" "Kidney" (7, 20) (10, 16) 5 30 (Some false));
    ("uricAcid", mkDef "Uric Acid" "mg/dL" "Kidney" (3.5, 7.2) (4.0, 6.0) 2.0 9.0 (Some false));
    ("alt", mkDef "ALT" "U/L" "Liver" (7, 56) (10, 35) 5 100 (Some false));
    ("ast", mkDef "AST" "U/L" "Liver" (10, 40) (15, 30) 5 80 (Some false));
    ("ggt", mkDef "GGT" "U/L" "Liver" (9, 48) (10, 30) 5 100 (Some false));
    ("bilirubin", mkDef "Total Bilirubin" "mg/dL" "Liver" (0.1, 1.2) (0.2, 0.8) 0 2.0 (Some false));
    ("albumin", mkDef "Albumin" "g/dL" "Liver" (3.5, 5.5) (4.0, 5.0) 3.0 6.0 (Some true));
    ("alp", mkDef "ALP" "U/L" "Liver" (44, 147) (50, 120) 30 200 (Some false));
    ("tsh", mkDef "TSH" "mIU/L" "Thyroid" (0.4, 4.0) (1.0, 2.5) 0.1 10.0 None);
    ("freeT4", mkDef "Free T4" "ng/dL" "Thyroid" (0.8, 1.8) (1.0, 1.5) 0.5 2.5 None);
    ("freeT3", mkDef "Free T3" "pg/mL" "Thyroid" (2.0, 4.4) (2.5, 4.0) 1.5 5.0 None);
    ("crp", mkDef "hs-CRP" "mg/L" "Inflammation" (0, 3.0) (0, 1.0) 0 10.0 (Some false));
    ("esr", mkDef "ESR" "mm/hr" "Inflammation" (0, 20) (0, 10) 0 40 (Some false));
    ("vitaminD", mkDef "Vitamin D" "ng/mL" "Nutrients" (30, 100) (40, 60) 20 100 (Some true));
    ("vitaminB12", mkDef "Vitamin B12" "pg/mL" "Nutrients" (200, 900) (400, 700) 150 1000 (Some true));
    ("folate", mkDef "Folate" "ng/mL" "Nutrients" (3.0, 17.0) (5.0, 15.0) 2.0 20.0 (Some true));
    ("iron", mkDef "Serum Iron" "µg/dL" "Nutrients" (60, 170) (70, 140) 40 200 None);
    ("ferritin", mkDef "Ferritin" "ng/mL" "Nutrients" (30, 300) (50, 150) 15 400 None);
    ("calcium", mkDef "Calcium" "mg/dL" "Nutrients" (8.5, 10.5) (9.0, 10.0) 7.5 11.5 None);
    ("magnesium", mkDef "Magnesium" "mg/dL" "Nutrients" (1.7, 2.2) (1.9, 2.1) 1.4 2.5 None);
    ("zinc", mkDef "Zinc" "µg/dL" "Nutrients" (60, 120) (70, 100) 50 150 None);
    ("hemoglobin", mkDef "Hemoglobin" "g/dL" "Blood Count" (12.0, 17.5) (13.5, 16.0) 10.0 18.5 None);
    ("hematocrit", mkDef "Hematocrit" "%" "Blood Count" (36, 50) (40, 46) 30 55 None);
    ("rbc", mkDef "Red Blood Cells" "M/µL" "Blood Count" (4.0, 5.5) (4.5, 5.2) 3.5 6.0 None);
    ("wbc", mkDef "White Blood Cells" "K/µL" "Blood Count" (4.0, 11.0) (5.0, 9.0) 3.0 15.0 None);
    ("platelets", mkDef "Platelets" "K/µL" "Blood Count" (150, 400) (175, 350) 100 500 None);
    ("mcv", mkDef "MCV" "fL" "Blood Count" (80, 100) (82, 96) 70 110 None);
    ("testosterone", mkDef "Total Testosterone" "ng/dL" "Hormones" (300, 1000) (500, 800) 200 1200 None);
    ("estradiol", mkDef "Estradiol" "pg/mL" "Hormones" (10, 40) (15, 30) 5 60 None);
    ("cortisol", mkDef "Cortisol (AM)" "µg/dL" "Hormones" (6, 23) (10, 18) 3 30 None);
    ("dheas", mkDef "DHEA-S" "µg/dL" "Hormones" (100, 400) (150, 350) 50 500 None)
  ].

Definition CATEGORIES : list string :=
  ["Metabolic"; "Cardiovascular"; "Kidney"; "Liver"; "Thyroid";
   "Inflammation"; "Nutrients"; "Blood Count"; "Hormones"].

(** [defs[markerId]]: the first entry with that key, [None] for
    [undefined]. *)
Fixpoint lookupDef (defs : list (string * BiomarkerDefinition)) (markerId : string)
  : option BiomarkerDefinition :=
  match defs with
  | [] => None
  | (k, d) :: rest => if String.eqb k markerId then Some d else lookupDef rest markerId
  end.

(** [Object.keys(defs)] *)
Definition keys (defs : list (string * BiomarkerDefinition)) : list string := defs.*1.

(** ** Classifier *)

(** [getStatus], with the catalog it reads made a parameter. *)
Definition getStatusWith (defs : list (string * BiomarkerDefinition))
    (value : Q) (markerId : string) : Status :=
  match lookupDef defs markerId with
  | None => normal
  | Some def =>
    if Qleb value (criticalLow def) || Qleb (criticalHigh def) value then critical
    else if Qleb (optimalRange def).1 value && Qleb value (optimalRange def).2 then optimal
    else if Qleb (normalRange def).1 value && Qleb value (normalRange def).2 then normal
    else attention
  end.

Definition getStatus : Q → string → Status := getStatusWith BIOMARKER_DEFINITIONS.

(** ** Observations and sorting *)

(** A lab record. The fields [id] and [labName] of the source's objects
    are not read by the analytics and are left out. *)
Record LabRecord := mkRecord {
  markerId : string;
  value : Q;
  date : Z
}.

(** [Array.prototype.sort(cmp)]: [x] goes before the first [y] with
    [cmp x y <= 0], so elements that compare equal keep their order. *)
Fixpoint insertBy {A} (cmp : A → A → Z) (x : A) (l : list A) : list A :=
  match l with
  | [] => [x]
  | y :: l' => if (cmp x y <=? 0)%Z then x :: y :: l' else y :: insertBy cmp x l'
  end.

Definition sortBy {A} (cmp : A → A → Z) (l : list A) : list A :=
  foldr (insertBy cmp) [] l.

(** [(a, b) => new Date(a.date) - new Date(b.date)] *)
Definition byDateAsc (a b : LabRecord) : Z := (date a - date b)%Z.
(** [(a, b) => new Date(b.date) - new Date(a.date)] *)
Definition byDateDesc (a b : LabRecord) : Z := (date b - date a)%Z.

(** [records.filter(r => r.markerId === id)] *)
Definition recordsOf (records : list LabRecord) (id : string) : list LabRecord :=
  filter (λ r, markerId r = id) records.

(** [markerRecords.sort((a, b) => new Date(b.date) - new Date(a.date))[0]],
    the expression [detectPatterns], [HealthScoreDashboard] and
    [VisitPreparation] share: the array is fresh from [filter] and is
    not read under its old name afterwards. *)
Definition latestRecord (records : list LabRecord) (id : string) : option LabRecord :=
  sortBy byDateDesc (recordsOf records id) !! 0%nat.

(** ** Numbers in double precision *)

(** [Math.round]: the nearest integer, the larger one on a tie. *)
Definition Math_round (x : Q) : Z := Qfloor (x + (1 # 2)).

(** A double: a finite one is given by its exact value. *)
Inductive jsnum := Finite (q : Q) | PosInf | NegInf | NaN.

Definition pow2 (e : Z) : Q := Qpower 2 e.

(** The integer nearest to [x >= 0], the even one on a tie. *)
Definition roundEven (x : Q) : Z :=
  let f := Qfloor x in
  match Qcompare (x - inject_Z f) (1 # 2) with
  | Lt => f
  | Gt => (f + 1)%Z
  | Eq => if Z.even f then f else (f + 1)%Z
  end.

(** The [e] with [2^e <= x < 2^(e+1)], for [x > 0]. *)
Definition ilog2 (x : Q) : Z :=
  let e0 := (Z.log2 (Qnum x) - Z.log2 (Zpos (Qden x)))%Z in
  if Qltb x (pow2 e0) then (e0 - 1)%Z else e0.

(** The double nearest to [x > 0]: a multiple of [2^e] with a
    significand of 53 bits, [e] not below -1074 (subnormal numbers), and
    the infinity from [2^1024] on. *)
Definition roundPos (x : Q) : jsnum :=
  let e := Z.max (ilog2 x - 52) (-1074) in
  let r := inject_Z (roundEven (x / pow2 e)) * pow2 e in
  if Qleb (pow2 1024) r then PosInf else Finite (Qred r).

Definition jsneg (x : jsnum) : jsnum :=
  match x with
  | Finite q => Finite (Qred (- q))
  | PosInf => NegInf
  | NegInf => PosInf
  | NaN => NaN
  end.

(** Rounding to nearest, ties to even. *)
Definition round64 (q : Q) : jsnum :=
  match Qnum q with
  | Z0 => Finite 0
  | Zpos _ => roundPos q
  | Zneg _ => jsneg (roundPos (- q))
  end.

(** The double a numeric value written in decimal denotes. *)
Definition float64 (q : Q) : jsnum := round64 q.

(** [a - b], [a / b] and [a * b]. A zero divisor counts as [+0]. *)
Definition jssub (a b : jsnum) : jsnum :=
  match a, b with
  | NaN, _ | _, NaN => NaN
  | Finite x, Finite y => round64 (x - y)
  | PosInf, PosInf | NegInf, NegInf => NaN
  | PosInf, _ | _, NegInf => PosInf
  | NegInf, _ | _, PosInf => NegInf
  end.

Definition jsdiv (a b : jsnum) : jsnum :=
  match a, b with
  | NaN, _ | _, NaN => NaN
  | Finite x, Finite y =>
    if Qeqb y 0 then
      if Qeqb x 0 then NaN else if Qltb 0 x then PosInf else NegInf
    else round64 (x / y)
  | Finite _, _ => Finite 0
  | PosInf, Finite y => if Qltb y 0 then NegInf else PosInf
  | NegInf, Finite y => if Qltb y 0 then PosInf else NegInf
  | _, _ => NaN
  end.

Definition jsmul (a b : jsnum) : jsnum :=
  match a, b with
  | NaN, _ | _, NaN => NaN
  | Finite x, Finite y => round64 (x * y)
  | Finite x, PosInf | PosInf, Finite x =>
    if Qeqb x 0 then NaN else if Qltb 0 x then PosInf else NegInf
  | Finite x, NegInf | NegInf, Finite x =>
    if Qeqb x 0 then NaN else if Qltb 0 x then NegInf else PosInf
  | PosInf, PosInf | NegInf, NegInf => PosInf
  | PosInf, NegInf | NegInf, PosInf => NegInf
  end.

(** [Math.abs(x)] *)
Definition jsabs (x : jsnum) : jsnum :=
  match x with
  | Finite q => Finite (Qabs q)
  | PosInf | NegInf => PosInf
  | NaN => NaN
  end.

(** [x !== 0] is [negb (jsIsZero x)]. *)
Definition jsIsZero (x : jsnum) : bool :=
  match x with
  | Finite q => Qeqb q 0
  | _ => false
  end.

(** [x < c] *)
Definition jsbelow (x : jsnum) (c : Q) : bool :=
  match x with
  | Finite q => Qltb q c
  | NegInf => true
  | PosInf | NaN => false
  end.

(** [Math.abs(x) > c] *)
Definition absExceeds (x : jsnum) (c : Q) : bool :=
  match x with
  | Finite q => Qltb c (Qabs q)
  | PosInf | NegInf => true
  | NaN => false
  end.

(** [x > 0] *)
Definition jspositive (x : jsnum) : bool :=
  match x with
  | Finite q => Qltb 0 q
  | PosInf => true
  | NegInf | NaN => false
  end.

(** ** Number formatting *)

(** The integer [n] of [Number.prototype.toFixed(1)] for [x >= 0]: the
    [n] with [n / 10] nearest to [x], the larger one on a tie. *)
Definition tenths (x : Q) : Z := Qfloor (x * 10 + (1 # 2)).

(** [x.toFixed(1)] for a finite [x] of magnitude below [1e21]. *)
Definition fixed1 (x : Q) : string :=
  let n := tenths (Qabs x) in
  (if Qltb x 0 then "-" else "") +:+ pretty (n / 10)%Z +:+ "." +:+ pretty (n mod 10)%Z.

(** [Number::toString] for a double [x >= 1e21], which is an integer:
    the decimal with the fewest significant digits among those that
    denote [x], in exponent notation. [readsAs x v] says that the
    integer [v] denotes [x]. *)
Definition readsAs (x : Q) (v : Z) : bool :=
  match round64 (inject_Z v) with
  | Finite r => Qeqb r x
  | _ => false
  end.

(** Of the two multiples of [p] around [xz], one that denotes [x]: the
    nearer one if both do, the one with the even multiplier on a tie. *)
Definition nearestReading (x : Q) (xz p : Z) : option Z :=
  let s := (xz / p)%Z in
  let lo := (s * p)%Z in
  let hi := ((s + 1) * p)%Z in
  match readsAs x lo, readsAs x hi with
  | true, true =>
    match (xz - lo ?= hi - xz)%Z with
    | Lt => Some lo
    | Gt => Some hi
    | Eq => Some (if Z.even s then lo else hi)
    end
  | true, false => Some lo
  | false, true => Some hi
  | false, false => None
  end.

(** The search from one significant digit on: [j] is the number of
    trailing zeros tried. *)
Fixpoint shortestReading (x : Q) (xz : Z) (j : nat) : Z :=
  match j with
  | O => xz
  | S j' =>
    match nearestReading x xz (10 ^ Z.of_nat j) with
    | Some v => v
    | None => shortestReading x xz j'
    end
  end.

Fixpoint dropZeros (rev_digits : list Ascii.ascii) : list Ascii.ascii :=
  match rev_digits with
  | c :: rest =>
    if Ascii.eqb c (Ascii.ascii_of_nat 48) then dropZeros rest else rev_digits
  | [] => []
  end.

(** [d.ddde+n] for the positive integer [v]. *)
Definition exponentForm (v : Z) : string :=
  let ds := String.list_ascii_of_string (pretty v) in
  match rev (dropZeros (rev ds)) with
  | d :: rest =>
    String d (match rest with
              | [] => ""
              | _ => "." +:+ String.string_of_list_ascii rest
              end)
    +:+ "e+" +:+ pretty (length ds - 1)%nat
  | [] => ""
  end.

Definition toStringLarge (x : Q) : string :=
  let xz := Qfloor x in
  exponentForm (shortestReading x xz (String.length (pretty xz) - 1)).

(** [x.toFixed(1)] *)
Definition toFixed1 (x : jsnum) : string :=
  match x with
  | Finite q =>
    if Qleb (10 ^ 21) (Qabs q)
    then (if Qltb q 0 then "-" else "") +:+ toStringLarge (Qabs q)
    else fixed1 q
  | PosInf => "Infinity"
  | NegInf => "-Infinity"
  | NaN => "NaN"
  end.

(** ** Trend analyzer *)

Inductive Direction := up | down | stable.

(** The [change] field holds the number [0] or the string [toFixed]
    returns. *)
Inductive TrendChange := ChangeNum (q : Q) | ChangeStr (s : string).

Record Trend := mkTrend {
  direction : Direction;
  change : TrendChange
}.

(** [a.slice(-3)] *)
Definition slice_last3 {A} (a : list A) : list A := drop (length a - 3) a.

Definition calculateTrend (records : list LabRecord) : Trend :=
  if (length records <? 2)%nat then mkTrend stable (ChangeNum 0)
  else
    let sorted := sortBy byDateAsc records in
    let recent := slice_last3 sorted in
    match recent !! 0%nat, recent !! (length recent - 1)%nat with
    | Some r0, Some rn =>
      let first := float64 (value r0) in
      let last := float64 (value rn) in
      let change :=
        if negb (jsIsZero first)
        then jsmul (jsdiv (jssub last first) first) (Finite 100)
        else Finite 0 in
      if jsbelow (jsabs change) 3 then mkTrend stable (ChangeNum 0)
      else mkTrend (if jspositive change then up else down)
             (ChangeStr (toFixed1 (jsabs change)))
    | _, _ => mkTrend stable (ChangeNum 0) (* not reached: [recent] is not empty *)
    end.

(** ** Pattern detector *)

Record Pattern := mkPattern {
  type : string;
  severity : Status;
  title : string;
  description : string;
  markers : list string
}.

(** One round of the [forEach] that fills the object [latest]. *)
Definition latestStep (records : list LabRecord) (latest : gmap string Q) (id : string)
  : gmap string Q :=
  if (0 <? length (recordsOf records id))%nat then
    match latestRecord records id with
    | Some r => <[id := value r]> latest
    | None => latest
    end
  else latest.

Definition latestValues (records : list LabRecord) : gmap string Q :=
  foldl (latestStep records) ∅ (keys BIOMARKER_DEFINITIONS).

(** [latest.m > c] and [latest.m < c]: a comparison with [undefined] is
    false. *)
Definition above (v : option Q) (c : Q) : bool := from_option (Qltb c) false v.
Definition below (v : option Q) (c : Q) : bool := from_option (λ x, Qltb x c) false v.

(** Truthiness of [latest.m]: [undefined] and [0] are falsy. *)
Definition truthy (v : option Q) : bool := from_option (λ x, negb (Qeqb x 0)) false v.

Definition metabolicFlagList (latest : gmap string Q) : list bool :=
  [ above (latest !! "glucose") 100;
    above (latest !! "triglycerides") 150;
    truthy (latest !! "hdl") && below (latest !! "hdl") 40;
    above (latest !! "hba1c") 5.6 ].

(** [[...].filter(Boolean).length] *)
Definition metabolicFlags (latest : gmap string Q) : nat :=
  length (filter Is_true (metabolicFlagList latest)).

(** [ids.filter(m => latest[m])] *)
Definition withData (latest : gmap string Q) (ids : list string) : list string :=
  filter (λ m, Is_true (truthy (latest !! m))) ids.

Definition metabolicPattern (latest : gmap string Q) : list Pattern :=
  if (3 <=? metabolicFlags latest)%nat then
    [ mkPattern "metabolic_syndrome" attention "Metabolic Pattern Detected"
        (pretty (metabolicFlags latest) +:+
         " markers suggest metabolic syndrome risk. Consider discussing with your doctor.")
        (withData latest ["glucose"; "triglycerides"; "hdl"; "hba1c"]) ]
  else [].

Definition anemiaPattern (latest : gmap string Q) : list Pattern :=
  if truthy (latest !! "hemoglobin") && below (latest !! "hemoglobin") 12
     && truthy (latest !! "ferritin") && below (latest !! "ferritin") 30 then
    [ mkPattern "iron_deficiency" attention "Iron Deficiency Pattern"
        "Low hemoglobin with low ferritin suggests possible iron deficiency."
        ["hemoglobin"; "ferritin"] ]
  else [].

Definition thyroidPattern (latest : gmap string Q) : list Pattern :=
  let tsh := latest !! "tsh" in
  if truthy tsh && (above tsh 4 || below tsh 0.4) then
    [ mkPattern "thyroid"
        (if above tsh 10 || below tsh 0.1 then critical else attention)
        "Thyroid Pattern Detected"
        ("TSH is " +:+ (if above tsh 4 then "elevated" else "low") +:+
         ". Further thyroid evaluation may be needed.")
        (withData latest ["tsh"; "freeT4"; "freeT3"]) ]
  else [].

Definition kidneyPattern (latest : gmap string Q) : list Pattern :=
  if above (latest !! "creatinine") 1.3
     && truthy (latest !! "egfr") && below (latest !! "egfr") 60 then
    [ mkPattern "kidney" attention "Reduced Kidney Function"
        "Elevated creatinine with reduced eGFR suggests kidney function assessment needed."
        (withData latest ["creatinine"; "egfr"; "bun"]) ]
  else [].

(** The four [patterns.push] in the order of the source. *)
Definition detectPatterns (records : list LabRecord) : list Pattern :=
  let latest := latestValues records in
  metabolicPattern latest ++ anemiaPattern latest ++ thyroidPattern latest
    ++ kidneyPattern latest.

(** ** Score aggregation *)

(** The object [{ optimal: 100, normal: 80, attention: 50, critical: 20 }]. *)
Definition scores (s : Status) : option Z :=
  Some match s with
       | optimal => 100 | normal => 80 | attention => 50 | critical => 20
       end%Z.

(** [scores[status] || 50] *)
Definition scoreOf (s : Status) : Z :=
  match scores s with
  | Some v => if (v =? 0)%Z then 50%Z else v
  | None => 50%Z
  end.

Record CategoryScore := mkCategoryScore {
  cs_category : string;
  cs_score : option Z;
  cs_count : Z
}.

(** One round of [markers.forEach]; the state is [(totalScore, count)]. *)
Definition scoreStep (records : list LabRecord) (acc : Z * Z)
    (entry : string * BiomarkerDefinition) : Z * Z :=
  let id := entry.1 in
  if (0 <? length (recordsOf records id))%nat then
    match latestRecord records id with
    | Some latest => (acc.1 + scoreOf (getStatus (value latest) id), acc.2 + 1)%Z
    | None => acc
    end
  else acc.

(** The object one category is mapped to; [cs_score] is [None] for
    [null]. *)
Definition categoryEntry (records : list LabRecord) (cat : string) : CategoryScore :=
  let markers := filter (λ e, category e.2 = cat) BIOMARKER_DEFINITIONS in
  let acc := foldl (scoreStep records) (0, 0)%Z markers in
  mkCategoryScore cat
    (if (0 <? acc.2)%Z then Some (Math_round (inject_Z acc.1 / inject_Z acc.2)) else None)
    acc.2.

Definition categoryScores (records : list LabRecord) : list CategoryScore :=
  filter (λ c, cs_score c ≠ None) (categoryEntry records <$> CATEGORIES).

Definition overallScore (records : list LabRecord) : option Z :=
  let cs := categoryScores records in
  if (0 <? length cs)%nat then
    Some (Math_round
            (inject_Z (foldl (λ sum c, sum + default 0 (cs_score c))%Z 0%Z cs)
             / inject_Z (Z.of_nat (length cs))))
  else None.

(** ** Goal progress *)

Record Goal := mkGoal {
  goalMarkerId : string;
  targetValue : Q
}.

(** [GoalsTracker] sorts the array [markerRecords] in place and reads it
    again under the same name, so its arrays live in a store: a location
    is an index into the list of allocated arrays. *)
Definition Store := list (list LabRecord).
Definition M (A : Type) : Type := Store → A * Store.

Global Instance M_ret : MRet M := λ A a h, (a, h).
Global Instance M_bind : MBind M := λ A B k m h, let r := m h in k r.1 r.2.

(** A new array with the elements [l], as [filter] returns one. *)
Definition Array_new (l : list LabRecord) : M nat :=
  λ h, (length h, h ++ [l]).

(** [a.sort(cmp)]: sorts the array at [a] and returns [a] itself. *)
Definition Array_sort (cmp : LabRecord → LabRecord → Z) (a : nat) : M nat :=
  λ h, (a, alter (sortBy cmp) a h).

(** [a[i]] *)
Definition Array_get (a i : nat) : M (option LabRecord) :=
  λ h, (h !! a ≫= (.!! i), h).

(** [a.length] *)
Definition Array_length (a : nat) : M nat :=
  λ h, (from_option length 0%nat (h !! a), h).

(** The body of [goals.map] up to the value of [progress].
    [markerRecords[0]] is read only when [markerRecords.length > 1], so it
    is defined there. *)
Definition progressM (g : Goal) (records : list LabRecord) : M Q :=
  markerRecords ← Array_new (recordsOf records (goalMarkerId g));
  sorted ← Array_sort byDateDesc markerRecords;
  latest ← Array_get sorted 0;
  match latest with
  | Some latest =>
    if negb (Qeqb (targetValue g) 0) then
      len ← Array_length markerRecords;
      baseline ←
        (if (1 <? len)%nat
         then r0 ← Array_get markerRecords 0; mret (from_option value (value latest) r0)
         else mret (value latest));
      let current := value latest in
      let target := targetValue g in
      let totalChange := Qabs (target - baseline) in
      let actualChange := Qabs (current - baseline) in
      let progress :=
        if Qltb 0 totalChange then Qmin 100 ((actualChange / totalChange) * 100) else 0 in
      if (Qltb target baseline && Qltb baseline current)
         || (Qltb baseline target && Qltb current baseline)
      then mret 0
      else mret progress
    else mret 0
  | None => mret 0
  end.

Definition goalProgress (g : Goal) (records : list LabRecord) : Q :=
  (progressM g records []).1.

(** ** Visit preparation *)

Record FlaggedMarker := mkFlagged {
  fm_id : string;
  fm_name : string;
  fm_value : Q;
  fm_unit : string;
  fm_status : Status
}.

Record SignificantChange := mkChange {
  sc_id : string;
  sc_name : string;
  sc_change : string;
  sc_direction : string
}.

(** [((latest.value - previous.value) / previous.value) * 100] *)
Definition percentChange (latest previous : Q) : jsnum :=
  jsmul (jsdiv (jssub (float64 latest) (float64 previous)) (float64 previous))
    (Finite 100).

(** One round of the [forEach] over the catalog keys; the state is
    [(flaggedMarkers, significantChanges)]. *)
Definition visitStep (records : list LabRecord)
    (acc : list FlaggedMarker * list SignificantChange) (id : string)
  : list FlaggedMarker * list SignificantChange :=
  let sorted := sortBy byDateDesc (recordsOf records id) in
  let defName := from_option name "" (lookupDef BIOMARKER_DEFINITIONS id) in
  let defUnit := from_option unit_ "" (lookupDef BIOMARKER_DEFINITIONS id) in
  match (0 <? length (recordsOf records id))%nat, sorted !! 0%nat with
  | true, Some latest =>
    let status := getStatus (value latest) id in
    let flagged :=
      if bool_decide (status = attention) || bool_decide (status = critical)
      then acc.1 ++ [mkFlagged id defName (value latest) defUnit status]
      else acc.1 in
    let changes :=
      match sorted !! 1%nat with
      | Some previous =>
        let change := percentChange (value latest) (value previous) in
        if absExceeds change 15
        then acc.2 ++ [mkChange id defName (toFixed1 change)
                         (if jspositive change then "increased" else "decreased")]
        else acc.2
      | None => acc.2
      end in
    (flagged, changes)
  | _, _ => acc
  end.

Definition VisitPreparation (records : list LabRecord)
  : list FlaggedMarker * list SignificantChange :=
  foldl (visitStep records) ([], []) (keys BIOMARKER_DEFINITIONS).

Definition flaggedMarkers (records : list LabRecord) : list FlaggedMarker :=
  (VisitPreparation records).1.
Definition significantChanges (records : list LabRecord) : list SignificantChange :=
  (VisitPreparation records).2.

(** ** Statements of the specification *)

(** The ordering the specification expects of a catalog entry. *)
Definition rangesOrdered (d : BiomarkerDefinition) : Prop :=
  criticalLow d <= (normalRange d).1 ∧
  (normalRange d).1 <= (optimalRange d).1 ∧
  (optimalRange d).1 <= (optimalRange d).2 ∧
  (optimalRange d).2 <= (normalRange d).2 ∧
  (normalRange d).2 <= criticalHigh d.

Definition rangesOrderedb (d : BiomarkerDefinition) : bool :=
  Qleb (criticalLow d) (normalRange d).1 &&
  Qleb (normalRange d).1 (optimalRange d).1 &&
  Qleb (optimalRange d).1 (optimalRange d).2 &&
  Qleb (optimalRange d).2 (normalRange d).2 &&
  Qleb (normalRange d).2 (criticalHigh d).

(** The three windows of the classifier, as propositions. *)
Definition inCritical (d : BiomarkerDefinition) (v : Q) : Prop :=
  v <= criticalLow d ∨ criticalHigh d <= v.
Definition inOptimal (d : BiomarkerDefinition) (v : Q) : Prop :=
  (optimalRange d).1 <= v ∧ v <= (optimalRange d).2.
Definition inNormal (d : BiomarkerDefinition) (v : Q) : Prop :=
  (normalRange d).1 <= v ∧ v <= (normalRange d).2.

(** The result [{ direction: 'stable', change: 0 }]. *)
Definition stableTrend : Trend := mkTrend stable (ChangeNum 0).

(** The order of doubles: [x < y]; a comparison with [NaN] is false. *)
Definition jslt (x y : jsnum) : Prop :=
  match x, y with
  | Finite a, Finite b => a < b
  | NegInf, Finite _ | NegInf, PosInf | Finite _, PosInf => True
  | _, _ => False
  end.

(** [x >= 0] or [x] is [NaN]; [x <= 0] or [x] is [NaN]. *)
Definition notNegative (x : jsnum) : Prop :=
  match x with
  | Finite r => 0 <= r
  | NegInf => False
  | PosInf | NaN => True
  end.

Definition notPositive (x : jsnum) : Prop :=
  match x with
  | Finite r => r <= 0
  | PosInf => False
  | NegInf | NaN => True
  end.

(** The trend contract of the specification, for an observation sequence
    [rs] and a result [t]. [sorted] is the sequence in ascending date
    order and [window] its trailing three (or fewer) observations; the
    change is the expression of the specification evaluated on doubles. *)
Definition trendContract (rs : list LabRecord) (t : Trend) : Prop :=
  ((length rs < 2)%nat → t = stableTrend) ∧
  ((2 ≤ length rs)%nat →
   ∃ sorted older window r0 rn change,
     sorted ≡ₚ rs ∧
     StronglySorted (λ a b, (date a ≤ date b)%Z) sorted ∧
     sorted = older ++ window ∧
     length window = (length rs `min` 3)%nat ∧
     head window = Some r0 ∧
     last window = Some rn ∧
     (jsIsZero (float64 (value r0)) = true → change = Finite 0) ∧
     (jsIsZero (float64 (value r0)) = false →
        change = jsmul (jsdiv (jssub (float64 (value rn)) (float64 (value r0)))
                          (float64 (value r0))) (Finite 100)) ∧
     (jslt (jsabs change) (Finite 3) → t = stableTrend) ∧
     (¬ jslt (jsabs change) (Finite 3) → jslt (Finite 0) change →
        t = mkTrend up (ChangeStr (toFixed1 (jsabs change)))) ∧
     (¬ jslt (jsabs change) (Finite 3) → jslt change (Finite 0) →
        t = mkTrend down (ChangeStr (toFixed1 (jsabs change))))).

(** The observation of a marker with the earliest date. *)
Definition earliestRecord (records : list LabRecord) (id : string) : option LabRecord :=
  sortBy byDateAsc (recordsOf records id) !! 0%nat.

(** The baseline of the specification: the earliest observation by date
    when there are at least two, else the latest. *)
Definition spec_baseline (records : list LabRecord) (id : string) : option Q :=
  match latestRecord records id, earliestRecord records id with
  | Some latest, Some earliest =>
    Some (if (2 <=? length (recordsOf records id))%nat then value earliest
          else value latest)
  | _, _ => None
  end.

(** Goal progress as the specification words it. *)
Definition spec_goalProgress (g : Goal) (records : list LabRecord) : Q :=
  match latestRecord records (goalMarkerId g), spec_baseline records (goalMarkerId g) with
  | Some latest, Some baseline =>
    let target := targetValue g in
    let totalChange := Qabs (target - baseline) in
    let actualChange := Qabs (value latest - baseline) in
    if (Qltb target baseline && Qltb baseline (value latest))
       || (Qltb baseline target && Qltb (value latest) baseline)
    then 0
    else if Qltb 0 totalChange then Qmin 100 (actualChange / totalChange * 100)
    else 0
  | _, _ => 0
  end.

(** The latest value of a marker, if it has any observation. *)
Definition latestValue (records : list LabRecord) (id : string) : option Q :=
  value <$> latestRecord records id.

(** A marker has data when at least one observation carries its id. *)
Definition hasData (records : list LabRecord) (id : string) : Prop :=
  (0 < length (recordsOf records id))%nat.

Global Instance hasData_dec records id : Decision (hasData records id).
Proof. unfold hasData. apply _. Defined.

Definition isMetabolic (p : Pattern) : Prop := type p = "metabolic_syndrome".

Definition metabolicIds : list string := ["glucose"; "triglycerides"; "hdl"; "hba1c"].

(** The four conditions of the metabolic rule as the specification words
    them: [hdl] counts when it is present and below 40. *)
Definition spec_metabolicConditions (records : list LabRecord) : list bool :=
  [ above (latestValue records "glucose") 100;
    above (latestValue records "triglycerides") 150;
    bool_decide (hasData records "hdl") && below (latestValue records "hdl") 40;
    above (latestValue records "hba1c") 5.6 ].

(** The metabolic rule as the specification words it. *)
Definition metabolicRule_as_stated (records : list LabRecord) : Prop :=
  ((∃ p, p ∈ detectPatterns records ∧ isMetabolic p) ↔
   (3 ≤ length (filter Is_true (spec_metabolicConditions records)))%nat) ∧
  ∀ p, p ∈ detectPatterns records → isMetabolic p →
    severity p = attention ∧ markers p = filter (hasData records) metabolicIds.

(** The four conditions as the code evaluates them: [hdl] counts when
    its latest value is not zero and below 40. *)
Definition metabolicConditions (records : list LabRecord) : list bool :=
  [ above (latestValue records "glucose") 100;
    above (latestValue records "triglycerides") 150;
    truthy (latestValue records "hdl") && below (latestValue records "hdl") 40;
    above (latestValue records "hba1c") 5.6 ].

(** The status of a marker's latest observation. *)
Definition latestStatus (records : list LabRecord) (id : string) : option Status :=
  (λ r, getStatus (value r) id) <$> latestRecord records id.

(** The point value of a status tier. *)
Definition statusPoints (s : Status) : Z :=
  match s with
  | optimal => 100 | normal => 80 | attention => 50 | critical => 20
  end%Z.

(** The catalog markers of a category, and those of them with data. *)
Definition categoryMarkers (cat : string) : list string :=
  (filter (λ e, category e.2 = cat) BIOMARKER_DEFINITIONS).*1.
Definition markersWithData (records : list LabRecord) (cat : string) : list string :=
  filter (hasData records) (categoryMarkers cat).

(** The points of the markers with data in a category. *)
Definition categoryPoints (records : list LabRecord) (cat : string) : list Z :=
  (λ id, from_option statusPoints 0%Z (latestStatus records id))
    <$> markersWithData records cat.

Definition sumZ (l : list Z) : Z := foldr Z.add 0%Z l.

(** The unweighted mean of a list of integers. *)
Definition mean (l : list Z) : Q := inject_Z (sumZ l) / inject_Z (Z.of_nat (length l)).

(** The average of a category as the specification words it: undefined
    when no marker of the category has data. *)
Definition categoryAverage (records : list LabRecord) (cat : string) : option Q :=
  match categoryPoints records cat with
  | [] => None
  | pts => Some (mean pts)
  end.

(** "Each category's score is the average": the statement of the
    specification for one category. *)
Definition scoreIsAverage (records : list LabRecord) (cat : string) : Prop :=
  match cs_score (categoryEntry records cat), categoryAverage records cat with
  | Some s, Some a => inject_Z s == a
  | None, None => True
  | _, _ => False
  end.

(** The second-latest observation of a marker: [sorted[1]]. *)
Definition previousRecord (records : list LabRecord) (id : string) : option LabRecord :=
  sortBy byDateDesc (recordsOf records id) !! 1%nat.

(** A marker is flagged when its latest observation classifies as
    [attention] or [critical]. *)
Definition isFlagged (records : list LabRecord) (id : string) : Prop :=
  ∃ r, latestRecord records id = Some r ∧
       (getStatus (value r) id = attention ∨ getStatus (value r) id = critical).

(** [|latest - previous| / previous * 100], the change as the
    specification writes it, and [x > c]. *)
Definition claimedChange (latest previous : Q) : jsnum :=
  jsmul (jsdiv (jsabs (jssub (float64 latest) (float64 previous))) (float64 previous))
    (Finite 100).

Definition exceeds (x : jsnum) (c : Q) : bool :=
  match x with
  | Finite q => Qltb c q
  | PosInf => true
  | NegInf | NaN => false
  end.

(** The visit-prep contract as the specification words it, for the
    markers of the catalog. *)
Definition visitPrep_as_stated (records : list LabRecord) : Prop :=
  ∀ id, id ∈ keys BIOMARKER_DEFINITIONS →
    (id ∈ fm_id <$> flaggedMarkers records ↔ isFlagged records id) ∧
    (id ∈ sc_id <$> significantChanges records ↔
     ∃ l p, latestRecord records id = Some l ∧
            previousRecord records id = Some p ∧
            exceeds (claimedChange (value l) (value p)) 15 = true).

(** The two tests of [visitStep] on one marker. *)
Definition flaggedb (records : list LabRecord) (id : string) : bool :=
  match latestRecord records id with
  | Some r =>
    bool_decide (getStatus (value r) id = attention)
    || bool_decide (getStatus (value r) id = critical)
  | None => false
  end.

Definition changedb (records : list LabRecord) (id : string) : bool :=
  match latestRecord records id, previousRecord records id with
  | Some l, Some p => absExceeds (percentChange (value l) (value p)) 15
  | _, _ => false
  end.

(** ** Further components *)

(** [getMarkerData]: the records of a marker in ascending date order, the
    [data] the dashboard hands to [BiomarkerCard], [DetailedChart] and
    [InsightsPanel]. *)
Definition getMarkerData (records : list LabRecord) (id : string) : list LabRecord :=
  sortBy byDateAsc (recordsOf records id).

(** The status colours of the design tokens [COLORS]. *)
Module COLORS.
Definition optimal : string := "#10B981".
Definition normal : string := "#3B82F6".
Definition attention : string := "#F59E0B".
Definition critical : string := "#EF4444".
End COLORS.

(** [getStatusColor]; its fallback [|| COLORS.normal] is for strings
    other than the four tiers. *)
Definition getStatusColor (status : Status) : string :=
  match status with
  | optimal => COLORS.optimal
  | normal => COLORS.normal
  | attention => COLORS.attention
  | critical => COLORS.critical
  end.

(** [a.slice(-n)] *)
Definition slice_last {A} (n : nat) (a : list A) : list A := drop (length a - n) a.

(** [Math.min(...l)] and [Math.max(...l)] for a list that is not empty. *)
Definition Math_min (l : list Q) : Q :=
  match l with
  | [] => 0 (* not reached *)
  | x :: l' => foldl Qmin x l'
  end.
Definition Math_max (l : list Q) : Q :=
  match l with
  | [] => 0 (* not reached *)
  | x :: l' => foldl Qmax x l'
  end.

(** The coordinates [x,y] of the sparkline's [points], in a box of
    width 80 and height 32, before they are printed into the attribute
    string. *)
Definition sparklinePoints (sparklineData : list LabRecord) : list (Q * Q) :=
  let minY := Math_min (value <$> sparklineData) in
  let maxY := Math_max (value <$> sparklineData) in
  let range := if Qeqb (maxY - minY) 0 then 1 else maxY - minY in
  imap (λ i d,
          ((inject_Z (Z.of_nat i) / inject_Z (Z.of_nat (length sparklineData - 1))) * 76 + 2,
           30 - ((value d - minY) / range) * 26))
       sparklineData.

(** The colour of the trend arrow:
    [direction === 'up' ? (higherIsBetter ? optimal : critical)
                        : (higherIsBetter === false ? optimal : critical)]. *)
Definition trendColor (direction : Direction) (higherIsBetter : option bool) : string :=
  match direction with
  | up =>
    match higherIsBetter with
    | Some true => COLORS.optimal
    | _ => COLORS.critical
    end
  | _ =>
    match higherIsBetter with
    | Some false => COLORS.optimal
    | _ => COLORS.critical
    end
  end.

(** What [BiomarkerCard] computes and shows; [None] is [null].
    [cv_trendColor] is absent when no trend line is rendered and
    [cv_points] when no sparkline is. *)
Record BiomarkerCardView := mkCardView {
  cv_name : string;
  cv_category : string;
  cv_status : Status;
  cv_value : Q;
  cv_unit : string;
  cv_trend : Trend;
  cv_trendColor : option string;
  cv_points : option (list (Q * Q));
  cv_stroke : string;
  cv_date : Z
}.

Definition BiomarkerCard (markerId : string) (data : list LabRecord)
  : option BiomarkerCardView :=
  match lookupDef BIOMARKER_DEFINITIONS markerId, data !! (length data - 1)%nat with
  | Some def, Some latest =>
    let status := getStatus (value latest) markerId in
    let trend := calculateTrend data in
    let sparklineData := slice_last 6 data in
    Some (mkCardView (name def) (category def) status (value latest) (unit_ def) trend
            (match direction trend with
             | stable => None
             | d => Some (trendColor d (higherIsBetter def))
             end)
            (if (1 <? length sparklineData)%nat then Some (sparklinePoints sparklineData)
             else None)
            (getStatusColor status)
            (date latest))
  | _, _ => None
  end.

(** [HealthRadar]: the same loop as [HealthScoreDashboard] (here
    [scoreStep]) with score 0 for a category without data, the category
    name cut to 8 characters, and nothing rendered ([None]) for fewer
    than three entries. *)
Record RadarEntry := mkRadarEntry {
  radar_category : string;
  radar_score : Z;
  radar_fullMark : Z
}.

Definition radarEntry (records : list LabRecord) (cat : string) : RadarEntry :=
  let markers := filter (λ e, category e.2 = cat) BIOMARKER_DEFINITIONS in
  let acc := foldl (scoreStep records) (0, 0)%Z markers in
  mkRadarEntry (String.substring 0 8 cat)
    (if (0 <? acc.2)%Z then Math_round (inject_Z acc.1 / inject_Z acc.2) else 0%Z)
    100.

Definition radarData (records : list LabRecord) : list RadarEntry :=
  filter (λ d, (0 < radar_score d)%Z) (radarEntry records <$> CATEGORIES).

Definition HealthRadar (records : list LabRecord) : option (list RadarEntry) :=
  if (length (radarData records) <? 3)%nat then None else Some (radarData records).

(** The offline branch of [addRecord], also its fallback when the
    request fails: [setRecords([...records, record])]. *)
Definition addRecord_offline (records : list LabRecord) (record : LabRecord)
  : list LabRecord :=
  records ++ [record].

(** What an entry of [flaggedMarkers] holds. *)
Definition flaggedEntryOk (records : list LabRecord) (m : FlaggedMarker) : Prop :=
  ∃ def r,
    lookupDef BIOMARKER_DEFINITIONS (fm_id m) = Some def ∧
    latestRecord records (fm_id m) = Some r ∧
    fm_name m = name def ∧ fm_unit m = unit_ def ∧
    fm_value m = value r ∧
    fm_status m = getStatus (value r) (fm_id m) ∧
    (fm_status m = attention ∨ fm_status m = critical).

(** What an entry of [significantChanges] holds. *)
Definition changeEntryOk (records : list LabRecord) (c : SignificantChange) : Prop :=
  ∃ def l p,
    lookupDef BIOMARKER_DEFINITIONS (sc_id c) = Some def ∧
    latestRecord records (sc_id c) = Some l ∧
    previousRecord records (sc_id c) = Some p ∧
    sc_name c = name def ∧
    absExceeds (percentChange (value l) (value p)) 15 = true ∧
    sc_change c = toFixed1 (percentChange (value l) (value p)) ∧
    sc_direction c =
      (if jspositive (percentChange (value l) (value p)) then "increased"
       else "decreased").

(** The questions of [VisitPreparation]. A question built from a
    template literal is kept as its template and the object it is filled
    from, not as the rendered text:
    [FlaggedQuestion m] is
    [`My ${m.name} is ${m.status}. What could be causing this and what should I do?`]
    and [ChangeQuestion c] is
    [`My ${c.name} has ${c.direction} by ${Math.abs(c.change)}%. Is this concerning?`]. *)
Inductive Question :=
  | FlaggedQuestion (m : FlaggedMarker)
  | ChangeQuestion (c : SignificantChange)
  | FixedQuestion (text : string).

Definition testsQuestion : Question :=
  FixedQuestion "Are there any tests I should schedule based on my current results?".
Definition medicationsQuestion : Question :=
  FixedQuestion "Should I adjust any of my current medications?".

(** [[...flaggedMarkers.map(..), ...significantChanges.slice(0, 2).map(..),
      '...', '...'].slice(0, 5)] *)
Definition questions (records : list LabRecord) : list Question :=
  take 5 ((FlaggedQuestion <$> flaggedMarkers records)
          ++ (ChangeQuestion <$> take 2 (significantChanges records))
          ++ [testsQuestion; medicationsQuestion]).

(** [generateSampleData]. The results of [Math.random()] are a
    parameter, [random markerId i] being the draw for the record [i] of
    the marker, and so are the dates, [dateOf i] being the date [2 * i]
    months before today. *)
Definition sampleMarkers : list string :=
  ["glucose"; "hba1c"; "totalCholesterol"; "ldl"; "hdl"; "triglycerides";
   "creatinine"; "egfr"; "alt"; "ast"; "tsh"; "vitaminD"; "vitaminB12";
   "hemoglobin"; "ferritin"].

Definition sampleValue (def : BiomarkerDefinition) (random : Q) : Q :=
  let mid := ((normalRange def).1 + (normalRange def).2) / 2 in
  let range := ((normalRange def).2 - (normalRange def).1) * 0.3 in
  let variation := (random - 0.5) * range in
  inject_Z (Math_round ((mid + variation) * 100)) / 100.

Definition generateSampleData (random : string → nat → Q) (dateOf : nat → Z)
  : list LabRecord :=
  sampleMarkers ≫= λ markerId,
    match lookupDef BIOMARKER_DEFINITIONS markerId with
    | None => []
    | Some def =>
      (λ i, mkRecord markerId (sampleValue def (random markerId i)) (dateOf i))
        <$> [5; 4; 3; 2; 1; 0]%nat
    end.

(** The check of a catalog entry the sample data relies on: bounds in
    order and a normal window at least 1/2 wide. *)
Definition sampleDefOk (markerId : string) : bool :=
  match lookupDef BIOMARKER_DEFINITIONS markerId with
  | Some def =>
    rangesOrderedb def && Qleb (1 # 2) ((normalRange def).2 - (normalRange def).1)
  | None => false
  end.

(** [filteredMarkers]: the markers of the card grid. The catalog model
    carries neither descriptions nor aliases, so the test of a nonempty
    search term on a definition's name and aliases is the parameter
    [found]; an empty [searchTerm] is false in JS and skips the test. Every
    id comes from [Object.keys], so its definition exists. *)
Definition markerShown (found : string → string → bool)
    (categoryFilter searchTerm : string) (id : string) : bool :=
  match lookupDef BIOMARKER_DEFINITIONS id with
  | Some def =>
    if negb (String.eqb categoryFilter "all")
       && negb (String.eqb (category def) categoryFilter) then false
    else if negb (String.eqb searchTerm "") then found searchTerm id
    else true
  | None => false
  end.

Definition filteredMarkers (found : string → string → bool)
    (records : list LabRecord) (categoryFilter searchTerm : string) : list string :=
  filter (λ m, (0 < length (getMarkerData records m))%nat)
    (filter (λ id, Is_true (markerShown found categoryFilter searchTerm id))
       (keys BIOMARKER_DEFINITIONS)).

(** Medications, as the application creates them ([active] is a
    boolean), with the offline branch of [toggleMedication] and
    [deleteMedication], and the list of active medications the visit
    preparation shows. *)
Record Medication := mkMedication {
  med_id : string;
  med_name : string;
  med_dosage : string;
  med_frequency : string;
  med_active : bool;
  med_startDate : string
}.

Definition toggleMedication_offline (medications : list Medication) (id : string)
  : list Medication :=
  (λ m, if String.eqb (med_id m) id
        then mkMedication (med_id m) (med_name m) (med_dosage m) (med_frequency m)
               (negb (med_active m)) (med_startDate m)
        else m) <$> medications.

Definition deleteMedication_offline (medications : list Medication) (id : string)
  : list Medication :=
  filter (λ m, med_id m ≠ id) medications.

Definition activeMedications (medications : list Medication) : list Medication :=
  filter (λ m, Is_true (med_active m)) medications.

(** The click handler of the watch button: a copy of the set with the
    selected marker removed if it was in, added if not. *)
Definition toggleWatched (watchedMarkers : gset string) (selectedMarker : string)
  : gset string :=
  if bool_decide (selectedMarker ∈ watchedMarkers)
  then watchedMarkers ∖ {[selectedMarker]}
  else watchedMarkers ∪ {[selectedMarker]}.

(** [ApiClient]: the token of the client and its copy in
    [localStorage]. A token is [null] ([None]) or a string; the
    constructor reads the stored token, [setToken] stores a truthy token
    and removes the entry for [null] or the empty string, and [request]
    sends the header [Authorization] for a truthy token. *)
Definition tokenKey : string := "healthcanvas_token".

Definition truthyToken (token : option string) : bool :=
  match token with
  | None => false
  | Some t => negb (String.eqb t "")
  end.

Definition ApiClient_constructor (localStorage : gmap string string) : option string :=
  localStorage !! tokenKey.

Definition setToken (token : option string) (localStorage : gmap string string)
  : option string * gmap string string :=
  (token,
   match token with
   | Some t =>
     if truthyToken token then <[tokenKey := t]> localStorage
     else delete tokenKey localStorage
   | None => delete tokenKey localStorage
   end).

Definition authorization (token : option string) : option string :=
  if truthyToken token then (λ t, "Bearer " +:+ t) <$> token else None.

(** * Properties *)

(** ** Comparisons *)

Lemma Qleb_le x y : Qleb x y = true ↔ x <= y.
Proof. apply Qle_bool_iff. Qed.

Lemma Qleb_gt x y : Qleb x y = false ↔ y < x.
Proof.
  unfold Qleb. split.
  - intros H. apply Qnot_le_lt. intros Hle. apply Qle_bool_iff in Hle. congruence.
  - intros H. destruct (Qle_bool x y) eqn:E; [|done].
    apply Qle_bool_iff in E. exfalso. by apply (Qlt_not_le y x).
Qed.

Lemma Qltb_lt x y : Qltb x y = true ↔ x < y.
Proof. unfold Qltb. rewrite negb_true_iff. apply Qleb_gt. Qed.

Lemma Qltb_ge x y : Qltb x y = false ↔ y <= x.
Proof. unfold Qltb. rewrite negb_false_iff. apply Qleb_le. Qed.

Lemma Qeqb_eq x y : Qeqb x y = true ↔ x == y.
Proof. apply Qeq_bool_iff. Qed.

Lemma Qeqb_neq x y : Qeqb x y = false ↔ ¬ x == y.
Proof.
  unfold Qeqb. split.
  - intros H Heq. apply Qeq_bool_iff in Heq. congruence.
  - intros H. destruct (Qeq_bool x y) eqn:E; [|done].
    by apply Qeq_bool_iff in E.
Qed.

Ltac Qbool :=
  repeat match goal with
  | H : Qleb _ _ = true |- _ => apply Qleb_le in H
  | H : Qleb _ _ = false |- _ => apply Qleb_gt in H
  | H : Qltb _ _ = true |- _ => apply Qltb_lt in H
  | H : Qltb _ _ = false |- _ => apply Qltb_ge in H
  | H : Qeqb _ _ = true |- _ => apply Qeqb_eq in H
  | H : Qeqb _ _ = false |- _ => apply Qeqb_neq in H
  end.

(** ** Classifier *)

(** C3: for every definition and value, [critical] when the value is at or
    beyond a critical bound (even inside the optimal window), otherwise
    [optimal] inside the optimal window, otherwise [normal] inside the
    normal window, otherwise [attention]; all bounds inclusive. *)
Theorem getStatus_precedence defs id def v :
  lookupDef defs id = Some def →
  (inCritical def v → getStatusWith defs v id = critical) ∧
  (¬ inCritical def v → inOptimal def v → getStatusWith defs v id = optimal) ∧
  (¬ inCritical def v → ¬ inOptimal def v → inNormal def v →
     getStatusWith defs v id = normal) ∧
  (¬ inCritical def v → ¬ inOptimal def v → ¬ inNormal def v →
     getStatusWith defs v id = attention).
Proof.
  intros Hdef. unfold getStatusWith, inCritical, inOptimal, inNormal. rewrite Hdef.
  destruct (Qleb v (criticalLow def)) eqn:E1, (Qleb (criticalHigh def) v) eqn:E2,
    (Qleb (optimalRange def).1 v) eqn:E3, (Qleb v (optimalRange def).2) eqn:E4,
    (Qleb (normalRange def).1 v) eqn:E5, (Qleb v (normalRange def).2) eqn:E6;
    simpl; Qbool;
    repeat split; try done; intros;
    repeat match goal with
    | H : ¬ (_ ∨ _) |- _ => exfalso; apply H; auto; fail
    | H : ¬ (_ ∧ _) |- _ => exfalso; apply H; auto; fail
    | H : _ ∨ _ |- _ => destruct H
    | H : _ ∧ _ |- _ => destruct H
    | H1 : ?a <= ?b, H2 : ?b < ?a |- _ => exfalso; exact (Qlt_not_le _ _ H2 H1)
    end.
Qed.

(** At the critical bound of a catalog entry. *)
Lemma getStatus_precedence_witness :
  lookupDef BIOMARKER_DEFINITIONS "glucose"
    = Some (mkDef "Fasting Glucose" "mg/dL" "Metabolic" (70, 100) (72, 90) 54 126 (Some false))
  ∧ getStatus 126 "glucose" = critical.
Proof.
  split; [reflexivity|].
  refine (proj1 (getStatus_precedence BIOMARKER_DEFINITIONS "glucose" _ 126 _) _).
  - reflexivity.
  - right. vm_compute. discriminate.
Defined.

(** C2: a marker identifier without a catalog entry is classified
    [normal], whatever the value; [apoB] is such an identifier. *)
Theorem getStatus_unknown_marker :
  (∀ id v, lookupDef BIOMARKER_DEFINITIONS id = None → getStatus v id = normal) ∧
  lookupDef BIOMARKER_DEFINITIONS "apoB" = None ∧
  getStatus 50 "apoB" = normal.
Proof.
  split_and!; [|reflexivity..].
  intros id v Hid. unfold getStatus, getStatusWith. by rewrite Hid.
Qed.

(** C9: every entry of the catalog has its bounds in the order
    criticalLow, normal low, optimal low, optimal high, normal high,
    criticalHigh. *)
Theorem catalog_ranges_ordered :
  Forall (λ e, rangesOrdered e.2) BIOMARKER_DEFINITIONS.
Proof.
  assert (H : forallb (λ e, rangesOrderedb e.2) BIOMARKER_DEFINITIONS = true)
    by (vm_compute; reflexivity).
  apply Forall_forall. intros e He.
  apply list_elem_of_In in He.
  pose proof (proj1 (forallb_forall _ _) H e He) as Hb.
  unfold rangesOrderedb in Hb.
  repeat (apply andb_prop in Hb; destruct Hb as [Hb ?]).
  Qbool. by repeat split.
Qed.

(** ** Sorting *)

Section sorting.
Context {A : Type} (cmp : A → A → Z).

Lemma insertBy_Permutation x l : insertBy cmp x l ≡ₚ x :: l.
Proof.
  induction l as [|y l IH]; simpl; [done|].
  destruct (cmp x y <=? 0)%Z; [done|].
  rewrite IH. apply Permutation_swap.
Qed.

Lemma sortBy_Permutation l : sortBy cmp l ≡ₚ l.
Proof.
  induction l as [|x l IH]; simpl; [done|].
  unfold sortBy in *. simpl. by rewrite insertBy_Permutation, IH.
Qed.

Lemma sortBy_length l : length (sortBy cmp l) = length l.
Proof. by rewrite sortBy_Permutation. Qed.

Lemma sortBy_nil_inv l : sortBy cmp l = [] → l = [].
Proof.
  intros H. apply Permutation_nil_r. by rewrite <- H, sortBy_Permutation.
Qed.

(** The comparator decides a total preorder [R]. *)
Context (R : A → A → Prop).
Context (cmp_R : ∀ x y, (cmp x y ≤ 0)%Z ↔ R x y).
Context (R_total : ∀ x y, R x y ∨ R y x).
Context (R_trans : ∀ x y z, R x y → R y z → R x z).

Lemma insertBy_sorted x l :
  StronglySorted R l → StronglySorted R (insertBy cmp x l).
Proof using cmp_R R_total R_trans.
  induction 1 as [|y l Hs IH Hy]; simpl.
  - repeat constructor.
  - destruct (Z.leb_spec (cmp x y) 0) as [Hle|Hgt].
    + apply cmp_R in Hle. constructor; [by constructor|].
      constructor; [done|]. eapply Forall_impl; [exact Hy|].
      intros z Hz. by eapply R_trans.
    + constructor; [done|].
      rewrite insertBy_Permutation. constructor; [|done].
      destruct (R_total y x) as [|Hxy]; [done|].
      apply cmp_R in Hxy. lia.
Qed.

Lemma sortBy_sorted l : StronglySorted R (sortBy cmp l).
Proof using cmp_R R_total R_trans.
  induction l as [|x l IH]; [constructor|]. by apply insertBy_sorted.
Qed.

(** The first element of the sorted array is below every element. *)
Lemma sortBy_head l x :
  sortBy cmp l !! 0%nat = Some x → x ∈ l ∧ ∀ y, y ∈ l → R x y.
Proof using cmp_R R_total R_trans.
  intros Hx. pose proof (sortBy_sorted l) as Hs.
  pose proof (sortBy_Permutation l) as Hp.
  destruct (sortBy cmp l) as [|x' s]; [done|]. simplify_eq/=.
  split; [rewrite <- Hp; left|].
  intros y Hy. rewrite <- Hp in Hy.
  apply StronglySorted_inv in Hs as [_ Hall].
  apply elem_of_cons in Hy as [->|Hy].
  - by destruct (R_total x x).
  - by eapply Forall_forall in Hall.
Qed.
End sorting.

Lemma byDateAsc_le x y : (byDateAsc x y ≤ 0)%Z ↔ (date x ≤ date y)%Z.
Proof. unfold byDateAsc. lia. Qed.

Lemma byDateDesc_le x y : (byDateDesc x y ≤ 0)%Z ↔ (date y ≤ date x)%Z.
Proof. unfold byDateDesc. lia. Qed.

Lemma sortBy_byDateAsc_sorted l :
  StronglySorted (λ a b, (date a ≤ date b)%Z) (sortBy byDateAsc l).
Proof.
  apply sortBy_sorted; [apply byDateAsc_le|intros; lia|intros; lia].
Qed.

Lemma sortBy_byDateDesc_sorted l :
  StronglySorted (λ a b, (date b ≤ date a)%Z) (sortBy byDateDesc l).
Proof.
  apply sortBy_sorted; [apply byDateDesc_le|intros; lia|intros; lia].
Qed.

(** The record [latestRecord] picks is one of the marker's records and
    none of them is more recent. *)
Lemma latestRecord_Some records id r :
  latestRecord records id = Some r →
  r ∈ records ∧ markerId r = id ∧
  ∀ r', r' ∈ records → markerId r' = id → (date r' ≤ date r)%Z.
Proof.
  intros H.
  apply (sortBy_head byDateDesc (λ a b, (date b ≤ date a)%Z)) in H
    as [Hin Hmax]; [|apply byDateDesc_le|intros; lia|intros; lia].
  apply list_elem_of_filter in Hin as [Hid Hin].
  repeat split; [done..|].
  intros r' Hr' Hid'. apply Hmax. by apply list_elem_of_filter.
Qed.

Lemma latestRecord_None records id :
  latestRecord records id = None ↔ recordsOf records id = [].
Proof.
  unfold latestRecord. split.
  - intros H. apply (sortBy_nil_inv byDateDesc).
    by destruct (sortBy byDateDesc (recordsOf records id)).
  - by intros ->.
Qed.

(** The record [earliestRecord] picks is one of the marker's records and
    none of them is older. *)
Lemma earliestRecord_Some records id r :
  earliestRecord records id = Some r →
  r ∈ records ∧ markerId r = id ∧
  ∀ r', r' ∈ records → markerId r' = id → (date r ≤ date r')%Z.
Proof.
  intros H.
  apply (sortBy_head byDateAsc (λ a b, (date a ≤ date b)%Z)) in H
    as [Hin Hmin]; [|apply byDateAsc_le|intros; lia|intros; lia].
  apply list_elem_of_filter in Hin as [Hid Hin].
  repeat split; [done..|].
  intros r' Hr' Hid'. apply Hmin. by apply list_elem_of_filter.
Qed.

Lemma recordsOf_length_pos records id :
  (0 <? length (recordsOf records id))%nat = bool_decide (recordsOf records id ≠ []).
Proof. by destruct (recordsOf records id). Qed.

(** ** Trend analyzer *)

(** [tenths x] is an integer number of tenths nearest to [x]. *)
Lemma tenths_nearest x : Qabs (inject_Z (tenths x) / 10 - x) <= 1 # 20.
Proof.
  unfold tenths.
  pose proof (Qfloor_le (x * 10 + (1 # 2))) as Hlo.
  pose proof (Qlt_floor (x * 10 + (1 # 2))) as Hhi.
  rewrite inject_Z_plus in Hhi.
  set (n := inject_Z (Qfloor (x * 10 + (1 # 2)))) in *.
  change (inject_Z 1) with 1 in Hhi. clearbody n.
  assert (E : n / 10 == n * (1 # 10)) by field. rewrite E.
  apply Qabs_Qle_condition. split; lra.
Qed.

Lemma slice_last3_length {A} (l : list A) :
  length (slice_last3 l) = (length l `min` 3)%nat.
Proof. unfold slice_last3. rewrite length_drop. lia. Qed.

Lemma calculateTrend_short rs :
  (length rs < 2)%nat → calculateTrend rs = stableTrend.
Proof.
  intros H. unfold calculateTrend.
  by destruct (Nat.ltb_spec (length rs) 2); [|lia].
Qed.

Lemma jsbelow_spec x c : jsbelow x c = true ↔ jslt x (Finite c).
Proof. destruct x; simpl; [apply Qltb_lt|done..]. Qed.

Lemma jspositive_spec x : jspositive x = true ↔ jslt (Finite 0) x.
Proof. destruct x; simpl; [apply Qltb_lt|done..]. Qed.

Lemma jslt_0_not_positive x : jslt x (Finite 0) → jspositive x = false.
Proof.
  destruct x; simpl; try done. intros H. apply Qltb_ge. lra.
Qed.

Lemma calculateTrend_window rs :
  (2 ≤ length rs)%nat →
  ∃ r0 rn,
    head (slice_last3 (sortBy byDateAsc rs)) = Some r0 ∧
    last (slice_last3 (sortBy byDateAsc rs)) = Some rn ∧
    calculateTrend rs =
      let change :=
        if negb (jsIsZero (float64 (value r0)))
        then jsmul (jsdiv (jssub (float64 (value rn)) (float64 (value r0)))
                      (float64 (value r0))) (Finite 100)
        else Finite 0 in
      if jsbelow (jsabs change) 3 then stableTrend
      else mkTrend (if jspositive change then up else down)
             (ChangeStr (toFixed1 (jsabs change))).
Proof.
  intros Hlen. unfold calculateTrend.
  destruct (Nat.ltb_spec (length rs) 2); [lia|].
  cbv zeta.
  assert (Hr : length (slice_last3 (sortBy byDateAsc rs)) = (length rs `min` 3)%nat)
    by by rewrite slice_last3_length, sortBy_length.
  rewrite <- head_lookup, Nat.sub_1_r, <- last_lookup.
  destruct (slice_last3 (sortBy byDateAsc rs)) as [|r0 recent'];
    [simpl in Hr; lia|].
  destruct (last (r0 :: recent')) as [rn|] eqn:El.
  - by exists r0, rn.
  - by apply last_None in El.
Qed.

(** A decimal found by the search denotes the number. *)
Lemma nearestReading_reads x xz p v :
  nearestReading x xz p = Some v → readsAs x v = true.
Proof.
  unfold nearestReading. cbv zeta.
  destruct (readsAs x (xz / p * p)) eqn:Elo,
    (readsAs x ((xz / p + 1) * p)) eqn:Ehi; [|by intros [= <-]..|done].
  destruct (_ ?= _)%Z; [destruct (Z.even _)|..]; by intros [= <-].
Qed.

Lemma shortestReading_reads x xz j :
  readsAs x xz = true → readsAs x (shortestReading x xz j) = true.
Proof.
  intros Hx. induction j as [|j IH]; [done|].
  cbn [shortestReading].
  destruct (nearestReading x xz (10 ^ Z.of_nat (S j))) as [v|] eqn:E; [|done].
  by apply nearestReading_reads in E.
Qed.

Lemma readsAs_comp x y v : x == y → readsAs x v = readsAs y v.
Proof.
  intros Hxy. unfold readsAs. destruct (round64 (inject_Z v)) as [r| | |]; [|done..].
  unfold Qeqb. destruct (Qeq_bool r y) eqn:E.
  - apply Qeq_bool_iff. apply Qeq_bool_iff in E. by rewrite Hxy.
  - apply not_true_iff_false. intros H. apply not_true_iff_false in E. apply E.
    apply Qeq_bool_iff. apply Qeq_bool_iff in H. by rewrite <- Hxy.
Qed.

Lemma shortestReading_comp x y xz j :
  x == y → shortestReading x xz j = shortestReading y xz j.
Proof.
  intros Hxy. induction j as [|j IH]; [done|].
  cbn [shortestReading]. unfold nearestReading.
  by rewrite !(readsAs_comp x y _ Hxy), IH.
Qed.

(** C4: fewer than two observations give [{stable, 0}]; otherwise the
    trend is computed from the first and last value of the trailing
    three-observation window of the date-sorted sequence, with change 0
    for a zero first value and [(last - first) / first * 100], evaluated
    on doubles as the code does, otherwise; it is [{stable, 0}] below 3
    percent, and else the direction of the change with its magnitude
    rounded to one decimal: below [1e21] the text shows the tenth nearest
    to the double, from [1e21] on a decimal in exponent notation that
    denotes the double. [100, 100, 106] gives [{up, 6.0}] and [100, 101]
    gives [{stable, 0}]; [80, 29], an exact change of -63.75, gives
    [{down, 63.7}], the change on doubles being -63.74999999999999. *)
Theorem calculateTrend_contract :
  (∀ rs, trendContract rs (calculateTrend rs)) ∧
  (∀ x, 0 <= x → x < 10 ^ 21 →
     toFixed1 (Finite x)
       = pretty (tenths x / 10)%Z +:+ "." +:+ pretty (tenths x mod 10)%Z ∧
     Qabs (inject_Z (tenths x) / 10 - x) <= 1 # 20) ∧
  (∀ x, 10 ^ 21 <= x → readsAs x (Qfloor x) = true →
     ∃ v, toFixed1 (Finite x) = exponentForm v ∧ readsAs x v = true) ∧
  calculateTrend [mkRecord "ldl" 100 1; mkRecord "ldl" 100 2; mkRecord "ldl" 106 3]
    = mkTrend up (ChangeStr "6.0") ∧
  calculateTrend [mkRecord "ldl" 100 1; mkRecord "ldl" 101 2] = stableTrend ∧
  calculateTrend [mkRecord "ldl" 80 1; mkRecord "ldl" 29 2]
    = mkTrend down (ChangeStr "63.7").
Proof.
  split_and!; [| | |by vm_compute..].
  - intros rs. split; [apply calculateTrend_short|].
    intros Hlen.
    destruct (calculateTrend_window rs Hlen) as (r0 & rn & Hhd & Hlast & ->).
    set (sorted := sortBy byDateAsc rs) in *.
    exists sorted, (take (length sorted - 3) sorted), (slice_last3 sorted), r0, rn.
    exists (if negb (jsIsZero (float64 (value r0)))
            then jsmul (jsdiv (jssub (float64 (value rn)) (float64 (value r0)))
                          (float64 (value r0))) (Finite 100)
            else Finite 0).
    cbv zeta. split_and!.
    + apply sortBy_Permutation.
    + apply sortBy_byDateAsc_sorted.
    + unfold slice_last3. by rewrite take_drop.
    + unfold sorted. by rewrite slice_last3_length, sortBy_length.
    + done.
    + done.
    + by intros ->.
    + by intros ->.
    + intros Hlt%jsbelow_spec. by rewrite Hlt.
    + intros Hge Hpos%jspositive_spec.
      destruct (jsbelow _ 3) eqn:E; [by apply jsbelow_spec in E|].
      by rewrite Hpos.
    + intros Hge Hneg%jslt_0_not_positive.
      destruct (jsbelow _ 3) eqn:E; [by apply jsbelow_spec in E|].
      by rewrite Hneg.
  - intros x Hx Hlt. split; [|apply tenths_nearest].
    unfold toFixed1, fixed1.
    assert (Hb : Qleb (10 ^ 21) (Qabs x) = false)
      by (apply Qleb_gt; by rewrite Qabs_pos).
    assert (Hn : Qltb x 0 = false) by by apply Qltb_ge.
    rewrite Hb, Hn. simpl.
    assert (Ht : tenths (Qabs x) = tenths x).
    { unfold tenths. apply Qfloor_comp. by rewrite Qabs_pos. }
    by rewrite Ht.
  - intros x Hx Hr.
    assert (H0 : 0 <= x).
    { eapply Qle_trans; [|exact Hx]. by vm_compute. }
    assert (Ha : Qabs x == x) by by apply Qabs_pos.
    unfold toFixed1, toStringLarge.
    assert (Hb : Qleb (10 ^ 21) (Qabs x) = true)
      by (apply Qleb_le; by rewrite Ha).
    assert (Hn : Qltb x 0 = false) by by apply Qltb_ge.
    rewrite Hb, Hn. eexists. split; [reflexivity|].
    rewrite (Qfloor_comp _ _ Ha), (shortestReading_comp _ _ _ _ Ha).
    by apply shortestReading_reads.
Qed.

(** [float64] on some decimals: 0.1 and 0.85 are not doubles, the
    largest double plus half a unit in its last place overflows, and
    half the smallest subnormal number is rounded to zero. *)
Example float64_values :
  float64 0.1 = Finite (3602879701896397 # 36028797018963968) ∧
  float64 0.85 = Finite (7656119366529843 # 9007199254740992) ∧
  float64 106 = Finite 106 ∧
  float64 (2 ^ 1024 - 2 ^ 970) = PosInf ∧
  float64 (2 ^ (-1075)) = Finite 0.
Proof. split_and!; by vm_compute. Qed.

(** The percent changes are those of double arithmetic: 80 to 29 is
    printed as 63.7 (the exact change is 63.75), 80 to 103 as 28.7, and a
    change of [1e24] percent in exponent notation. *)
Example calculateTrend_doubles :
  calculateTrend [mkRecord "ldl" 80 1; mkRecord "ldl" 29 2]
    = mkTrend down (ChangeStr "63.7") ∧
  calculateTrend [mkRecord "ldl" 80 1; mkRecord "ldl" 103 2]
    = mkTrend up (ChangeStr "28.7") ∧
  calculateTrend [mkRecord "ldl" 1 1; mkRecord "ldl" (10 ^ 22) 2]
    = mkTrend up (ChangeStr "1e+24").
Proof. split_and!; by vm_compute. Qed.

(** ** Goal progress *)

(** After the in-place sort the array [markerRecords] starts with the
    latest record, so the baseline read from it is the current value. *)
Lemma progressM_run g records :
  (progressM g records []).1 =
    match latestRecord records (goalMarkerId g) with
    | Some latest =>
      if negb (Qeqb (targetValue g) 0) then
        let baseline := value latest in
        let totalChange := Qabs (targetValue g - baseline) in
        let actualChange := Qabs (value latest - baseline) in
        if (Qltb (targetValue g) baseline && Qltb baseline (value latest))
           || (Qltb baseline (targetValue g) && Qltb (value latest) baseline)
        then 0
        else if Qltb 0 totalChange then Qmin 100 ((actualChange / totalChange) * 100)
        else 0
      else 0
    | None => 0
    end.
Proof.
  unfold progressM, latestRecord, mbind, M_bind, mret, M_ret,
    Array_new, Array_sort, Array_get, Array_length. simpl.
  destruct (sortBy byDateDesc (recordsOf records (goalMarkerId g)) !! 0%nat)
    as [latest|] eqn:E; simpl; [|done].
  destruct (negb (Qeqb (targetValue g) 0)); simpl; [|done].
  destruct (1 <? _)%nat; simpl; [rewrite E; simpl|]; by destruct (_ || _).
Qed.

Lemma goalProgress_zero g records : goalProgress g records == 0.
Proof.
  unfold goalProgress. rewrite progressM_run.
  destruct (latestRecord records (goalMarkerId g)) as [latest|]; [|reflexivity].
  destruct (negb _); [|reflexivity]. cbv zeta.
  destruct (_ || _); [reflexivity|].
  destruct (Qltb 0 _) eqn:Et; [|reflexivity].
  apply Qltb_lt in Et.
  assert (E0 : Qabs (value latest - value latest) == 0).
  { assert (E : value latest - value latest == 0) by ring. by rewrite E. }
  assert (E : 0 / Qabs (targetValue g - value latest) * 100 == 0)
    by (unfold Qdiv; ring).
  rewrite E0, E. by apply Q.min_r.
Qed.

(** C1: with the earliest observation 100, the latest 85 and the target
    70 the specification's progress is 50; the code reports 0. *)
Theorem goalProgress_baseline_example :
  let g := mkGoal "ldl" 70 in
  let rs := [mkRecord "ldl" 100 1; mkRecord "ldl" 85 2] in
  spec_baseline rs "ldl" = Some 100 ∧
  spec_goalProgress g rs == 50 ∧
  goalProgress g rs == 0.
Proof. repeat split. Qed.

(** C8: when the target lies on one side of the baseline (the earliest
    observation, or the latest when there is only one) and the latest
    value on the other, the progress is 0. *)
Theorem goalProgress_wrong_direction g rs latest baseline :
  latestRecord rs (goalMarkerId g) = Some latest →
  spec_baseline rs (goalMarkerId g) = Some baseline →
  (targetValue g < baseline ∧ baseline < value latest)
  ∨ (baseline < targetValue g ∧ value latest < baseline) →
  goalProgress g rs == 0.
Proof. intros _ _ _. apply goalProgress_zero. Qed.

(** Baseline 100, target 70, latest 110. *)
Lemma goalProgress_wrong_direction_witness :
  let g := mkGoal "ldl" 70 in
  let rs := [mkRecord "ldl" 100 1; mkRecord "ldl" 110 2] in
  latestRecord rs "ldl" = Some (mkRecord "ldl" 110 2) ∧
  spec_baseline rs "ldl" = Some 100 ∧
  (70 < 100 ∧ 100 < 110) ∧
  goalProgress g rs == 0.
Proof.
  split_and!; [reflexivity..|].
  apply (goalProgress_wrong_direction (mkGoal "ldl" 70)
           [mkRecord "ldl" 100 1; mkRecord "ldl" 110 2]
           (mkRecord "ldl" 110 2) 100);
    [reflexivity|reflexivity|left; split; reflexivity].
Defined.

(** ** Pattern detector *)

Lemma above_spec v c : above v c = true ↔ ∃ x, v = Some x ∧ c < x.
Proof.
  destruct v as [x|]; simpl; [rewrite Qltb_lt|]; split.
  - by exists x.
  - by intros (? & [= <-] & ?).
  - done.
  - by intros (? & ? & ?).
Qed.

Lemma below_spec v c : below v c = true ↔ ∃ x, v = Some x ∧ x < c.
Proof.
  destruct v as [x|]; simpl; [rewrite Qltb_lt|]; split.
  - by exists x.
  - by intros (? & [= <-] & ?).
  - done.
  - by intros (? & ? & ?).
Qed.

Lemma truthy_spec v : truthy v = true ↔ ∃ x, v = Some x ∧ ¬ x == 0.
Proof.
  destruct v as [x|]; simpl; [rewrite negb_true_iff, Qeqb_neq|]; split.
  - by exists x.
  - by intros (? & [= <-] & ?).
  - done.
  - by intros (? & ? & ?).
Qed.

Lemma truthy_zero x : x == 0 → truthy (Some x) = false.
Proof. intros H. simpl. apply negb_false_iff. by apply Qeqb_eq. Qed.

Lemma latestStep_eq records latest id :
  latestStep records latest id =
    match latestValue records id with
    | Some v => <[id := v]> latest
    | None => latest
    end.
Proof.
  unfold latestStep, latestValue. rewrite recordsOf_length_pos.
  destruct (latestRecord records id) as [r|] eqn:E; simpl; [|by case_bool_decide].
  rewrite bool_decide_true; [done|].
  intros Hnil. apply latestRecord_None in Hnil. congruence.
Qed.

Lemma foldl_latestStep_lookup records ids (m : gmap string Q) id :
  foldl (latestStep records) m ids !! id =
    if decide (id ∈ ids) then
      match latestValue records id with
      | Some v => Some v
      | None => m !! id
      end
    else m !! id.
Proof.
  revert m. induction ids as [|k ids IH]; intros m.
  - destruct (decide (id ∈ [])) as [Hin|]; [by apply elem_of_nil in Hin|done].
  - change (foldl (latestStep records) m (k :: ids))
      with (foldl (latestStep records) (latestStep records m k) ids).
    rewrite IH, latestStep_eq.
    assert (Hstep : (match latestValue records k with
                     | Some v => <[k:=v]> m
                     | None => m
                     end) !! id =
                    if decide (k = id) then
                      match latestValue records id with
                      | Some v => Some v
                      | None => m !! id
                      end
                    else m !! id).
    { destruct (decide (k = id)) as [Heq|Hne].
      - subst k. destruct (latestValue records id); [apply lookup_insert_eq|done].
      - destruct (latestValue records k); [by rewrite lookup_insert_ne|done]. }
    rewrite Hstep.
    destruct (decide (id ∈ ids)) as [Hin|Hnin], (decide (k = id)) as [Heq|Hne],
      (decide (id ∈ k :: ids)) as [Hin'|Hnin']; try done.
    + by destruct (latestValue records id).
    + exfalso. apply Hnin'. by right.
    + exfalso. apply Hnin'. by right.
    + exfalso. apply Hnin'. subst. left.
    + apply elem_of_cons in Hin' as [?|?]; by subst.
Qed.

(** The object [latest] holds the latest value of every catalog marker
    that has data, and nothing else. *)
Lemma latestValues_lookup records id :
  latestValues records !! id =
    if decide (id ∈ keys BIOMARKER_DEFINITIONS) then latestValue records id else None.
Proof.
  unfold latestValues. rewrite foldl_latestStep_lookup, lookup_empty.
  case_decide; [|done]. by destruct (latestValue records id).
Qed.

Lemma latestValues_catalog records id :
  bool_decide (id ∈ keys BIOMARKER_DEFINITIONS) = true →
  latestValues records !! id = latestValue records id.
Proof.
  intros H%bool_decide_eq_true. by rewrite latestValues_lookup, decide_True.
Qed.

Lemma filter_ext_in {A} (P1 P2 : A → Prop)
    `{!∀ x, Decision (P1 x), !∀ x, Decision (P2 x)} (l : list A) :
  (∀ x, x ∈ l → P1 x ↔ P2 x) → filter P1 l = filter P2 l.
Proof.
  induction l as [|a l IH]; intros Hext; [done|].
  assert (IH' : filter P1 l = filter P2 l)
    by (apply IH; intros x Hx; apply Hext; by right).
  assert (Ha : P1 a ↔ P2 a) by (apply Hext; left).
  destruct (decide (P1 a)) as [H1|H1].
  - rewrite !filter_cons_True by tauto. by rewrite IH'.
  - rewrite !filter_cons_False by tauto. by rewrite IH'.
Qed.

Lemma metabolicIds_catalog :
  Forall (λ m, bool_decide (m ∈ keys BIOMARKER_DEFINITIONS) = true) metabolicIds.
Proof. repeat (constructor; [vm_compute; reflexivity|]). constructor. Qed.

Lemma metabolicFlagList_latestValues records :
  metabolicFlagList (latestValues records) = metabolicConditions records.
Proof.
  unfold metabolicFlagList, metabolicConditions.
  by rewrite !latestValues_catalog by (vm_compute; reflexivity).
Qed.

Lemma withData_metabolic records :
  withData (latestValues records) metabolicIds
  = filter (λ m, Is_true (truthy (latestValue records m))) metabolicIds.
Proof.
  apply filter_ext_in. intros m Hm.
  pose proof (proj1 (Forall_forall _ _) metabolicIds_catalog m Hm) as Hc.
  by rewrite (latestValues_catalog _ _ Hc).
Qed.

(** What each of the four pushes of [detectPatterns] guarantees, for any
    object [latest]. *)
Lemma metabolicPattern_type (latest : gmap string Q) p :
  p ∈ metabolicPattern latest → type p = "metabolic_syndrome".
Proof.
  unfold metabolicPattern. destruct (3 <=? _)%nat; [|by intros ?%elem_of_nil].
  by intros ->%list_elem_of_singleton.
Qed.

Lemma anemiaPattern_inv (latest : gmap string Q) p :
  p ∈ anemiaPattern latest →
  type p = "iron_deficiency" ∧
  truthy (latest !! "hemoglobin") = true ∧ truthy (latest !! "ferritin") = true.
Proof.
  unfold anemiaPattern.
  destruct (truthy (latest !! "hemoglobin")), (truthy (latest !! "ferritin")),
    (below (latest !! "hemoglobin") 12), (below (latest !! "ferritin") 30);
    cbn [andb]; try (by intros ?%elem_of_nil).
  by intros ->%list_elem_of_singleton.
Qed.

Lemma thyroidPattern_inv (latest : gmap string Q) p :
  p ∈ thyroidPattern latest →
  type p = "thyroid" ∧ truthy (latest !! "tsh") = true.
Proof.
  unfold thyroidPattern. cbv zeta.
  destruct (truthy (latest !! "tsh")); cbn [andb]; [|by intros ?%elem_of_nil].
  destruct (_ || _); [|by intros ?%elem_of_nil].
  by intros ->%list_elem_of_singleton.
Qed.

Lemma kidneyPattern_inv (latest : gmap string Q) p :
  p ∈ kidneyPattern latest →
  type p = "kidney" ∧ truthy (latest !! "egfr") = true.
Proof.
  unfold kidneyPattern.
  destruct (above (latest !! "creatinine") 1.3), (truthy (latest !! "egfr")),
    (below (latest !! "egfr") 60); cbn [andb]; try (by intros ?%elem_of_nil).
  by intros ->%list_elem_of_singleton.
Qed.

Lemma detectPatterns_elem records p :
  p ∈ detectPatterns records ↔
  p ∈ metabolicPattern (latestValues records) ∨
  p ∈ anemiaPattern (latestValues records) ∨
  p ∈ thyroidPattern (latestValues records) ∨
  p ∈ kidneyPattern (latestValues records).
Proof. unfold detectPatterns. cbv zeta. by rewrite !elem_of_app. Qed.

Lemma detectPatterns_metabolic records p :
  p ∈ detectPatterns records ∧ isMetabolic p
  ↔ p ∈ metabolicPattern (latestValues records).
Proof.
  rewrite detectPatterns_elem. unfold isMetabolic. split.
  - intros [[H|[H|[H|H]]] Ht]; [done|exfalso..].
    + apply anemiaPattern_inv in H as [H _]. congruence.
    + apply thyroidPattern_inv in H as [H _]. congruence.
    + apply kidneyPattern_inv in H as [H _]. congruence.
  - intros H. split; [by left|]. by apply metabolicPattern_type in H.
Qed.

Lemma metabolicFlagList_hdl (latest : gmap string Q) :
  metabolicFlagList latest !! 2%nat
  = Some (truthy (latest !! "hdl") && below (latest !! "hdl") 40).
Proof. reflexivity. Qed.

(** The metabolic rule as stated fails when a marker's latest value is
    zero: with glucose 110, triglycerides 160, hdl 0 and hba1c 6.0 the
    pattern is emitted and lists three markers, although all four have
    data. *)
Lemma metabolicRule_as_stated_counterexample :
  let rs := [mkRecord "glucose" 110 1; mkRecord "triglycerides" 160 1;
             mkRecord "hdl" 0 1; mkRecord "hba1c" 6.0 1] in
  markers <$> detectPatterns rs = [["glucose"; "triglycerides"; "hba1c"]] ∧
  filter (hasData rs) metabolicIds = ["glucose"; "triglycerides"; "hdl"; "hba1c"] ∧
  ¬ metabolicRule_as_stated rs.
Proof.
  split_and!; [reflexivity..|].
  intros [_ H].
  specialize (H (mkPattern "metabolic_syndrome" attention "Metabolic Pattern Detected"
    "3 markers suggest metabolic syndrome risk. Consider discussing with your doctor."
    ["glucose"; "triglycerides"; "hba1c"])).
  destruct H as [_ H]; [by left|reflexivity|].
  vm_compute in H. discriminate H.
Qed.

Lemma metabolicPattern_latestValues records :
  metabolicPattern (latestValues records) =
    if (3 <=? length (filter Is_true (metabolicConditions records)))%nat then
      [ mkPattern "metabolic_syndrome" attention "Metabolic Pattern Detected"
          (pretty (length (filter Is_true (metabolicConditions records))) +:+
           " markers suggest metabolic syndrome risk. Consider discussing with your doctor.")
          (filter (λ m, Is_true (truthy (latestValue records m))) metabolicIds) ]
    else [].
Proof.
  unfold metabolicPattern, metabolicFlags.
  rewrite metabolicFlagList_latestValues.
  change ["glucose"; "triglycerides"; "hdl"; "hba1c"] with metabolicIds.
  by rewrite withData_metabolic.
Qed.

Lemma hdl_condition_spec v :
  truthy v && below v 40 = true ↔ ∃ x, v = Some x ∧ ¬ x == 0 ∧ x < 40.
Proof.
  rewrite andb_true_iff, truthy_spec, below_spec. split.
  - intros [(x & -> & Hx) (? & [= <-] & Hlt)]. by exists x.
  - intros (x & -> & Hx & Hlt). split; by exists x.
Qed.

(** C6 (amended): the metabolic pattern is emitted, with severity
    [attention], exactly when at least 3 of the conditions latest glucose
    > 100, latest triglycerides > 150, latest hdl nonzero and < 40, latest
    hba1c > 5.6 hold, and it lists exactly those of glucose,
    triglycerides, hdl and hba1c whose latest value exists and is not
    zero. *)
Theorem metabolic_rule records :
  ((∃ p, p ∈ detectPatterns records ∧ isMetabolic p) ↔
   (3 ≤ length (filter Is_true (metabolicConditions records)))%nat) ∧
  (∀ p, p ∈ detectPatterns records → isMetabolic p →
     severity p = attention ∧
     markers p = filter (λ m, Is_true (truthy (latestValue records m))) metabolicIds) ∧
  Forall2 (λ (b : bool) (P : Prop), b = true ↔ P) (metabolicConditions records)
    [ ∃ x, latestValue records "glucose" = Some x ∧ 100 < x;
      ∃ x, latestValue records "triglycerides" = Some x ∧ 150 < x;
      ∃ x, latestValue records "hdl" = Some x ∧ ¬ x == 0 ∧ x < 40;
      ∃ x, latestValue records "hba1c" = Some x ∧ 5.6 < x ] ∧
  (∀ m, Is_true (truthy (latestValue records m)) ↔
        ∃ x, latestValue records m = Some x ∧ ¬ x == 0).
Proof.
  pose proof (metabolicPattern_latestValues records) as Hmp.
  assert (Hconds : Forall2 (λ (b : bool) (P : Prop), b = true ↔ P)
            (metabolicConditions records)
            [ ∃ x, latestValue records "glucose" = Some x ∧ 100 < x;
              ∃ x, latestValue records "triglycerides" = Some x ∧ 150 < x;
              ∃ x, latestValue records "hdl" = Some x ∧ ¬ x == 0 ∧ x < 40;
              ∃ x, latestValue records "hba1c" = Some x ∧ 5.6 < x ]).
  { unfold metabolicConditions.
    constructor; [apply above_spec|].
    constructor; [apply above_spec|].
    constructor; [apply hdl_condition_spec|].
    constructor; [apply above_spec|constructor]. }
  assert (Htruthy : ∀ m, Is_true (truthy (latestValue records m)) ↔
                         ∃ x, latestValue records m = Some x ∧ ¬ x == 0).
  { intros m. rewrite Is_true_true. apply truthy_spec. }
  destruct (Nat.leb_spec 3 (length (filter Is_true (metabolicConditions records))))
    as [Hc|Hc].
  - split_and!; [|..|done|done].
    + split; [done|]. intros _. eexists.
      apply detectPatterns_metabolic. rewrite Hmp. left.
    + intros p Hp Ht.
      assert (Hm : p ∈ metabolicPattern (latestValues records))
        by by apply detectPatterns_metabolic.
      rewrite Hmp in Hm. apply list_elem_of_singleton in Hm. by subst p.
  - split_and!; [|..|done|done].
    + split; [|lia]. intros (p & Hp).
      apply detectPatterns_metabolic in Hp. rewrite Hmp in Hp.
      by apply elem_of_nil in Hp.
    + intros p Hp Ht.
      assert (Hm : p ∈ metabolicPattern (latestValues records))
        by by apply detectPatterns_metabolic.
      rewrite Hmp in Hm. by apply elem_of_nil in Hm.
Qed.

(** C10: a marker whose latest value is 0 passes no presence check: it is
    falsy in [latest], so a zero hdl does not raise the hdl flag, a zero
    tsh emits no thyroid pattern, a zero ferritin or hemoglobin emits no
    iron-deficiency pattern, and a zero egfr emits no kidney pattern; nor
    is such a marker listed by any [filter(m => latest[m])]. *)
Theorem zero_latest_is_absent records :
  (∀ id x, latestValue records id = Some x → x == 0 →
     truthy (latestValues records !! id) = false ∧
     ∀ ids, id ∉ withData (latestValues records) ids) ∧
  (∀ x, latestValue records "hdl" = Some x → x == 0 →
     metabolicFlagList (latestValues records) !! 2%nat = Some false) ∧
  (∀ x, latestValue records "tsh" = Some x → x == 0 →
     ∀ p, p ∈ detectPatterns records → type p ≠ "thyroid") ∧
  (∀ x, latestValue records "ferritin" = Some x ∨ latestValue records "hemoglobin" = Some x →
     x == 0 →
     ∀ p, p ∈ detectPatterns records → type p ≠ "iron_deficiency") ∧
  (∀ x, latestValue records "egfr" = Some x → x == 0 →
     ∀ p, p ∈ detectPatterns records → type p ≠ "kidney").
Proof.
  assert (Hfalsy : ∀ id x, latestValue records id = Some x → x == 0 →
                     truthy (latestValues records !! id) = false).
  { intros id x Hx H0. rewrite latestValues_lookup.
    case_decide; [|done]. rewrite Hx. by apply truthy_zero. }
  assert (Hpat : ∀ p, p ∈ detectPatterns records →
            (type p = "thyroid" → truthy (latestValues records !! "tsh") = true) ∧
            (type p = "iron_deficiency" →
               truthy (latestValues records !! "hemoglobin") = true ∧
               truthy (latestValues records !! "ferritin") = true) ∧
            (type p = "kidney" → truthy (latestValues records !! "egfr") = true)).
  { intros p [H|[H|[H|H]]]%detectPatterns_elem.
    - apply metabolicPattern_type in H. split_and!; congruence.
    - apply anemiaPattern_inv in H as (Ht & ? & ?). split_and!; (done || congruence).
    - apply thyroidPattern_inv in H as (Ht & ?). split_and!; (done || congruence).
    - apply kidneyPattern_inv in H as (Ht & ?). split_and!; (done || congruence). }
  split_and!.
  - intros id x Hx H0. split; [by eapply Hfalsy|].
    intros ids [Ht _]%list_elem_of_filter.
    rewrite (Hfalsy id x Hx H0) in Ht. done.
  - intros x Hx H0. by rewrite metabolicFlagList_hdl, (Hfalsy "hdl" x Hx H0).
  - intros x Hx H0 p Hp Ht.
    apply Hpat in Hp as (Hp & _ & _).
    rewrite (Hfalsy "tsh" x Hx H0) in Hp. by specialize (Hp Ht).
  - intros x Hx H0 p Hp Ht.
    apply Hpat in Hp as (_ & Hp & _). destruct (Hp Ht) as [Hh Hf].
    destruct Hx as [Hx|Hx].
    + rewrite (Hfalsy "ferritin" x Hx H0) in Hf. done.
    + rewrite (Hfalsy "hemoglobin" x Hx H0) in Hh. done.
  - intros x Hx H0 p Hp Ht.
    apply Hpat in Hp as (_ & _ & Hp).
    rewrite (Hfalsy "egfr" x Hx H0) in Hp. by specialize (Hp Ht).
Qed.

(** ** Score aggregation *)

Lemma scoreOf_statusPoints s : scoreOf s = statusPoints s.
Proof. by destruct s. Qed.

Lemma hasData_latestRecord records id :
  hasData records id ↔ is_Some (latestRecord records id).
Proof.
  unfold hasData. rewrite <- not_eq_None_Some, latestRecord_None.
  destruct (recordsOf records id); simpl; split; intros H; (done || lia).
Qed.

Lemma scoreStep_eq records acc entry :
  scoreStep records acc entry =
    if decide (hasData records entry.1)
    then (acc.1 + from_option statusPoints 0 (latestStatus records entry.1),
          acc.2 + 1)%Z
    else acc.
Proof.
  unfold scoreStep, latestStatus. cbv zeta.
  destruct (decide (hasData records entry.1)) as [Hd|Hd].
  - pose proof Hd as [r Hr]%hasData_latestRecord. rewrite Hr. simpl.
    unfold hasData in Hd. destruct (Nat.ltb_spec 0 (length (recordsOf records entry.1)));
      [|lia]. by rewrite scoreOf_statusPoints.
  - unfold hasData in Hd.
    by destruct (Nat.ltb_spec 0 (length (recordsOf records entry.1))).
Qed.

(** The loop over the markers of a category adds up the points of those
    with data and counts them. *)
Lemma foldl_scoreStep records entries acc :
  foldl (scoreStep records) acc entries =
    let ids := filter (hasData records) entries.*1 in
    (acc.1 + sumZ ((λ id, from_option statusPoints 0 (latestStatus records id)) <$> ids),
     acc.2 + Z.of_nat (length ids))%Z.
Proof.
  revert acc. induction entries as [|e entries IH]; intros [t c].
  - cbn. f_equal; lia.
  - change (foldl (scoreStep records) (t, c) (e :: entries))
      with (foldl (scoreStep records) (scoreStep records (t, c) e) entries).
    rewrite IH, scoreStep_eq. cbv zeta.
    change ((e :: entries).*1) with (e.1 :: entries.*1).
    destruct (decide (hasData records e.1)) as [Hd|Hd].
    + rewrite (filter_cons_True _ _ _ Hd), fmap_cons, length_cons.
      change (sumZ (?x :: ?l)) with (x + sumZ l)%Z.
      cbn [fst snd]. f_equal; lia.
    + by rewrite (filter_cons_False _ _ _ Hd).
Qed.

Lemma categoryEntry_eq records cat :
  categoryEntry records cat =
    mkCategoryScore cat (Math_round <$> categoryAverage records cat)
      (Z.of_nat (length (markersWithData records cat))).
Proof.
  unfold categoryEntry. cbv zeta. rewrite foldl_scoreStep. cbv zeta.
  unfold categoryAverage, categoryPoints, mean.
  fold (categoryMarkers cat). fold (markersWithData records cat).
  cbn [fst snd]. rewrite !Z.add_0_l.
  destruct (markersWithData records cat) as [|m ms]; [done|].
  destruct (Z.ltb_spec 0 (Z.of_nat (length (m :: ms)))); [|simpl in *; lia].
  rewrite fmap_cons. cbn [fmap option_fmap option_map].
  by rewrite !length_cons, length_fmap.
Qed.

Lemma categoryEntry_score_None records cat :
  cs_score (categoryEntry records cat) = None ↔ markersWithData records cat = [].
Proof.
  rewrite categoryEntry_eq. unfold categoryAverage, categoryPoints. simpl.
  by destruct (markersWithData records cat).
Qed.

Lemma filter_fmap_categoryEntry records (cats : list string) :
  filter (λ c, cs_score c ≠ None) (categoryEntry records <$> cats)
  = categoryEntry records <$> filter (λ cat, markersWithData records cat ≠ []) cats.
Proof.
  induction cats as [|cat cats IH]; [done|].
  rewrite fmap_cons.
  destruct (decide (markersWithData records cat = [])) as [Hn|Hn].
  - rewrite filter_cons_False by (by rewrite categoryEntry_score_None; intros ?).
    by rewrite filter_cons_False by (by intros ?).
  - rewrite filter_cons_True by (by rewrite categoryEntry_score_None).
    rewrite filter_cons_True by done. by rewrite fmap_cons, IH.
Qed.

Lemma foldl_scores_sum (cs : list CategoryScore) acc :
  foldl (λ sum c, sum + default 0 (cs_score c))%Z acc cs
  = (acc + sumZ ((λ c, default 0%Z (cs_score c)) <$> cs))%Z.
Proof.
  revert acc. induction cs as [|c cs IH]; intros acc.
  - change (acc = (acc + 0)%Z). lia.
  - change (foldl _ acc (c :: cs))
      with (foldl (λ sum c, sum + default 0 (cs_score c))%Z
              (acc + default 0 (cs_score c))%Z cs).
    rewrite IH, fmap_cons.
    change (sumZ (?x :: ?l)) with (x + sumZ l)%Z. lia.
Qed.

(** "Each category's score is the average" fails where the average is not
    an integer: three Metabolic markers at 100, 80 and 80 points average
    260/3 and the code scores 87. *)
Lemma scoreIsAverage_counterexample :
  let rs := [mkRecord "glucose" 80 1; mkRecord "hba1c" 5.5 1; mkRecord "insulin" 20 1] in
  categoryScores rs = [mkCategoryScore "Metabolic" (Some 87%Z) 3] ∧
  categoryPoints rs "Metabolic" = [100; 80; 80]%Z ∧
  ¬ scoreIsAverage rs "Metabolic".
Proof.
  split_and!; [by vm_compute..|].
  vm_compute. discriminate.
Qed.

(** C5 (amended): a category's score is the average, rounded to the
    nearest integer, of the points (optimal 100, normal 80, attention 50,
    critical 20) of the classified latest observation of exactly the
    catalog markers of the category that have data; a category without
    data is omitted; the overall score is the rounded unweighted mean of
    the present (rounded) category scores and undefined when there is
    none; one critical and one optimal marker score 60. *)
Theorem score_aggregation records :
  (∀ cat,
     cs_score (categoryEntry records cat) = Math_round <$> categoryAverage records cat ∧
     cs_count (categoryEntry records cat)
       = Z.of_nat (length (markersWithData records cat))) ∧
  categoryScores records =
    categoryEntry records <$> filter (λ cat, markersWithData records cat ≠ []) CATEGORIES ∧
  overallScore records =
    match (λ c, default 0%Z (cs_score c)) <$> categoryScores records with
    | [] => None
    | scores => Some (Math_round (mean scores))
    end ∧
  (∀ cat a b,
     markersWithData records cat = [a; b] →
     latestStatus records a = Some critical →
     latestStatus records b = Some optimal →
     cs_score (categoryEntry records cat) = Some 60%Z) ∧
  categoryScores [mkRecord "glucose" 130 1; mkRecord "hba1c" 5.0 1]
    = [mkCategoryScore "Metabolic" (Some 60%Z) 2].
Proof.
  split_and!.
  - intros cat. by rewrite categoryEntry_eq.
  - apply filter_fmap_categoryEntry.
  - unfold overallScore. cbv zeta. rewrite foldl_scores_sum, Z.add_0_l.
    destruct (categoryScores records) as [|c cs]; [done|].
    rewrite fmap_cons. unfold mean.
    by rewrite !length_cons, length_fmap.
  - intros cat a b Hm Ha Hb. rewrite categoryEntry_eq. simpl.
    unfold categoryAverage, categoryPoints. by rewrite Hm, !fmap_cons, Ha, Hb.
  - by vm_compute.
Qed.

(** ** Visit preparation *)

Lemma visitStep_ids records acc id :
  fm_id <$> (visitStep records acc id).1
    = (fm_id <$> acc.1) ++ (if flaggedb records id then [id] else []) ∧
  sc_id <$> (visitStep records acc id).2
    = (sc_id <$> acc.2) ++ (if changedb records id then [id] else []).
Proof.
  unfold visitStep, flaggedb, changedb, previousRecord, latestRecord. cbv zeta.
  destruct (sortBy byDateDesc (recordsOf records id) !! 0%nat) as [l|] eqn:El.
  - assert (Hpos : (0 <? length (recordsOf records id))%nat = true).
    { apply Nat.ltb_lt. rewrite <- (sortBy_length byDateDesc).
      by eapply lookup_lt_Some. }
    rewrite Hpos. cbn [fst snd]. split.
    + destruct (_ || _); [|by rewrite app_nil_r].
      by rewrite fmap_app.
    + destruct (sortBy byDateDesc (recordsOf records id) !! 1%nat) as [p|];
        [|by rewrite app_nil_r].
      destruct (absExceeds _ _); [|by rewrite app_nil_r].
      by rewrite fmap_app.
  - destruct (0 <? _)%nat; by rewrite !app_nil_r.
Qed.

Lemma foldl_visitStep_ids records ids acc :
  fm_id <$> (foldl (visitStep records) acc ids).1
    = (fm_id <$> acc.1) ++ filter (λ id, Is_true (flaggedb records id)) ids ∧
  sc_id <$> (foldl (visitStep records) acc ids).2
    = (sc_id <$> acc.2) ++ filter (λ id, Is_true (changedb records id)) ids.
Proof.
  revert acc. induction ids as [|id ids IH]; intros acc.
  - by rewrite !app_nil_r.
  - change (foldl (visitStep records) acc (id :: ids))
      with (foldl (visitStep records) (visitStep records acc id) ids).
    destruct (IH (visitStep records acc id)) as [-> ->].
    destruct (visitStep_ids records acc id) as [-> ->].
    rewrite !filter_cons, <- !(assoc_L (++)).
    split.
    + by destruct (flaggedb records id); [rewrite decide_True by done
                                         |rewrite decide_False by (by intros ?)].
    + by destruct (changedb records id); [rewrite decide_True by done
                                         |rewrite decide_False by (by intros ?)].
Qed.

Lemma flaggedb_spec records id : flaggedb records id = true ↔ isFlagged records id.
Proof.
  unfold flaggedb, isFlagged.
  destruct (latestRecord records id) as [r|].
  - rewrite orb_true_iff, !bool_decide_eq_true. split.
    + intros H. by exists r.
    + by intros (? & [= <-] & H).
  - split; [done|]. by intros (? & ? & _).
Qed.

(** [Math.abs(x) > c] as a proposition. *)
Lemma absExceeds_spec x c : absExceeds x c = true ↔ jslt (Finite c) (jsabs x).
Proof. destruct x; simpl; [apply Qltb_lt|done..]. Qed.

Lemma previousRecord_is_Some records id :
  is_Some (previousRecord records id) ↔ (2 ≤ length (recordsOf records id))%nat.
Proof.
  unfold previousRecord. rewrite lookup_lt_is_Some, sortBy_length. lia.
Qed.

(** The contract as stated fails on a negative previous value: with
    hs-CRP going from -1 to 2 the code lists the marker (|-300| > 15),
    while |2 - (-1)| / (-1) * 100 = -300 does not exceed 15. *)
Lemma visitPrep_as_stated_counterexample :
  let rs := [mkRecord "crp" (-1) 1; mkRecord "crp" 2 2] in
  sc_id <$> significantChanges rs = ["crp"] ∧
  exceeds (claimedChange 2 (-1)) 15 = false ∧
  ¬ visitPrep_as_stated rs.
Proof.
  split_and!; [by vm_compute..|].
  intros H.
  destruct (H "crp") as [_ [Hc _]].
  { refine (bool_decide_unpack _ _). vm_compute. exact I. }
  destruct Hc as (l & p & Hl & Hp & He).
  { refine (bool_decide_unpack _ _). vm_compute. exact I. }
  vm_compute in Hl. vm_compute in Hp.
  injection Hl as <-. injection Hp as <-.
  vm_compute in He. discriminate He.
Qed.

(** C7 (amended): [flaggedMarkers] holds exactly the catalog markers
    whose latest observation classifies as [attention] or [critical];
    [significantChanges] holds only catalog markers with at least two
    observations and, of those whose second-latest value is not zero,
    exactly the ones whose latest and second-latest values satisfy
    |(latest - previous) / previous * 100| > 15, the expression being
    evaluated on doubles as the code does and the absolute value taken
    of the whole percent change. *)
Theorem visitPreparation_contract records id :
  (id ∈ fm_id <$> flaggedMarkers records ↔
   id ∈ keys BIOMARKER_DEFINITIONS ∧ isFlagged records id) ∧
  (id ∈ sc_id <$> significantChanges records →
   id ∈ keys BIOMARKER_DEFINITIONS ∧ (2 ≤ length (recordsOf records id))%nat) ∧
  (∀ l p, latestRecord records id = Some l →
          previousRecord records id = Some p →
          jsIsZero (float64 (value p)) = false →
     (id ∈ sc_id <$> significantChanges records ↔
      id ∈ keys BIOMARKER_DEFINITIONS ∧
      jslt (Finite 15)
        (jsabs (jsmul (jsdiv (jssub (float64 (value l)) (float64 (value p)))
                         (float64 (value p))) (Finite 100))))) ∧
  (is_Some (previousRecord records id) ↔ (2 ≤ length (recordsOf records id))%nat).
Proof.
  unfold flaggedMarkers, significantChanges, VisitPreparation.
  destruct (foldl_visitStep_ids records (keys BIOMARKER_DEFINITIONS) ([], []))
    as [-> ->].
  cbn [fst snd fmap list_fmap app].
  rewrite !list_elem_of_filter, !Is_true_true, flaggedb_spec.
  split_and!.
  - tauto.
  - unfold changedb. intros [Hc Hin]. split; [done|].
    apply previousRecord_is_Some.
    destruct (latestRecord records id) as [l|]; [|done].
    by destruct (previousRecord records id) as [p|].
  - intros l p Hl Hp _. rewrite list_elem_of_filter, Is_true_true.
    unfold changedb. rewrite Hl, Hp, absExceeds_spec.
    unfold percentChange. tauto.
  - apply previousRecord_is_Some.
Qed.

(** * Further properties *)

(** ** Sorting, continued *)

(** The first element of the sorted array, computed in one pass: the
    earliest element that none of the later ones beats. *)
Lemma sortBy_lookup_0 {A} (cmp : A → A → Z) (l : list A) :
  sortBy cmp l !! 0%nat =
    foldr (λ x acc, match acc with
                    | Some y => if (cmp x y <=? 0)%Z then Some x else Some y
                    | None => Some x
                    end) None l.
Proof.
  induction l as [|x l IH]; [done|].
  change (sortBy cmp (x :: l)) with (insertBy cmp x (sortBy cmp l)).
  cbn [foldr]. rewrite <- IH.
  destruct (sortBy cmp l) as [|y s]; [done|]. simpl.
  by destruct (cmp x y <=? 0)%Z.
Qed.

(** Sorting leaves a sorted array as it is. *)
Lemma sortBy_sorted_id {A} (cmp : A → A → Z) (R : A → A → Prop) (l : list A) :
  (∀ x y, R x y → (cmp x y ≤ 0)%Z) →
  StronglySorted R l → sortBy cmp l = l.
Proof.
  intros HR. induction 1 as [|x l Hs IH Hx]; [done|].
  change (sortBy cmp (x :: l)) with (insertBy cmp x (sortBy cmp l)).
  rewrite IH. destruct l as [|y l]; [done|]. simpl.
  apply Forall_cons in Hx as [Hxy _].
  by destruct (Z.leb_spec (cmp x y) 0); [|apply HR in Hxy; lia].
Qed.

Lemma sortBy_byDateAsc_idemp l :
  sortBy byDateAsc (sortBy byDateAsc l) = sortBy byDateAsc l.
Proof.
  apply (sortBy_sorted_id _ (λ a b, (date a ≤ date b)%Z)).
  - intros x y. apply byDateAsc_le.
  - apply sortBy_byDateAsc_sorted.
Qed.

(** Records of one date keep their order through the ascending sort. *)
Lemma insertBy_byDateAsc_filter_date d x l :
  filter (λ r, date r = d) (insertBy byDateAsc x l)
  = filter (λ r, date r = d) (x :: l).
Proof.
  induction l as [|y l IH]; [done|]. simpl.
  destruct (Z.leb_spec (byDateAsc x y) 0) as [Hle|Hgt]; [done|].
  unfold byDateAsc in Hgt.
  rewrite (filter_cons _ y), IH, !filter_cons.
  destruct (decide (date y = d)) as [Hy|Hy], (decide (date x = d)) as [Hx|Hx];
    try done. lia.
Qed.

Lemma sortBy_byDateAsc_filter_date d l :
  filter (λ r, date r = d) (sortBy byDateAsc l) = filter (λ r, date r = d) l.
Proof.
  induction l as [|x l IH]; [done|].
  change (sortBy byDateAsc (x :: l)) with (insertBy byDateAsc x (sortBy byDateAsc l)).
  by rewrite insertBy_byDateAsc_filter_date, !filter_cons, IH.
Qed.

(** X1: [getMarkerData] returns the records of the marker, each as often
    as in the input, in non-decreasing date order, and records of the same
    date in their input order. *)
Theorem getMarkerData_sorted_stable records id :
  getMarkerData records id ≡ₚ recordsOf records id ∧
  (∀ r, r ∈ getMarkerData records id ↔ r ∈ records ∧ markerId r = id) ∧
  StronglySorted (λ a b, (date a ≤ date b)%Z) (getMarkerData records id) ∧
  (∀ d, filter (λ r, date r = d) (getMarkerData records id)
        = filter (λ r, date r = d) (recordsOf records id)).
Proof.
  unfold getMarkerData. split_and!.
  - apply sortBy_Permutation.
  - intros r. rewrite sortBy_Permutation. unfold recordsOf.
    rewrite list_elem_of_filter. tauto.
  - apply sortBy_byDateAsc_sorted.
  - intros d. apply sortBy_byDateAsc_filter_date.
Qed.

(** X2: the trend of a marker is the same whether [calculateTrend] gets
    the marker's records as stored or already sorted by [getMarkerData],
    as the dashboard passes them. *)
Theorem calculateTrend_getMarkerData records id :
  calculateTrend (getMarkerData records id) = calculateTrend (recordsOf records id).
Proof.
  unfold calculateTrend, getMarkerData.
  by rewrite sortBy_byDateAsc_idemp, sortBy_length.
Qed.

(** ** Marker cards *)

Lemma BiomarkerCard_Some markerId data v :
  BiomarkerCard markerId data = Some v →
  ∃ def latest,
    lookupDef BIOMARKER_DEFINITIONS markerId = Some def ∧
    last data = Some latest ∧
    cv_value v = value latest ∧
    cv_date v = date latest ∧
    cv_status v = getStatus (value latest) markerId ∧
    cv_trendColor v =
      match direction (calculateTrend data) with
      | stable => None
      | d => Some (trendColor d (higherIsBetter def))
      end ∧
    cv_points v =
      if (1 <? length (slice_last 6 data))%nat
      then Some (sparklinePoints (slice_last 6 data)) else None.
Proof.
  unfold BiomarkerCard. rewrite Nat.sub_1_r, <- last_lookup.
  destruct (lookupDef BIOMARKER_DEFINITIONS markerId) as [def|]; [|done].
  destruct (last data) as [latest|]; [|done].
  intros [= <-]. by exists def, latest.
Qed.

Lemma StronglySorted_last {A} (R : A → A → Prop) (l : list A) z :
  StronglySorted R l → last l = Some z → ∀ x, x ∈ l → x = z ∨ R x z.
Proof.
  induction 1 as [|y l Hs IH Hy]; [done|].
  intros Hlast x Hx. destruct l as [|y' l].
  - apply list_elem_of_singleton in Hx. simpl in Hlast. left. congruence.
  - rewrite last_cons_cons in Hlast.
    apply elem_of_cons in Hx as [->|Hx]; [|by apply IH].
    right. eapply Forall_forall in Hy; [exact Hy|].
    by apply last_Some_elem_of.
Qed.

Lemma NoDup_fmap_inj_on {A B} (f : A → B) (l : list A) x y :
  NoDup (f <$> l) → x ∈ l → y ∈ l → f x = f y → x = y.
Proof.
  induction l as [|a l IH]; [by intros _ ?%elem_of_nil|].
  rewrite fmap_cons, NoDup_cons. intros [Ha Hnd].
  intros [->|Hx]%elem_of_cons [->|Hy]%elem_of_cons Hf; [done|..].
  - exfalso. apply Ha. rewrite Hf. by apply list_elem_of_fmap_2.
  - exfalso. apply Ha. rewrite <- Hf. by apply list_elem_of_fmap_2.
  - by apply IH.
Qed.

(** X3: the observation a marker card shows as latest (the last one of
    [getMarkerData]) has the same date as the one the score, pattern and
    visit computations use (the first one of the descending sort); when
    the marker's dates are pairwise different it is the same
    observation, so the card shows the same value and status. *)
Theorem BiomarkerCard_latest_agrees records id v r :
  BiomarkerCard id (getMarkerData records id) = Some v →
  latestRecord records id = Some r →
  cv_date v = date r ∧
  (NoDup (date <$> recordsOf records id) →
   cv_value v = value r ∧ cv_status v = getStatus (value r) id).
Proof.
  intros (def & latest & _ & Hlast & Hv & Hd & Hs & _)%BiomarkerCard_Some Hr.
  pose proof (latestRecord_Some _ _ _ Hr) as (Hin & Hid & Hmax).
  assert (Hl : latest ∈ recordsOf records id).
  { apply last_Some_elem_of in Hlast. unfold getMarkerData in Hlast.
    by rewrite sortBy_Permutation in Hlast. }
  assert (Hr' : r ∈ getMarkerData records id).
  { unfold getMarkerData. rewrite sortBy_Permutation.
    by apply list_elem_of_filter. }
  assert (Hdate : date latest = date r).
  { apply list_elem_of_filter in Hl as [Hlid Hlin].
    pose proof (Hmax latest Hlin Hlid).
    destruct (StronglySorted_last _ _ _ (sortBy_byDateAsc_sorted _) Hlast r Hr')
      as [->|?]; lia. }
  split; [congruence|]. intros Hnd.
  assert (latest = r) as ->; [|done].
  apply (NoDup_fmap_inj_on date (recordsOf records id)); try done.
  by apply list_elem_of_filter.
Qed.

Lemma BiomarkerCard_latest_agrees_witness :
  let records := [mkRecord "ldl" 120 2; mkRecord "tsh" 2 1; mkRecord "ldl" 90 5] in
  BiomarkerCard "ldl" (getMarkerData records "ldl")
    = Some (mkCardView "LDL Cholesterol" "Cardiovascular" normal 90 "mg/dL"
              (mkTrend down (ChangeStr "25.0")) (Some COLORS.optimal)
              (Some [(2, 120 # 30); (78, 900 # 30)]) COLORS.normal 5)
  ∧ latestRecord records "ldl" = Some (mkRecord "ldl" 90 5)
  ∧ NoDup (date <$> recordsOf records "ldl")
  ∧ (5%Z = 5%Z ∧ (90 = 90 ∧ normal = getStatus 90 "ldl")).
Proof.
  assert (Hnd : NoDup (date <$> recordsOf
            [mkRecord "ldl" 120 2; mkRecord "tsh" 2 1; mkRecord "ldl" 90 5] "ldl")).
  { refine (bool_decide_unpack _ _). vm_compute. exact I. }
  split; [by vm_compute|]. split; [by vm_compute|]. split; [exact Hnd|].
  pose proof (BiomarkerCard_latest_agrees
                [mkRecord "ldl" 120 2; mkRecord "tsh" 2 1; mkRecord "ldl" 90 5] "ldl"
                _ _ eq_refl eq_refl) as [Hd Hv].
  split; [exact Hd|exact (Hv Hnd)].
Defined.

(** With two observations of one date the card shows the one stored
    later and the score uses the one stored first. *)
Example BiomarkerCard_same_date_differs :
  let records := [mkRecord "ldl" 90 1; mkRecord "ldl" 170 1] in
  cv_status <$> BiomarkerCard "ldl" (getMarkerData records "ldl") = Some critical ∧
  latestStatus records "ldl" = Some normal.
Proof. split; by vm_compute. Qed.









(** X5: a marker card shows a trend arrow exactly when the trend is not
    stable; the arrow is in the optimal colour exactly when the trend
    goes up for a marker whose [higherIsBetter] is true or down for one
    whose [higherIsBetter] is false, and in the critical colour in every
    other case, so always for a marker whose [higherIsBetter] is null. *)
Theorem BiomarkerCard_trend_colour markerId data v def :
  BiomarkerCard markerId data = Some v →
  lookupDef BIOMARKER_DEFINITIONS markerId = Some def →
  (cv_trendColor v = None ↔ direction (calculateTrend data) = stable) ∧
  ∀ c, cv_trendColor v = Some c →
    (c = COLORS.optimal ↔
       (direction (calculateTrend data) = up ∧ higherIsBetter def = Some true)
       ∨ (direction (calculateTrend data) = down ∧ higherIsBetter def = Some false)) ∧
    (c ≠ COLORS.optimal → c = COLORS.critical).
Proof.
  intros (def' & latest & Hdef & _ & _ & _ & _ & Hc & _)%BiomarkerCard_Some Hdef2.
  assert (def' = def) as -> by congruence.
  rewrite Hc.
  destruct (direction (calculateTrend data)), (higherIsBetter def) as [[|]|];
    (split; [split; done|]); intros c [= <-]; simpl;
    (split; [split; [try done; auto|intros [[? ?]|[? ?]]; done]|done]).
Qed.

Lemma BiomarkerCard_trend_colour_witness :
  let data := [mkRecord "tsh" 2 1; mkRecord "tsh" 2 2; mkRecord "tsh" 5 3] in
  lookupDef BIOMARKER_DEFINITIONS "tsh"
    = Some (mkDef "TSH" "mIU/L" "Thyroid" (0.4, 4.0) (1.0, 2.5) 0.1 10.0 None) ∧
  cv_trendColor <$> BiomarkerCard "tsh" data = Some (Some COLORS.critical) ∧
  ∀ v, BiomarkerCard "tsh" data = Some v →
    (cv_trendColor v = None ↔ direction (calculateTrend data) = stable).
Proof.
  split; [by vm_compute|]. split; [by vm_compute|].
  intros v Hv.
  exact (proj1 (BiomarkerCard_trend_colour "tsh"
    [mkRecord "tsh" 2 1; mkRecord "tsh" 2 2; mkRecord "tsh" 5 3] v _ Hv eq_refl)).
Defined.

(** ** Scores, continued *)

Lemma sumZ_bounds (l : list Z) lo hi :
  Forall (λ x, lo ≤ x ≤ hi)%Z l →
  (lo * Z.of_nat (length l) ≤ sumZ l ≤ hi * Z.of_nat (length l))%Z.
Proof.
  induction 1 as [|x l Hx _ IH]; [simpl; lia|].
  change (sumZ (x :: l)) with (x + sumZ l)%Z. rewrite length_cons. lia.
Qed.

(** The rounded mean of integers between [lo] and [hi] lies between
    [lo] and [hi]. *)
Lemma Math_round_mean_bounds (l : list Z) lo hi :
  l ≠ [] → Forall (λ x, lo ≤ x ≤ hi)%Z l →
  (lo ≤ Math_round (mean l) ≤ hi)%Z.
Proof.
  intros Hne Hall. pose proof (sumZ_bounds l lo hi Hall) as [Hlo Hhi].
  assert (Hn : (0 < Z.of_nat (length l))%Z) by (destruct l; [done|simpl; lia]).
  unfold Math_round, mean.
  set (n := Z.of_nat (length l)) in *. set (s := sumZ l) in *.
  assert (Hq : inject_Z lo <= inject_Z s / inject_Z n ∧
               inject_Z s / inject_Z n <= inject_Z hi).
  { assert (Hn' : 0 < inject_Z n) by (change 0 with (inject_Z 0); by rewrite <- Zlt_Qlt).
    split.
    - apply Qle_shift_div_l; [done|]. by rewrite <- inject_Z_mult, <- Zle_Qle.
    - apply Qle_shift_div_r; [done|]. by rewrite <- inject_Z_mult, <- Zle_Qle. }
  revert Hq. generalize (inject_Z s / inject_Z n). intros q [Hql Hqh]. split.
  - rewrite <- (Qfloor_Z lo). apply Qfloor_resp_le. lra.
  - assert (Hlt : inject_Z (Qfloor (q + (1 # 2))) < inject_Z (hi + 1)).
    { eapply Qle_lt_trans; [apply Qfloor_le|].
      rewrite inject_Z_plus. change (inject_Z 1) with 1. lra. }
    rewrite <- Zlt_Qlt in Hlt. lia.
Qed.

Lemma categoryPoints_bounds records cat :
  Forall (λ x, 20 ≤ x ≤ 100)%Z (categoryPoints records cat).
Proof.
  unfold categoryPoints, markersWithData. apply Forall_fmap, Forall_forall.
  intros id [Hd _]%list_elem_of_filter.
  apply hasData_latestRecord in Hd as [r Hr].
  unfold compose, latestStatus. rewrite Hr. simpl.
  destruct (getStatus (value r) id); simpl; lia.
Qed.

Lemma categoryScores_elem records c :
  c ∈ categoryScores records →
  ∃ cat, cat ∈ CATEGORIES ∧ c = categoryEntry records cat ∧
         markersWithData records cat ≠ [].
Proof.
  unfold categoryScores. rewrite filter_fmap_categoryEntry.
  intros (cat & -> & [Hne Hin]%list_elem_of_filter)%list_elem_of_fmap.
  by exists cat.
Qed.

Lemma categoryEntry_score_bounds records cat :
  markersWithData records cat ≠ [] →
  ∃ s, cs_score (categoryEntry records cat) = Some s ∧ (20 ≤ s ≤ 100)%Z.
Proof.
  intros Hne. rewrite categoryEntry_eq. simpl.
  unfold categoryAverage.
  destruct (categoryPoints records cat) as [|p pts] eqn:E.
  { unfold categoryPoints in E. apply fmap_nil_inv in E. done. }
  eexists. split; [done|].
  apply Math_round_mean_bounds; [done|].
  rewrite <- E. apply categoryPoints_bounds.
Qed.

Lemma overallScore_eq records :
  overallScore records =
    match (λ c, default 0%Z (cs_score c)) <$> categoryScores records with
    | [] => None
    | scores => Some (Math_round (mean scores))
    end.
Proof.
  unfold overallScore. cbv zeta. rewrite foldl_scores_sum, Z.add_0_l.
  destruct (categoryScores records) as [|c cs]; [done|].
  rewrite fmap_cons. unfold mean.
  by rewrite !length_cons, length_fmap.
Qed.

(** X6: every category score shown is an integer between 20 and 100,
    computed from at least one marker, and so is the overall score
    whenever it is defined; a present score is never 0. *)
Theorem scores_between_20_and_100 records :
  (∀ c, c ∈ categoryScores records →
     ∃ s, cs_score c = Some s ∧ (20 ≤ s ≤ 100)%Z ∧ (1 ≤ cs_count c)%Z) ∧
  (∀ s, overallScore records = Some s → (20 ≤ s ≤ 100)%Z) ∧
  (is_Some (overallScore records) ↔ categoryScores records ≠ []).
Proof.
  assert (Hcs : ∀ c, c ∈ categoryScores records →
            ∃ s, cs_score c = Some s ∧ (20 ≤ s ≤ 100)%Z ∧ (1 ≤ cs_count c)%Z).
  { intros c (cat & _ & -> & Hne)%categoryScores_elem.
    destruct (categoryEntry_score_bounds records cat Hne) as (s & Hs & Hb).
    exists s. split; [done|]. split; [done|].
    rewrite categoryEntry_eq. simpl.
    destruct (markersWithData records cat); [done|simpl; lia]. }
  split_and!; [done|..].
  - intros s. rewrite overallScore_eq.
    destruct ((λ c, default 0%Z (cs_score c)) <$> categoryScores records)
      as [|x xs] eqn:E; [done|].
    intros [= <-]. apply Math_round_mean_bounds; [done|].
    rewrite <- E. apply Forall_fmap, Forall_forall. intros c Hc.
    unfold compose. destruct (Hcs c Hc) as (s & -> & Hb & _). done.
  - rewrite overallScore_eq.
    destruct (categoryScores records); simpl; split; (done || by eexists || by intros [? ?]).
Qed.

Lemma radarEntry_eq records cat :
  radarEntry records cat =
    mkRadarEntry (String.substring 0 8 cat)
      (default 0%Z (cs_score (categoryEntry records cat))) 100.
Proof.
  unfold radarEntry, categoryEntry. cbv zeta. simpl.
  by destruct (0 <? _)%Z.
Qed.

Lemma radarData_eq records (cats : list string) :
  filter (λ d, (0 < radar_score d)%Z) (radarEntry records <$> cats)
  = (λ c, mkRadarEntry (String.substring 0 8 (cs_category c))
            (default 0%Z (cs_score c)) 100)
      <$> filter (λ c, cs_score c ≠ None) (categoryEntry records <$> cats).
Proof.
  induction cats as [|cat cats IH]; [done|].
  rewrite !fmap_cons.
  destruct (decide (markersWithData records cat = [])) as [Hn|Hn].
  - pose proof (proj2 (categoryEntry_score_None records cat) Hn) as Hs.
    rewrite filter_cons_False by (rewrite radarEntry_eq, Hs; simpl; lia).
    by rewrite filter_cons_False by (by rewrite Hs; intros ?).
  - destruct (categoryEntry_score_bounds records cat Hn) as (s & Hs & Hb).
    rewrite filter_cons_True by (rewrite radarEntry_eq, Hs; simpl; lia).
    rewrite filter_cons_True by (by rewrite Hs).
    rewrite fmap_cons, IH, radarEntry_eq. by rewrite categoryEntry_eq.
Qed.

(** X7: the radar chart has one entry for each category the score
    dashboard shows, in the same order and with the same score, under
    the category name cut to 8 characters; it is rendered exactly when
    at least three categories have data. *)
Theorem HealthRadar_agrees_with_dashboard records :
  radarData records =
    (λ c, mkRadarEntry (String.substring 0 8 (cs_category c))
            (default 0%Z (cs_score c)) 100) <$> categoryScores records ∧
  (HealthRadar records = None ↔ (length (categoryScores records) < 3)%nat) ∧
  (∀ d, HealthRadar records = Some d → d = radarData records).
Proof.
  assert (Heq := radarData_eq records CATEGORIES).
  fold (radarData records) in Heq. fold (categoryScores records) in Heq.
  split_and!; [done|..].
  - unfold HealthRadar. rewrite Heq, length_fmap.
    destruct (Nat.ltb_spec (length (categoryScores records)) 3); split; (done || lia).
  - unfold HealthRadar. intros d. by destruct (_ <? _)%nat; intros [= <-].
Qed.

(** ** Pattern rules *)

Lemma withData_catalog records ids :
  Forall (λ m, bool_decide (m ∈ keys BIOMARKER_DEFINITIONS) = true) ids →
  withData (latestValues records) ids
  = filter (λ m, Is_true (truthy (latestValue records m))) ids.
Proof.
  intros Hids. apply filter_ext_in. intros m Hm.
  pose proof (proj1 (Forall_forall _ _) Hids m Hm) as Hc.
  by rewrite (latestValues_catalog _ _ Hc).
Qed.

Lemma anemiaPattern_latestValues records :
  anemiaPattern (latestValues records) =
    if truthy (latestValue records "hemoglobin") && below (latestValue records "hemoglobin") 12
       && truthy (latestValue records "ferritin") && below (latestValue records "ferritin") 30
    then [ mkPattern "iron_deficiency" attention "Iron Deficiency Pattern"
             "Low hemoglobin with low ferritin suggests possible iron deficiency."
             ["hemoglobin"; "ferritin"] ]
    else [].
Proof.
  unfold anemiaPattern.
  by rewrite !latestValues_catalog by (vm_compute; reflexivity).
Qed.

Lemma thyroidPattern_latestValues records :
  thyroidPattern (latestValues records) =
    let tsh := latestValue records "tsh" in
    if truthy tsh && (above tsh 4 || below tsh 0.4) then
      [ mkPattern "thyroid"
          (if above tsh 10 || below tsh 0.1 then critical else attention)
          "Thyroid Pattern Detected"
          ("TSH is " +:+ (if above tsh 4 then "elevated" else "low") +:+
           ". Further thyroid evaluation may be needed.")
          (filter (λ m, Is_true (truthy (latestValue records m)))
             ["tsh"; "freeT4"; "freeT3"]) ]
    else [].
Proof.
  unfold thyroidPattern. cbv zeta.
  rewrite withData_catalog
    by (repeat (constructor; [vm_compute; reflexivity|]); constructor).
  by rewrite !latestValues_catalog by (vm_compute; reflexivity).
Qed.

Lemma kidneyPattern_latestValues records :
  kidneyPattern (latestValues records) =
    if above (latestValue records "creatinine") 1.3
       && truthy (latestValue records "egfr") && below (latestValue records "egfr") 60
    then [ mkPattern "kidney" attention "Reduced Kidney Function"
             "Elevated creatinine with reduced eGFR suggests kidney function assessment needed."
             (filter (λ m, Is_true (truthy (latestValue records m)))
                ["creatinine"; "egfr"; "bun"]) ]
    else [].
Proof.
  unfold kidneyPattern.
  rewrite withData_catalog
    by (repeat (constructor; [vm_compute; reflexivity|]); constructor).
  by rewrite !latestValues_catalog by (vm_compute; reflexivity).
Qed.

Lemma detectPatterns_anemia records p :
  p ∈ detectPatterns records ∧ type p = "iron_deficiency"
  ↔ p ∈ anemiaPattern (latestValues records).
Proof.
  rewrite detectPatterns_elem. split.
  - intros [[H|[H|[H|H]]] Ht]; [exfalso|done|exfalso..].
    + apply metabolicPattern_type in H. congruence.
    + apply thyroidPattern_inv in H as [H _]. congruence.
    + apply kidneyPattern_inv in H as [H _]. congruence.
  - intros H. split; [by right; left|]. by apply anemiaPattern_inv in H as [? _].
Qed.

Lemma detectPatterns_thyroid records p :
  p ∈ detectPatterns records ∧ type p = "thyroid"
  ↔ p ∈ thyroidPattern (latestValues records).
Proof.
  rewrite detectPatterns_elem. split.
  - intros [[H|[H|[H|H]]] Ht]; [exfalso..|done|exfalso].
    + apply metabolicPattern_type in H. congruence.
    + apply anemiaPattern_inv in H as [H _]. congruence.
    + apply kidneyPattern_inv in H as [H _]. congruence.
  - intros H. split; [by right; right; left|].
    by apply thyroidPattern_inv in H as [? _].
Qed.

Lemma detectPatterns_kidney records p :
  p ∈ detectPatterns records ∧ type p = "kidney"
  ↔ p ∈ kidneyPattern (latestValues records).
Proof.
  rewrite detectPatterns_elem. split.
  - intros [[H|[H|[H|H]]] Ht]; [exfalso..|done].
    + apply metabolicPattern_type in H. congruence.
    + apply anemiaPattern_inv in H as [H _]. congruence.
    + apply thyroidPattern_inv in H as [H _]. congruence.
  - intros H. split; [by right; right; right|].
    by apply kidneyPattern_inv in H as [? _].
Qed.

(** Membership in a list that is a singleton under a condition. *)
Lemma elem_of_if_singleton {A} (b : bool) (x p : A) :
  p ∈ (if b then [x] else []) ↔ b = true ∧ p = x.
Proof.
  destruct b.
  - rewrite list_elem_of_singleton. split; [done|by intros [_ ?]].
  - split; [by intros ?%elem_of_nil|by intros [? _]].
Qed.

Lemma truthy_below_spec v c :
  truthy v && below v c = true ↔ ∃ x, v = Some x ∧ ¬ x == 0 ∧ x < c.
Proof.
  rewrite andb_true_iff, truthy_spec, below_spec. split.
  - intros [(x & -> & Hx) (? & [= <-] & Hlt)]. by exists x.
  - intros (x & -> & Hx & Hlt). split; by exists x.
Qed.

Lemma andb_pairs (a b c d : bool) :
  a && b && c && d = true ↔ a && b = true ∧ c && d = true.
Proof. destruct a, b, c, d; simpl; split; (done || by intros [? ?]). Qed.

(** X8: the iron-deficiency pattern is emitted exactly when the latest
    hemoglobin is nonzero and below 12 and the latest ferritin is nonzero
    and below 30; it has severity [attention] and always names both
    markers. *)
Theorem iron_deficiency_rule records :
  ((∃ p, p ∈ detectPatterns records ∧ type p = "iron_deficiency") ↔
   (∃ h, latestValue records "hemoglobin" = Some h ∧ ¬ h == 0 ∧ h < 12) ∧
   (∃ f, latestValue records "ferritin" = Some f ∧ ¬ f == 0 ∧ f < 30)) ∧
  (∀ p, p ∈ detectPatterns records → type p = "iron_deficiency" →
     severity p = attention ∧ markers p = ["hemoglobin"; "ferritin"]).
Proof.
  assert (Hrule : ∀ p, p ∈ detectPatterns records ∧ type p = "iron_deficiency" ↔
            (truthy (latestValue records "hemoglobin")
               && below (latestValue records "hemoglobin") 12 = true ∧
             truthy (latestValue records "ferritin")
               && below (latestValue records "ferritin") 30 = true) ∧
            p = mkPattern "iron_deficiency" attention "Iron Deficiency Pattern"
                  "Low hemoglobin with low ferritin suggests possible iron deficiency."
                  ["hemoglobin"; "ferritin"]).
  { intros p. by rewrite detectPatterns_anemia, anemiaPattern_latestValues,
      elem_of_if_singleton, andb_pairs. }
  split.
  - rewrite <- !truthy_below_spec. split.
    + by intros (p & [? _]%Hrule).
    + intros Hc. eexists. by apply Hrule.
  - intros p Hp Ht. destruct (proj1 (Hrule p) (conj Hp Ht)) as [_ ->]. done.
Qed.

(** X9: the thyroid pattern is emitted exactly when the latest TSH is
    nonzero and above 4 or below 0.4; its severity is [critical] exactly
    when that TSH is above 10 or below 0.1 (both strict) and [attention]
    otherwise, and it lists those of tsh, freeT4 and freeT3 whose latest
    value exists and is not zero. *)
Theorem thyroid_rule records :
  ((∃ p, p ∈ detectPatterns records ∧ type p = "thyroid") ↔
   ∃ t, latestValue records "tsh" = Some t ∧ ¬ t == 0 ∧ (4 < t ∨ t < 0.4)) ∧
  (∀ p t, p ∈ detectPatterns records → type p = "thyroid" →
     latestValue records "tsh" = Some t →
     (severity p = critical ↔ 10 < t ∨ t < 0.1) ∧
     (severity p = attention ↔ ¬ (10 < t ∨ t < 0.1)) ∧
     markers p = filter (λ m, Is_true (truthy (latestValue records m)))
                   ["tsh"; "freeT4"; "freeT3"]).
Proof.
  pose proof (thyroidPattern_latestValues records) as Hth. cbv zeta in Hth.
  split.
  - split.
    + intros (p & Hp%detectPatterns_thyroid). rewrite Hth in Hp.
      apply elem_of_if_singleton in Hp as [Hc _].
      apply andb_true_iff in Hc as [(t & Ht & H0)%truthy_spec Hc].
      exists t. rewrite Ht in Hc. simpl in Hc.
      apply orb_true_iff in Hc as [Hc|Hc]; Qbool; auto.
    + intros (t & Ht & H0 & Hc). eexists. apply detectPatterns_thyroid.
      rewrite Hth. apply elem_of_if_singleton. split; [|done].
      rewrite Ht. simpl. apply andb_true_iff. split.
      * apply negb_true_iff. by apply Qeqb_neq.
      * apply orb_true_iff. destruct Hc as [Hc|Hc]; [left|right]; by apply Qltb_lt.
  - intros p t Hp Hty Ht.
    assert (Hm : p ∈ thyroidPattern (latestValues records))
      by by apply detectPatterns_thyroid.
    rewrite Hth, Ht in Hm. apply elem_of_if_singleton in Hm as [_ ->].
    cbn [severity markers above below from_option].
    assert (Hb : Qltb 10 t || Qltb t 0.1 = true ↔ 10 < t ∨ t < 0.1)
      by by rewrite orb_true_iff, !Qltb_lt.
    destruct (Qltb 10 t || Qltb t 0.1); split_and!; try done.
    + split; [intros _; by apply Hb|done].
    + split; [done|]. intros Hn. exfalso. by apply Hn, Hb.
    + split; [done|]. by intros [=]%Hb.
    + split; [|done]. by intros _ [=]%Hb.
Qed.

(** X10: the kidney pattern is emitted exactly when the latest creatinine
    is above 1.3 and the latest eGFR is nonzero and below 60; it has
    severity [attention] and lists those of creatinine, egfr and bun
    whose latest value exists and is not zero. *)
Theorem kidney_rule records :
  ((∃ p, p ∈ detectPatterns records ∧ type p = "kidney") ↔
   (∃ c, latestValue records "creatinine" = Some c ∧ 1.3 < c) ∧
   (∃ e, latestValue records "egfr" = Some e ∧ ¬ e == 0 ∧ e < 60)) ∧
  (∀ p, p ∈ detectPatterns records → type p = "kidney" →
     severity p = attention ∧
     markers p = filter (λ m, Is_true (truthy (latestValue records m)))
                   ["creatinine"; "egfr"; "bun"]).
Proof.
  assert (Hrule : ∀ p, p ∈ detectPatterns records ∧ type p = "kidney" ↔
            (above (latestValue records "creatinine") 1.3 = true ∧
             truthy (latestValue records "egfr")
               && below (latestValue records "egfr") 60 = true) ∧
            p = mkPattern "kidney" attention "Reduced Kidney Function"
                  "Elevated creatinine with reduced eGFR suggests kidney function assessment needed."
                  (filter (λ m, Is_true (truthy (latestValue records m)))
                     ["creatinine"; "egfr"; "bun"])).
  { intros p. rewrite detectPatterns_kidney, kidneyPattern_latestValues,
      elem_of_if_singleton, <- andb_assoc. by rewrite andb_true_iff. }
  split.
  - rewrite <- above_spec, <- truthy_below_spec. split.
    + by intros (p & [? _]%Hrule).
    + intros Hc. eexists. by apply Hrule.
  - intros p Hp Ht. destruct (proj1 (Hrule p) (conj Hp Ht)) as [_ ->]. done.
Qed.

(** The patterns come out in the order of the four rules, at most one
    for each. *)
Lemma pattern_types_sublist (latest : gmap string Q) :
  type <$> (metabolicPattern latest ++ anemiaPattern latest
            ++ thyroidPattern latest ++ kidneyPattern latest)
  `sublist_of` ["metabolic_syndrome"; "iron_deficiency"; "thyroid"; "kidney"].
Proof.
  unfold metabolicPattern, anemiaPattern, thyroidPattern, kidneyPattern. cbv zeta.
  destruct (3 <=? metabolicFlags latest)%nat,
    (truthy (latest !! "hemoglobin") && below (latest !! "hemoglobin") 12
     && truthy (latest !! "ferritin") && below (latest !! "ferritin") 30),
    (truthy (latest !! "tsh") && (above (latest !! "tsh") 4 || below (latest !! "tsh") 0.4)),
    (above (latest !! "creatinine") 1.3 && truthy (latest !! "egfr")
     && below (latest !! "egfr") 60);
    cbn [app fmap list_fmap type]; repeat constructor.
Qed.

Lemma pattern_severity (latest : gmap string Q) p :
  p ∈ metabolicPattern latest ∨ p ∈ anemiaPattern latest
  ∨ p ∈ thyroidPattern latest ∨ p ∈ kidneyPattern latest →
  severity p = attention ∨ (severity p = critical ∧ type p = "thyroid").
Proof.
  unfold metabolicPattern, anemiaPattern, thyroidPattern, kidneyPattern. cbv zeta.
  intros [H|[H|[H|H]]]; apply elem_of_if_singleton in H as [_ ->];
    cbn [severity type]; [by left..| |by left].
  destruct (_ || _); auto.
Qed.

Lemma detectPatterns_types records :
  type <$> detectPatterns records
    `sublist_of` ["metabolic_syndrome"; "iron_deficiency"; "thyroid"; "kidney"].
Proof. unfold detectPatterns. cbv zeta. apply pattern_types_sublist. Qed.

Lemma patternTypes_NoDup :
  NoDup ["metabolic_syndrome"; "iron_deficiency"; "thyroid"; "kidney"].
Proof. refine (bool_decide_unpack _ _). vm_compute. exact I. Qed.

Lemma detectPatterns_nil : detectPatterns [] = [].
Proof. by vm_compute. Qed.

(** X11: [detectPatterns] returns at most four patterns, at most one of
    each type and always in the order metabolic_syndrome,
    iron_deficiency, thyroid, kidney; every pattern has severity
    [attention], except that a thyroid pattern may be [critical]; without
    records there is no pattern. *)
Theorem detectPatterns_shape records :
  type <$> detectPatterns records
    `sublist_of` ["metabolic_syndrome"; "iron_deficiency"; "thyroid"; "kidney"] ∧
  NoDup (type <$> detectPatterns records) ∧
  (length (detectPatterns records) ≤ 4)%nat ∧
  (∀ p, p ∈ detectPatterns records →
     severity p = attention ∨ (severity p = critical ∧ type p = "thyroid")) ∧
  detectPatterns [] = [].
Proof.
  pose proof (detectPatterns_types records) as Hsub.
  split_and!.
  - done.
  - eapply sublist_NoDup; [|exact Hsub].
    apply patternTypes_NoDup.
  - apply sublist_length in Hsub. by rewrite length_fmap in Hsub.
  - intros p Hp%detectPatterns_elem.
    by apply (pattern_severity (latestValues records)).
  - apply detectPatterns_nil.
Qed.

(** ** Patterns and flagged markers *)

Lemma flaggedMarkers_elem records id :
  id ∈ fm_id <$> flaggedMarkers records ↔
  id ∈ keys BIOMARKER_DEFINITIONS ∧ isFlagged records id.
Proof.
  unfold flaggedMarkers, VisitPreparation.
  destruct (foldl_visitStep_ids records (keys BIOMARKER_DEFINITIONS) ([], []))
    as [-> _].
  cbn [fst fmap list_fmap app].
  rewrite list_elem_of_filter, Is_true_true, flaggedb_spec. tauto.
Qed.

(** A value outside the normal window of an entry whose bounds are in
    order is classified [attention] or [critical]. *)
Lemma getStatus_outside_normal id def v :
  lookupDef BIOMARKER_DEFINITIONS id = Some def →
  rangesOrderedb def = true →
  v < (normalRange def).1 ∨ (normalRange def).2 < v →
  getStatus v id = attention ∨ getStatus v id = critical.
Proof.
  intros Hdef Hord Hv. unfold getStatus, getStatusWith. rewrite Hdef.
  unfold rangesOrderedb in Hord.
  repeat (apply andb_prop in Hord; destruct Hord as [Hord ?]).
  destruct (Qleb v (criticalLow def) || Qleb (criticalHigh def) v); [by right|].
  destruct (Qleb (optimalRange def).1 v) eqn:E3, (Qleb v (optimalRange def).2) eqn:E4,
    (Qleb (normalRange def).1 v) eqn:E5, (Qleb v (normalRange def).2) eqn:E6;
    simpl; auto; Qbool; exfalso; destruct Hv; lra.
Qed.

Lemma isFlagged_latestValue records id def v :
  lookupDef BIOMARKER_DEFINITIONS id = Some def →
  rangesOrderedb def = true →
  latestValue records id = Some v →
  v < (normalRange def).1 ∨ (normalRange def).2 < v →
  id ∈ fm_id <$> flaggedMarkers records.
Proof.
  intros Hdef Hord Hv Hout. apply flaggedMarkers_elem. split.
  - clear -Hdef. unfold keys.
    induction BIOMARKER_DEFINITIONS as [|[k d] defs IH]; [done|].
    simpl in Hdef. rewrite fmap_cons. simpl.
    destruct (String.eqb_spec k id) as [->|Hne]; [left|right; by apply IH].
  - unfold latestValue in Hv.
    destruct (latestRecord records id) as [r|] eqn:Hr; [|done].
    injection Hv as <-. exists r. split; [done|].
    by eapply getStatus_outside_normal.
Qed.

Lemma iron_emitted_iff records :
  (∃ p, p ∈ detectPatterns records ∧ type p = "iron_deficiency") ↔
  (∃ h, latestValue records "hemoglobin" = Some h ∧ ¬ h == 0 ∧ h < 12) ∧
  (∃ f, latestValue records "ferritin" = Some f ∧ ¬ f == 0 ∧ f < 30).
Proof.
  rewrite <- !truthy_below_spec, <- andb_pairs. split.
  - intros (p & Hp%detectPatterns_anemia).
    rewrite anemiaPattern_latestValues in Hp.
    by apply elem_of_if_singleton in Hp as [? _].
  - intros Hc. eexists. apply detectPatterns_anemia.
    rewrite anemiaPattern_latestValues. by apply elem_of_if_singleton.
Qed.

Lemma thyroid_emitted_iff records :
  (∃ p, p ∈ detectPatterns records ∧ type p = "thyroid") ↔
  ∃ t, latestValue records "tsh" = Some t ∧ ¬ t == 0 ∧ (4 < t ∨ t < 0.4).
Proof.
  pose proof (thyroidPattern_latestValues records) as Hth. cbv zeta in Hth.
  split.
  - intros (p & Hp%detectPatterns_thyroid). rewrite Hth in Hp.
    apply elem_of_if_singleton in Hp as [Hc _].
    apply andb_true_iff in Hc as [(t & Ht & H0)%truthy_spec Hc].
    exists t. rewrite Ht in Hc. simpl in Hc.
    apply orb_true_iff in Hc as [Hc|Hc]; Qbool; auto.
  - intros (t & Ht & H0 & Hc). eexists. apply detectPatterns_thyroid.
    rewrite Hth. apply elem_of_if_singleton. split; [|done].
    rewrite Ht. simpl. apply andb_true_iff. split.
    + apply negb_true_iff. by apply Qeqb_neq.
    + apply orb_true_iff. destruct Hc as [Hc|Hc]; [left|right]; by apply Qltb_lt.
Qed.

Lemma kidney_emitted_iff records :
  (∃ p, p ∈ detectPatterns records ∧ type p = "kidney") ↔
  (∃ c, latestValue records "creatinine" = Some c ∧ 1.3 < c) ∧
  (∃ e, latestValue records "egfr" = Some e ∧ ¬ e == 0 ∧ e < 60).
Proof.
  rewrite <- above_spec, <- truthy_below_spec, <- andb_true_iff, andb_assoc. split.
  - intros (p & Hp%detectPatterns_kidney).
    rewrite kidneyPattern_latestValues in Hp.
    by apply elem_of_if_singleton in Hp as [? _].
  - intros Hc. eexists. apply detectPatterns_kidney.
    rewrite kidneyPattern_latestValues. by apply elem_of_if_singleton.
Qed.

Ltac flagged_by id :=
  eapply (isFlagged_latestValue _ id);
  [vm_compute; reflexivity|vm_compute; reflexivity|eassumption
  |cbn [normalRange fst snd]; first [left; lra|right; lra]].

(** X12: the thresholds of the pattern rules are bounds of the normal
    windows, so a marker that fulfils a rule condition is among the
    flagged markers of the visit preparation: each metabolic condition
    that holds flags its marker; an iron-deficiency pattern comes with
    hemoglobin and ferritin flagged, a kidney pattern with creatinine and
    egfr flagged (egfr as [critical]); and the thyroid pattern is emitted
    exactly when tsh is flagged with a nonzero latest value. *)
Theorem pattern_conditions_are_flagged records :
  Forall2 (λ (b : bool) id, b = true → id ∈ fm_id <$> flaggedMarkers records)
    (metabolicConditions records) metabolicIds ∧
  ((∃ p, p ∈ detectPatterns records ∧ type p = "iron_deficiency") →
     "hemoglobin" ∈ fm_id <$> flaggedMarkers records ∧
     "ferritin" ∈ fm_id <$> flaggedMarkers records) ∧
  ((∃ p, p ∈ detectPatterns records ∧ type p = "kidney") →
     "creatinine" ∈ fm_id <$> flaggedMarkers records ∧
     "egfr" ∈ fm_id <$> flaggedMarkers records ∧
     latestStatus records "egfr" = Some critical) ∧
  ((∃ p, p ∈ detectPatterns records ∧ type p = "thyroid") ↔
     "tsh" ∈ fm_id <$> flaggedMarkers records ∧
     ∃ t, latestValue records "tsh" = Some t ∧ ¬ t == 0).
Proof.
  split_and!.
  - unfold metabolicConditions, metabolicIds.
    constructor; [|constructor; [|constructor; [|constructor; [|constructor]]]].
    + intros (x & Hx & Hc)%above_spec. flagged_by "glucose".
    + intros (x & Hx & Hc)%above_spec. flagged_by "triglycerides".
    + intros (x & Hx & _ & Hc)%truthy_below_spec. flagged_by "hdl".
    + intros (x & Hx & Hc)%above_spec. flagged_by "hba1c".
  - intros [(h & Hh & _ & Hhc) (f & Hf & _ & Hfc)]%iron_emitted_iff. split.
    + flagged_by "hemoglobin".
    + flagged_by "ferritin".
  - intros [(c & Hc & Hcc) (e & He & _ & Hec)]%kidney_emitted_iff. split_and!.
    + flagged_by "creatinine".
    + flagged_by "egfr".
    + unfold latestStatus. unfold latestValue in He.
      destruct (latestRecord records "egfr") as [r|]; [|done].
      injection He as <-. simpl. f_equal.
      unfold getStatus, getStatusWith.
      assert (Hd : lookupDef BIOMARKER_DEFINITIONS "egfr"
                = Some (mkDef "eGFR" "mL/min" "Kidney" (90, 120) (100, 120) 60 150 (Some true)))
        by (vm_compute; reflexivity).
      rewrite Hd. cbn [criticalLow criticalHigh].
      assert (Hle : Qleb (value r) 60 = true) by (apply Qleb_le; lra).
      by rewrite Hle.
  - rewrite thyroid_emitted_iff. split.
    + intros (t & Ht & H0 & Hc). split; [|by exists t].
      destruct Hc; flagged_by "tsh".
    + intros [[_ (r & Hr & Hs)]%flaggedMarkers_elem (t & Ht & H0)].
      exists t. split_and!; [done..|].
      unfold latestValue in Ht. rewrite Hr in Ht. injection Ht as <-.
      unfold getStatus, getStatusWith in Hs.
      assert (Hd : lookupDef BIOMARKER_DEFINITIONS "tsh"
                = Some (mkDef "TSH" "mIU/L" "Thyroid" (0.4, 4.0) (1.0, 2.5) 0.1 10.0 None))
        by (vm_compute; reflexivity).
      rewrite Hd in Hs. cbn [criticalLow criticalHigh optimalRange normalRange fst snd] in Hs.
      destruct (Qlt_le_dec 4 (value r)) as [|H4]; [by left|].
      destruct (Qlt_le_dec (value r) 0.4) as [|H04]; [by right|].
      exfalso.
      assert (E1 : Qleb (value r) 0.1 = false) by (apply Qleb_gt; lra).
      assert (E2 : Qleb 10.0 (value r) = false) by (apply Qleb_gt; lra).
      assert (E5 : Qleb 0.4 (value r) = true) by (by apply Qleb_le).
      assert (E6 : Qleb (value r) 4.0 = true) by (apply Qleb_le; lra).
      rewrite E1, E2, E5, E6 in Hs. simpl in Hs.
      destruct (_ && _); destruct Hs; discriminate.
Qed.

(** ** What the analytics read *)

Lemma foldl_ext_in {A B} (f g : A → B → A) (l : list B) a :
  (∀ a x, x ∈ l → f a x = g a x) → foldl f a l = foldl g a l.
Proof.
  revert a. induction l as [|x l IH]; intros a Hfg; [done|].
  cbn [foldl]. rewrite Hfg by left. apply IH. intros a' y Hy. apply Hfg. by right.
Qed.

Lemma lookupDef_Some_key defs id def :
  lookupDef defs id = Some def → id ∈ keys defs.
Proof.
  unfold keys. induction defs as [|[k d] defs IH]; [done|].
  intros Hdef. simpl in Hdef. rewrite fmap_cons. simpl.
  destruct (String.eqb_spec k id) as [->|Hne]; [left|right; by apply IH].
Qed.

Section same_catalog_records.
Context (rs1 rs2 : list LabRecord).
Context (Hsame : ∀ id, id ∈ keys BIOMARKER_DEFINITIONS →
                       recordsOf rs1 id = recordsOf rs2 id).

Lemma same_latestRecord id :
  id ∈ keys BIOMARKER_DEFINITIONS → latestRecord rs1 id = latestRecord rs2 id.
Proof using Hsame. intros Hid. unfold latestRecord. by rewrite Hsame. Qed.

Lemma same_latestValues : latestValues rs1 = latestValues rs2.
Proof using Hsame.
  unfold latestValues. apply foldl_ext_in. intros m id Hid.
  unfold latestStep. by rewrite Hsame, same_latestRecord.
Qed.

Lemma same_scoreFold cat :
  foldl (scoreStep rs1) (0, 0)%Z (filter (λ e, category e.2 = cat) BIOMARKER_DEFINITIONS)
  = foldl (scoreStep rs2) (0, 0)%Z (filter (λ e, category e.2 = cat) BIOMARKER_DEFINITIONS).
Proof using Hsame.
  apply foldl_ext_in. intros acc e [_ He]%list_elem_of_filter.
  assert (Hid : e.1 ∈ keys BIOMARKER_DEFINITIONS)
    by (unfold keys; by apply list_elem_of_fmap_2).
  unfold scoreStep. cbv zeta. by rewrite Hsame, same_latestRecord.
Qed.

Lemma same_categoryEntry cat : categoryEntry rs1 cat = categoryEntry rs2 cat.
Proof using Hsame. unfold categoryEntry. cbv zeta. by rewrite same_scoreFold. Qed.

Lemma same_radarEntry cat : radarEntry rs1 cat = radarEntry rs2 cat.
Proof using Hsame. unfold radarEntry. cbv zeta. by rewrite same_scoreFold. Qed.

Lemma same_categoryScores : categoryScores rs1 = categoryScores rs2.
Proof using Hsame.
  unfold categoryScores. f_equal. apply list_fmap_ext. intros _ cat _.
  apply same_categoryEntry.
Qed.

Lemma same_VisitPreparation : VisitPreparation rs1 = VisitPreparation rs2.
Proof using Hsame.
  unfold VisitPreparation. apply foldl_ext_in. intros acc id Hid.
  unfold visitStep. cbv zeta. by rewrite Hsame.
Qed.
End same_catalog_records.

(** X13: the analytics read a record collection only through the
    records of the catalog's markers, each marker's in their stored
    order: two collections that agree on these give the same patterns,
    category and overall scores, radar data and visit preparation.
    Records of unknown markers and the interleaving of different markers
    change nothing. *)
Theorem analytics_read_catalog_records rs1 rs2 :
  (∀ id, id ∈ keys BIOMARKER_DEFINITIONS → recordsOf rs1 id = recordsOf rs2 id) →
  detectPatterns rs1 = detectPatterns rs2 ∧
  categoryScores rs1 = categoryScores rs2 ∧
  overallScore rs1 = overallScore rs2 ∧
  radarData rs1 = radarData rs2 ∧
  VisitPreparation rs1 = VisitPreparation rs2.
Proof.
  intros Hsame. split_and!.
  - unfold detectPatterns. by rewrite (same_latestValues rs1 rs2).
  - by apply same_categoryScores.
  - unfold overallScore. by rewrite (same_categoryScores rs1 rs2).
  - unfold radarData. f_equal. apply list_fmap_ext. intros _ cat _.
    by apply same_radarEntry.
  - by apply same_VisitPreparation.
Qed.

Lemma analytics_read_catalog_records_witness :
  let rs1 := [mkRecord "apoB" 130 3; mkRecord "glucose" 110 1;
              mkRecord "tsh" 5 2; mkRecord "glucose" 95 2] in
  let rs2 := [mkRecord "glucose" 110 1; mkRecord "glucose" 95 2; mkRecord "tsh" 5 2] in
  (∀ id, id ∈ keys BIOMARKER_DEFINITIONS → recordsOf rs1 id = recordsOf rs2 id) ∧
  detectPatterns rs1 = detectPatterns rs2 ∧
  categoryScores rs1 = categoryScores rs2 ∧
  overallScore rs1 = overallScore rs2 ∧
  radarData rs1 = radarData rs2 ∧
  VisitPreparation rs1 = VisitPreparation rs2.
Proof.
  assert (H : ∀ id, id ∈ keys BIOMARKER_DEFINITIONS →
            recordsOf [mkRecord "apoB" 130 3; mkRecord "glucose" 110 1;
                       mkRecord "tsh" 5 2; mkRecord "glucose" 95 2] id
            = recordsOf [mkRecord "glucose" 110 1; mkRecord "glucose" 95 2;
                         mkRecord "tsh" 5 2] id).
  { intros id Hid. unfold recordsOf. rewrite !filter_cons. cbn [markerId].
    destruct (decide ("apoB" = id)) as [<-|_].
    { exfalso. revert Hid. refine (bool_decide_unpack _ _). vm_compute. exact I. }
    destruct (decide ("glucose" = id)) as [<-|_]; [reflexivity|].
    by destruct (decide ("tsh" = id)). }
  split; [exact H|].
  exact (analytics_read_catalog_records _ _ H).
Defined.

(** X14: the patterns depend on the records only through the latest
    value of each catalog marker. *)
Theorem detectPatterns_latest_only rs1 rs2 :
  (∀ id, id ∈ keys BIOMARKER_DEFINITIONS → latestValue rs1 id = latestValue rs2 id) →
  detectPatterns rs1 = detectPatterns rs2.
Proof.
  intros Hsame. unfold detectPatterns.
  assert (latestValues rs1 = latestValues rs2) as ->; [|done].
  apply map_eq. intros id. rewrite !latestValues_lookup.
  case_decide; [by apply Hsame|done].
Qed.

Lemma detectPatterns_latest_only_witness :
  let rs1 := [mkRecord "glucose" 90 1; mkRecord "glucose" 110 2] in
  let rs2 := [mkRecord "glucose" 110 5] in
  (∀ id, id ∈ keys BIOMARKER_DEFINITIONS → latestValue rs1 id = latestValue rs2 id) ∧
  detectPatterns rs1 = detectPatterns rs2.
Proof.
  assert (H : ∀ id, id ∈ keys BIOMARKER_DEFINITIONS →
            latestValue [mkRecord "glucose" 90 1; mkRecord "glucose" 110 2] id
            = latestValue [mkRecord "glucose" 110 5] id).
  { intros id _. unfold latestValue, latestRecord, recordsOf.
    rewrite !filter_cons. cbn [markerId].
    by destruct (decide ("glucose" = id)). }
  split; [exact H|].
  exact (detectPatterns_latest_only _ _ H).
Defined.

(** ** Adding a record *)

Lemma recordsOf_snoc records r id :
  recordsOf (records ++ [r]) id =
    recordsOf records id ++ (if decide (markerId r = id) then [r] else []).
Proof. unfold recordsOf. by rewrite filter_app, filter_cons, filter_nil. Qed.

(** The latest record after one more record is appended. *)
Lemma sortBy_byDateDesc_snoc (l : list LabRecord) r :
  sortBy byDateDesc (l ++ [r]) !! 0%nat =
    match sortBy byDateDesc l !! 0%nat with
    | Some cur => if (date r <=? date cur)%Z then Some cur else Some r
    | None => Some r
    end.
Proof.
  rewrite !sortBy_lookup_0.
  induction l as [|x l IH]; [done|].
  cbn [app foldr]. rewrite IH. clear IH.
  destruct (foldr _ None l) as [cur|]; unfold byDateDesc.
  - destruct (Z.leb_spec (date r) (date cur)), (Z.leb_spec (date cur - date x) 0);
      repeat match goal with
      | |- context [(?a <=? ?b)%Z] => destruct (Z.leb_spec a b)
      end; (done || lia).
  - by destruct (Z.leb_spec (date r - date x) 0), (Z.leb_spec (date r) (date x)); try lia.
Qed.

(** X15: an added record becomes the latest observation of its marker
    exactly when the marker had none or its date is strictly later than
    that of the current latest one; on an equal or earlier date the
    current latest stays. The latest observations of all other markers
    are unchanged. *)
Theorem addRecord_offline_latest records r id :
  latestRecord (addRecord_offline records r) id =
    if decide (markerId r = id) then
      match latestRecord records id with
      | Some cur => if (date r <=? date cur)%Z then Some cur else Some r
      | None => Some r
      end
    else latestRecord records id.
Proof.
  unfold addRecord_offline, latestRecord. rewrite recordsOf_snoc.
  case_decide; [apply sortBy_byDateDesc_snoc|by rewrite app_nil_r].
Qed.

(** ** Visit preparation, continued *)

Lemma keys_NoDup : NoDup (keys BIOMARKER_DEFINITIONS).
Proof. refine (bool_decide_unpack _ _). vm_compute. exact I. Qed.

Lemma key_lookupDef defs id :
  id ∈ keys defs → is_Some (lookupDef defs id).
Proof.
  unfold keys. induction defs as [|[k d] defs IH]; [by intros ?%elem_of_nil|].
  rewrite fmap_cons. cbn [fst lookupDef].
  destruct (String.eqb_spec k id) as [->|Hne]; [by eexists|].
  intros [?|?]%elem_of_cons; [done|by apply IH].
Qed.

Lemma visitStep_entries records acc id :
  id ∈ keys BIOMARKER_DEFINITIONS →
  Forall (flaggedEntryOk records) acc.1 →
  Forall (changeEntryOk records) acc.2 →
  Forall (flaggedEntryOk records) (visitStep records acc id).1 ∧
  Forall (changeEntryOk records) (visitStep records acc id).2.
Proof.
  intros [def Hdef]%key_lookupDef Hf Hc. unfold visitStep. cbv zeta.
  rewrite Hdef. cbn [from_option].
  destruct (0 <? _)%nat; [|done].
  destruct (sortBy byDateDesc (recordsOf records id) !! 0%nat) as [l|] eqn:El; [|done].
  cbn [fst snd]. split.
  - destruct (bool_decide (getStatus (value l) id = attention)) eqn:E1;
      [|destruct (bool_decide (getStatus (value l) id = critical)) eqn:E2];
      cbn [orb]; [..|done]; apply Forall_app; (split; [done|]);
      apply Forall_singleton; exists def, l; cbn; split_and!; try done.
    + left. by apply bool_decide_eq_true in E1.
    + right. by apply bool_decide_eq_true in E2.
  - destruct (sortBy byDateDesc (recordsOf records id) !! 1%nat) as [p|] eqn:Ep; [|done].
    destruct (absExceeds _ _) eqn:Ea; [|done].
    apply Forall_app. split; [done|].
    apply Forall_singleton. by exists def, l, p.
Qed.

Lemma foldl_visitStep_entries records ids acc :
  (∀ id, id ∈ ids → id ∈ keys BIOMARKER_DEFINITIONS) →
  Forall (flaggedEntryOk records) acc.1 →
  Forall (changeEntryOk records) acc.2 →
  Forall (flaggedEntryOk records) (foldl (visitStep records) acc ids).1 ∧
  Forall (changeEntryOk records) (foldl (visitStep records) acc ids).2.
Proof.
  revert acc. induction ids as [|id ids IH]; intros acc Hids Hf Hc; [done|].
  cbn [foldl].
  destruct (visitStep_entries records acc id) as [Hf' Hc']; [apply Hids; left|done..|].
  apply IH; [|done..]. intros id' Hid'. apply Hids. by right.
Qed.

(** X16: [flaggedMarkers] and [significantChanges] list every marker at
    most once and in the order of the catalog; a flagged entry holds the
    name and unit of the marker's definition, the value of its latest
    observation and that value's status, which is [attention] or
    [critical]. *)
Theorem VisitPreparation_lists records :
  fm_id <$> flaggedMarkers records `sublist_of` keys BIOMARKER_DEFINITIONS ∧
  sc_id <$> significantChanges records `sublist_of` keys BIOMARKER_DEFINITIONS ∧
  NoDup (fm_id <$> flaggedMarkers records) ∧
  NoDup (sc_id <$> significantChanges records) ∧
  Forall (flaggedEntryOk records) (flaggedMarkers records).
Proof.
  unfold flaggedMarkers, significantChanges, VisitPreparation.
  destruct (foldl_visitStep_ids records (keys BIOMARKER_DEFINITIONS) ([], []))
    as [Hf Hc].
  cbn [fst snd fmap list_fmap app] in Hf, Hc.
  rewrite Hf, Hc.
  split_and!.
  - apply sublist_filter.
  - apply sublist_filter.
  - apply NoDup_filter, keys_NoDup.
  - apply NoDup_filter, keys_NoDup.
  - by apply foldl_visitStep_entries.
Qed.

(** *** The sign of a rounded number *)

Lemma pow2_pos e : 0 < pow2 e.
Proof. unfold pow2. by apply Qpower_0_lt. Qed.

Lemma roundEven_nonneg x : 0 <= x → (0 ≤ roundEven x)%Z.
Proof.
  intros Hx. unfold roundEven. cbv zeta.
  assert (0 ≤ Qfloor x)%Z by (change 0%Z with (Qfloor 0); by apply Qfloor_resp_le).
  destruct (_ ?= _); [destruct (Z.even _)|..]; lia.
Qed.

Lemma roundPos_sign x : 0 <= x → notNegative (roundPos x).
Proof.
  intros Hx. unfold roundPos. cbv zeta.
  destruct (Qleb _ _); [done|]. simpl. rewrite Qred_correct.
  apply Qmult_le_0_compat; [|apply Qlt_le_weak, pow2_pos].
  change 0 with (inject_Z 0). rewrite <- Zle_Qle.
  apply roundEven_nonneg. apply Qle_shift_div_l; [apply pow2_pos|].
  by rewrite Qmult_0_l.
Qed.

Lemma jsneg_notPositive x : notNegative x → notPositive (jsneg x).
Proof.
  destruct x as [r| | |]; simpl; try done.
  rewrite Qred_correct. intros H. lra.
Qed.

(** Rounding keeps the sign, or gives zero. *)
Lemma round64_sign q :
  (0 <= q → notNegative (round64 q)) ∧ (q <= 0 → notPositive (round64 q)).
Proof.
  unfold round64. destruct q as [[|n|n] d]; cbn [Qnum].
  - simpl. split; intros _; lra.
  - split; [apply roundPos_sign|]. intros H. by vm_compute in H.
  - split.
    + intros H. by vm_compute in H.
    + intros _. apply jsneg_notPositive, roundPos_sign. by vm_compute.
Qed.

Lemma jssub_sign a b :
  (b <= a → notNegative (jssub (Finite a) (Finite b))) ∧
  (a <= b → notPositive (jssub (Finite a) (Finite b))).
Proof.
  simpl. split; intros H; apply round64_sign; lra.
Qed.

Lemma jsdiv_sign d b :
  (0 <= b → notNegative d → notNegative (jsdiv d (Finite b))) ∧
  (0 <= b → notPositive d → notPositive (jsdiv d (Finite b))) ∧
  (b < 0 → notNegative d → notPositive (jsdiv d (Finite b))) ∧
  (b < 0 → notPositive d → notNegative (jsdiv d (Finite b))).
Proof.
  destruct d as [x| | |]; simpl.
  - destruct (Qeqb b 0) eqn:Eb; Qbool.
    + destruct (Qeqb x 0) eqn:Ex; Qbool; [done|].
      destruct (Qltb 0 x) eqn:Es; Qbool; simpl;
        split_and!; intros; try done; try lra.
    + assert (Hq : x / b * b == x) by (by field).
      revert Hq. generalize (x / b). intros q Hq.
      split_and!; intros Hb Hx; apply round64_sign; nra.
  - destruct (Qltb b 0) eqn:Eb; Qbool; simpl; split_and!; intros; try done; lra.
  - destruct (Qltb b 0) eqn:Eb; Qbool; simpl; split_and!; intros; try done; lra.
  - done.
Qed.

Lemma jsmul100_sign q :
  (notNegative q → notNegative (jsmul q (Finite 100))) ∧
  (notPositive q → notPositive (jsmul q (Finite 100))).
Proof.
  destruct q as [x| | |]; simpl; try done.
  split; intros H; apply round64_sign; lra.
Qed.

(** The sign of a percent change that exceeds 15 in magnitude, for
    finite doubles [a] and [b]. *)
Lemma percentChange_sign a b :
  absExceeds (jsmul (jsdiv (jssub (Finite a) (Finite b)) (Finite b)) (Finite 100)) 15
    = true →
  jspositive (jsmul (jsdiv (jssub (Finite a) (Finite b)) (Finite b)) (Finite 100))
    = true
  ↔ (0 < b ∧ b < a) ∨ (b < 0 ∧ a < b) ∨ (b == 0 ∧ 0 < a).
Proof.
  pose proof (jssub_sign a b) as [Hs1 Hs2].
  pose proof (jsdiv_sign (jssub (Finite a) (Finite b)) b) as (Hd1 & Hd2 & Hd3 & Hd4).
  pose proof (jsmul100_sign (jsdiv (jssub (Finite a) (Finite b)) (Finite b)))
    as [Hm1 Hm2].
  revert Hm1 Hm2.
  generalize (jsmul (jsdiv (jssub (Finite a) (Finite b)) (Finite b)) (Finite 100)).
  intros c Hm1 Hm2 Hex.
  assert (Hnn : (0 < b ∧ b < a) ∨ (b < 0 ∧ a < b) ∨ (b == 0 ∧ 0 < a) → notNegative c).
  { intros [[Hb Ha]|[[Hb Ha]|[Hb Ha]]]; apply Hm1.
    - apply Hd1; [lra|]. apply Hs1. lra.
    - apply Hd4; [lra|]. apply Hs2. lra.
    - apply Hd1; [lra|]. apply Hs1. lra. }
  assert (Hnp : ¬ ((0 < b ∧ b < a) ∨ (b < 0 ∧ a < b) ∨ (b == 0 ∧ 0 < a)) →
                notPositive c).
  { intros Hn. apply Hm2.
    destruct (Qlt_le_dec 0 b) as [Hb|Hb].
    - apply Hd2; [lra|]. apply Hs2.
      destruct (Qlt_le_dec b a); [|done]. exfalso. apply Hn. by left.
    - destruct (Qlt_le_dec b 0) as [Hb'|Hb'].
      + apply Hd3; [done|]. apply Hs1.
        destruct (Qlt_le_dec a b); [|done]. exfalso. apply Hn. right. by left.
      + apply Hd2; [done|]. apply Hs2.
        destruct (Qlt_le_dec 0 a); [|lra]. exfalso. apply Hn. right. right.
        split; [lra|done]. }
  assert (Hdec : ((0 < b ∧ b < a) ∨ (b < 0 ∧ a < b) ∨ (b == 0 ∧ 0 < a)) ∨
                 ¬ ((0 < b ∧ b < a) ∨ (b < 0 ∧ a < b) ∨ (b == 0 ∧ 0 < a))).
  { destruct (Qlt_le_dec 0 b), (Qlt_le_dec b a), (Qlt_le_dec b 0),
      (Qlt_le_dec a b), (Qlt_le_dec 0 a);
      first [ left; left; split; lra
            | left; right; left; split; lra
            | left; right; right; split; lra
            | right; intros [[? ?]|[[? ?]|[? ?]]]; lra ]. }
  split.
  - intros Hpos. destruct Hdec as [H|H]; [done|]. exfalso.
    specialize (Hnp H). destruct c as [r| | |]; simpl in *; try done.
    Qbool. lra.
  - intros Hc. specialize (Hnn Hc). destruct c as [r| | |]; simpl in *; try done.
    Qbool. apply Qltb_lt.
    destruct (Qlt_le_dec 0 r); [done|].
    assert (Hr0 : r == 0) by lra. rewrite Hr0 in Hex.
    by vm_compute in Hex.
Qed.

(** X17: an entry of [significantChanges] holds the name of the marker's
    definition and the text [toFixed(1)] gives for the percent change
    from the second-latest to the latest value, a change computed on
    doubles that exceeds 15 in magnitude. Its direction is [increased]
    exactly when that change is positive, and [decreased] otherwise;
    for values in the range of the doubles and a previous value that is
    not zero, it is [increased] exactly when the latest value is above a
    positive previous one or below a negative previous one. *)
Theorem significantChanges_entries records :
  Forall (changeEntryOk records) (significantChanges records) ∧
  ∀ c, c ∈ significantChanges records →
    ∃ l p, latestRecord records (sc_id c) = Some l ∧
           previousRecord records (sc_id c) = Some p ∧
           sc_change c = toFixed1 (percentChange (value l) (value p)) ∧
           jslt (Finite 15) (jsabs (percentChange (value l) (value p))) ∧
           (sc_direction c = "increased" ∨ sc_direction c = "decreased") ∧
           (sc_direction c = "increased"
            ↔ jslt (Finite 0) (percentChange (value l) (value p))) ∧
           ∀ a b, float64 (value l) = Finite a → float64 (value p) = Finite b →
             ¬ b == 0 →
             (sc_direction c = "increased" ↔ (0 < b ∧ b < a) ∨ (b < 0 ∧ a < b)).
Proof.
  assert (Hall : Forall (changeEntryOk records) (significantChanges records)).
  { unfold significantChanges, VisitPreparation. by apply foldl_visitStep_entries. }
  split; [done|].
  intros c Hc.
  destruct (proj1 (Forall_forall _ _) Hall c Hc)
    as (def & l & p & _ & Hl & Hp & _ & Hex & Hch & Hd).
  assert (Hdir : sc_direction c = "increased"
                 ↔ jspositive (percentChange (value l) (value p)) = true).
  { rewrite Hd. by destruct (jspositive _). }
  exists l, p. split_and!; [done..| | | |].
  - by apply absExceeds_spec.
  - rewrite Hd. destruct (jspositive _); auto.
  - by rewrite Hdir, jspositive_spec.
  - intros a b Ha Hb Hb0. rewrite Hdir.
    unfold percentChange in *. rewrite Ha, Hb in *.
    rewrite (percentChange_sign a b Hex). tauto.
Qed.

(** The doubles decide which changes are listed and what is shown:
    creatinine from 1.0 to 0.85 is listed, its change being
    -15.000000000000002 on doubles; from 1.8 to 1.53 it is not, the
    change being -15 on doubles; glucose from 80 to 29 is shown as
    -63.7. *)
Example significantChanges_doubles :
  significantChanges [mkRecord "creatinine" 1.0 1; mkRecord "creatinine" 0.85 2]
    = [mkChange "creatinine" "Creatinine" "-15.0" "decreased"] ∧
  significantChanges [mkRecord "creatinine" 1.8 1; mkRecord "creatinine" 1.53 2] = [] ∧
  significantChanges [mkRecord "glucose" 80 1; mkRecord "glucose" 29 2]
    = [mkChange "glucose" "Fasting Glucose" "-63.7" "decreased"].
Proof. split_and!; by vm_compute. Qed.

(** Where an element sits that occurs in neither of the two lists before
    it. *)
Lemma elem_of_take_after {A} (n : nat) (l1 l2 : list A) x :
  x ∉ l1 → x ∉ l2 → x ∈ take n (l1 ++ x :: l2) ↔ (length l1 < n)%nat.
Proof.
  intros H1 H2. split.
  - intros (i & Hi)%list_elem_of_lookup_1.
    apply lookup_take_Some in Hi as [Hi Hlt].
    destruct (decide (i < length l1)%nat) as [Hl|Hl].
    + rewrite lookup_app_l in Hi by done. exfalso. apply H1.
      by eapply list_elem_of_lookup_2.
    + lia.
  - intros Hlt. apply (list_elem_of_lookup_2 _ (length l1)).
    rewrite lookup_take_lt by done. by apply list_lookup_middle.
Qed.

(** X18: at most five questions are prepared and at least two. Those
    about the flagged markers come first, in their order; the question
    at the next place is about the first significant change and the one
    after it about the second, no other change being asked about; then
    come the two standing questions. The question about tests is asked
    exactly when fewer than five precede it and the one about
    medications exactly when fewer than four do, so with five flagged
    markers all questions are about them. *)
Theorem questions_shape records :
  let nf := length (flaggedMarkers records) in
  let nc := (length (significantChanges records) `min` 2)%nat in
  length (questions records) = ((nf + nc + 2) `min` 5)%nat ∧
  (2 ≤ length (questions records) ≤ 5)%nat ∧
  take (nf `min` 5) (questions records)
    = FlaggedQuestion <$> take 5 (flaggedMarkers records) ∧
  (∀ i c, (i < 2)%nat → (nf + i < 5)%nat →
     significantChanges records !! i = Some c →
     questions records !! (nf + i)%nat = Some (ChangeQuestion c)) ∧
  (∀ c, ChangeQuestion c ∈ questions records →
     ∃ i, (i < 2)%nat ∧ significantChanges records !! i = Some c ∧
          questions records !! (nf + i)%nat = Some (ChangeQuestion c)) ∧
  ((nf + nc < 5)%nat → questions records !! (nf + nc)%nat = Some testsQuestion) ∧
  ((nf + nc < 4)%nat →
     questions records !! (nf + nc + 1)%nat = Some medicationsQuestion) ∧
  (testsQuestion ∈ questions records ↔ (nf + nc < 5)%nat) ∧
  (medicationsQuestion ∈ questions records ↔ (nf + nc < 4)%nat) ∧
  ((5 ≤ nf)%nat →
     questions records = FlaggedQuestion <$> take 5 (flaggedMarkers records)).
Proof.
  cbv zeta. unfold questions.
  set (F := flaggedMarkers records). set (C := significantChanges records).
  assert (Hlen : length (take 5 ((FlaggedQuestion <$> F) ++ (ChangeQuestion <$> take 2 C)
                                 ++ [testsQuestion; medicationsQuestion]))
                 = ((length F + length C `min` 2 + 2) `min` 5)%nat).
  { rewrite length_take, !length_app, !length_fmap, length_take. cbn [length]. lia. }
  assert (HnF : ∀ q : Question, q ∈ FlaggedQuestion <$> F → ∃ m, q = FlaggedQuestion m).
  { intros q (m & -> & _)%list_elem_of_fmap. by exists m. }
  assert (HnC : ∀ q : Question, q ∈ ChangeQuestion <$> take 2 C → ∃ c, q = ChangeQuestion c).
  { intros q (c & -> & _)%list_elem_of_fmap. by exists c. }
  assert (HlF : length (FlaggedQuestion <$> F) = length F) by apply length_fmap.
  assert (HlC : length (ChangeQuestion <$> take 2 C) = (length C `min` 2)%nat)
    by (rewrite length_fmap, length_take; lia).
  assert (Hchange : ∀ i c, (i < 2)%nat → (length F + i < 5)%nat →
            C !! i = Some c →
            take 5 ((FlaggedQuestion <$> F) ++ (ChangeQuestion <$> take 2 C)
                    ++ [testsQuestion; medicationsQuestion]) !! (length F + i)%nat
            = Some (ChangeQuestion c)).
  { intros i c Hi Hpos Hc.
    rewrite lookup_take_lt by done.
    rewrite lookup_app_r by lia. rewrite HlF.
    replace (length F + i - length F)%nat with i by lia.
    apply lookup_app_l_Some.
    by rewrite list_lookup_fmap, lookup_take_lt, Hc by done. }
  split_and!.
  - done.
  - rewrite Hlen. lia.
  - rewrite Hlen. lia.
  - rewrite take_take, take_app_le by (rewrite length_fmap; lia).
    rewrite <- fmap_take. f_equal.
    destruct (decide (length F ≤ 5)%nat).
    + rewrite !take_ge by lia. done.
    + f_equal. lia.
  - done.
  - intros c (k & Hk)%list_elem_of_lookup_1.
    apply lookup_take_Some in Hk as [Hk Hk5].
    apply lookup_app_Some in Hk as [Hk|[HkF Hk]].
    { apply list_elem_of_lookup_2, HnF in Hk as [m Hm]. discriminate Hm. }
    rewrite HlF in HkF, Hk.
    apply lookup_app_Some in Hk as [Hk|[HkC Hk]].
    + rewrite list_lookup_fmap in Hk.
      destruct (take 2 C !! (k - length F)%nat) as [c'|] eqn:Ec; [|done].
      injection Hk as <-.
      apply lookup_take_Some in Ec as [Ec Hlt].
      exists (k - length F)%nat. split_and!; [done..|].
      apply Hchange; [done|lia|done].
    + apply list_elem_of_lookup_2 in Hk.
      repeat (apply elem_of_cons in Hk as [Hk|Hk]; [discriminate Hk|]).
      by apply elem_of_nil in Hk.
  - intros Hlt. rewrite lookup_take_lt by done.
    rewrite lookup_app_r by lia. rewrite HlF.
    rewrite lookup_app_r by lia. rewrite HlC.
    by replace (length F + length C `min` 2 - length F - length C `min` 2)%nat
      with 0%nat by lia.
  - intros Hlt. rewrite lookup_take_lt by lia.
    rewrite lookup_app_r by lia. rewrite HlF.
    rewrite lookup_app_r by lia. rewrite HlC.
    by replace (length F + length C `min` 2 + 1 - length F - length C `min` 2)%nat
      with 1%nat by lia.
  - rewrite (assoc_L (++)).
    rewrite (elem_of_take_after 5 _ [medicationsQuestion]).
    + rewrite length_app, !length_fmap, length_take. lia.
    + intros [H|H]%elem_of_app; [apply HnF in H as [? H]|apply HnC in H as [? H]];
        discriminate H.
    + intros H%list_elem_of_singleton. discriminate H.
  - replace ((FlaggedQuestion <$> F) ++ (ChangeQuestion <$> take 2 C)
             ++ [testsQuestion; medicationsQuestion])
      with (((FlaggedQuestion <$> F) ++ (ChangeQuestion <$> take 2 C) ++ [testsQuestion])
            ++ medicationsQuestion :: [])
      by (by rewrite <- !(assoc_L (++))).
    rewrite (elem_of_take_after 5 _ []).
    + rewrite !length_app, !length_fmap, length_take. cbn [length]. lia.
    + intros [H|[H|H]%elem_of_app]%elem_of_app;
        [apply HnF in H as [? H]|apply HnC in H as [? H]
        |apply list_elem_of_singleton in H]; discriminate H.
    + apply not_elem_of_nil.
  - intros Hnf. rewrite take_app_le by (rewrite length_fmap; lia).
    by rewrite fmap_take.
Qed.

(** ** All clear *)

(** A value strictly inside the normal window of an entry whose bounds
    are in order is classified [optimal] or [normal]. *)
Lemma getStatus_inside_normal id def v :
  lookupDef BIOMARKER_DEFINITIONS id = Some def →
  rangesOrderedb def = true →
  (normalRange def).1 < v → v < (normalRange def).2 →
  getStatus v id = optimal ∨ getStatus v id = normal.
Proof.
  intros Hdef Hord Hlo Hhi. unfold getStatus, getStatusWith. rewrite Hdef.
  unfold rangesOrderedb in Hord.
  repeat (apply andb_prop in Hord; destruct Hord as [Hord ?]). Qbool.
  assert (E1 : Qleb v (criticalLow def) = false) by (apply Qleb_gt; lra).
  assert (E2 : Qleb (criticalHigh def) v = false) by (apply Qleb_gt; lra).
  assert (E5 : Qleb (normalRange def).1 v = true) by (apply Qleb_le; lra).
  assert (E6 : Qleb v (normalRange def).2 = true) by (apply Qleb_le; lra).
  rewrite E1, E2, E5, E6. simpl. destruct (_ && _); auto.
Qed.

Lemma sampleValue_inside_normal def random :
  0 <= random → random < 1 →
  1 # 2 <= (normalRange def).2 - (normalRange def).1 →
  (normalRange def).1 < sampleValue def random ∧
  sampleValue def random < (normalRange def).2.
Proof.
  intros H0 H1 Hw. unfold sampleValue, Math_round. cbv zeta.
  set (lo := (normalRange def).1) in *. set (hi := (normalRange def).2) in *.
  assert (Hmid : (lo + hi) / 2 == (lo + hi) * (1 # 2)) by field.
  set (y := ((lo + hi) / 2 + (random - 0.5) * ((hi - lo) * 0.3)) * 100).
  assert (Hy : (lo + (35 # 100) * (hi - lo)) * 100 <= y ∧
               y <= (hi - (35 # 100) * (hi - lo)) * 100).
  { unfold y. rewrite Hmid. split; nra. }
  pose proof (Qfloor_le (y + (1 # 2))) as Hn1.
  pose proof (Qlt_floor (y + (1 # 2))) as Hn2.
  rewrite inject_Z_plus in Hn2. change (inject_Z 1) with 1 in Hn2.
  revert Hn1 Hn2. generalize (inject_Z (Qfloor (y + (1 # 2)))). intros n Hn1 Hn2.
  assert (Hn : n / 100 == n * (1 # 100)) by field.
  rewrite Hn. destruct Hy. split; lra.
Qed.

Lemma sampleMarkers_ok : forallb sampleDefOk sampleMarkers = true.
Proof. by vm_compute. Qed.

Lemma generateSampleData_elem random dateOf r :
  r ∈ generateSampleData random dateOf →
  ∃ def i, markerId r ∈ sampleMarkers ∧
           lookupDef BIOMARKER_DEFINITIONS (markerId r) = Some def ∧
           value r = sampleValue def (random (markerId r) i) ∧
           date r = dateOf i ∧ (i ≤ 5)%nat.
Proof.
  unfold generateSampleData. intros (m & Hr & Hm)%list_elem_of_bind.
  destruct (lookupDef BIOMARKER_DEFINITIONS m) as [def|] eqn:Hdef;
    [|by apply elem_of_nil in Hr].
  apply list_elem_of_fmap in Hr as (i & -> & Hi).
  exists def, i. cbn [markerId value date]. split_and!; try done.
  repeat (apply elem_of_cons in Hi as [->|Hi]; [lia|]). by apply elem_of_nil in Hi.
Qed.

Lemma generateSampleData_status random dateOf r :
  (∀ m i, 0 <= random m i ∧ random m i < 1) →
  r ∈ generateSampleData random dateOf →
  ∃ def, lookupDef BIOMARKER_DEFINITIONS (markerId r) = Some def ∧
         (normalRange def).1 < value r ∧ value r < (normalRange def).2 ∧
         (getStatus (value r) (markerId r) = optimal
          ∨ getStatus (value r) (markerId r) = normal).
Proof.
  intros Hrand (def & i & Hm & Hdef & Hv & _ & _)%generateSampleData_elem.
  pose proof (proj1 (forallb_forall _ _) sampleMarkers_ok (markerId r)) as Hok.
  unfold sampleDefOk in Hok. rewrite Hdef in Hok.
  destruct (andb_prop _ _ (Hok (proj1 (list_elem_of_In _ _) Hm))) as [Hord Hw].
  apply Qleb_le in Hw.
  destruct (Hrand (markerId r) i) as [H0 H1].
  destruct (sampleValue_inside_normal def _ H0 H1 Hw) as [Hlo Hhi].
  rewrite <- Hv in Hlo, Hhi.
  exists def. split_and!; [done..|].
  by apply (getStatus_inside_normal _ def).
Qed.

Lemma categoryMarkers_keys cat id :
  id ∈ categoryMarkers cat → id ∈ keys BIOMARKER_DEFINITIONS.
Proof.
  unfold categoryMarkers, keys.
  intros (e & -> & [_ He]%list_elem_of_filter)%list_elem_of_fmap.
  apply list_elem_of_fmap. by exists e.
Qed.

(** No marker is flagged exactly when the latest observation of every
    catalog marker is classified [optimal] or [normal]. *)
Lemma flaggedMarkers_nil records :
  flaggedMarkers records = [] ↔
  ∀ id r, id ∈ keys BIOMARKER_DEFINITIONS → latestRecord records id = Some r →
    getStatus (value r) id = optimal ∨ getStatus (value r) id = normal.
Proof.
  split.
  - intros Hnil id r Hk Hr.
    destruct (getStatus (value r) id) eqn:E; auto; exfalso;
      (assert (Hin : id ∈ fm_id <$> flaggedMarkers records)
         by (apply flaggedMarkers_elem; split; [done|]; exists r; rewrite E; auto));
      rewrite Hnil in Hin; by apply elem_of_nil in Hin.
  - intros H. destruct (flaggedMarkers records) as [|m ms] eqn:E; [done|]. exfalso.
    assert (Hin : fm_id m ∈ fm_id <$> flaggedMarkers records) by (rewrite E; left).
    apply flaggedMarkers_elem in Hin as [Hk (r & Hr & Hs)].
    destruct (H _ _ Hk Hr) as [E'|E']; rewrite E' in Hs; by destruct Hs.
Qed.

(** Every pattern rule needs a marker outside its normal window. *)
Lemma pattern_needs_flagged records p :
  p ∈ detectPatterns records → ∃ id, id ∈ fm_id <$> flaggedMarkers records.
Proof.
  intros Hp. pose proof Hp as [H|[H|[H|H]]]%detectPatterns_elem.
  - rewrite metabolicPattern_latestValues in H.
    destruct (3 <=? _)%nat eqn:E; [|by apply elem_of_nil in H].
    apply Nat.leb_le in E. unfold metabolicConditions in E.
    destruct (above (latestValue records "glucose") 100) eqn:E1.
    { apply above_spec in E1 as (x & Hx & Hc). exists "glucose". flagged_by "glucose". }
    destruct (above (latestValue records "triglycerides") 150) eqn:E2.
    { apply above_spec in E2 as (x & Hx & Hc). exists "triglycerides".
      flagged_by "triglycerides". }
    destruct (above (latestValue records "hba1c") 5.6) eqn:E4.
    { apply above_spec in E4 as (x & Hx & Hc). exists "hba1c". flagged_by "hba1c". }
    exfalso. destruct (truthy _ && below _ _); vm_compute in E; lia.
  - assert (Hi : ∃ p, p ∈ detectPatterns records ∧ type p = "iron_deficiency").
    { exists p. by apply detectPatterns_anemia. }
    apply iron_emitted_iff in Hi as [(h & Hh & _ & Hhc) _].
    exists "hemoglobin". flagged_by "hemoglobin".
  - assert (Hi : ∃ p, p ∈ detectPatterns records ∧ type p = "thyroid").
    { exists p. by apply detectPatterns_thyroid. }
    apply thyroid_emitted_iff in Hi as (t & Ht & _ & Hc).
    exists "tsh". destruct Hc; flagged_by "tsh".
  - assert (Hi : ∃ p, p ∈ detectPatterns records ∧ type p = "kidney").
    { exists p. by apply detectPatterns_kidney. }
    apply kidney_emitted_iff in Hi as [(c & Hc & Hcc) _].
    exists "creatinine". flagged_by "creatinine".
Qed.

Lemma no_flag_no_pattern records :
  flaggedMarkers records = [] → detectPatterns records = [].
Proof.
  intros Hnil. destruct (detectPatterns records) as [|p ps] eqn:E; [done|].
  destruct (pattern_needs_flagged records p) as [id Hid]; [rewrite E; left|].
  rewrite Hnil in Hid. by apply elem_of_nil in Hid.
Qed.

Lemma categoryPoints_clear records cat :
  flaggedMarkers records = [] →
  Forall (λ x, 80 ≤ x ≤ 100)%Z (categoryPoints records cat).
Proof.
  intros Hc. unfold categoryPoints, markersWithData.
  apply Forall_fmap, Forall_forall.
  intros id [Hd Hk%categoryMarkers_keys]%list_elem_of_filter.
  apply hasData_latestRecord in Hd as [r Hr].
  unfold compose, latestStatus. rewrite Hr. simpl.
  destruct (proj1 (flaggedMarkers_nil records) Hc id r Hk Hr) as [-> | ->];
    simpl; lia.
Qed.

(** X19: when the visit preparation flags no marker, no pattern is
    detected, and every category score and the overall score are at
    least 80. *)
Theorem no_flag_all_clear records :
  flaggedMarkers records = [] →
  detectPatterns records = [] ∧
  (∀ c, c ∈ categoryScores records →
     ∃ s, cs_score c = Some s ∧ (80 ≤ s ≤ 100)%Z) ∧
  (∀ s, overallScore records = Some s → (80 ≤ s ≤ 100)%Z).
Proof.
  intros Hnil.
  assert (Hcs : ∀ c, c ∈ categoryScores records →
            ∃ s, cs_score c = Some s ∧ (80 ≤ s ≤ 100)%Z).
  { intros c (cat & _ & -> & Hne)%categoryScores_elem.
    rewrite categoryEntry_eq. simpl. unfold categoryAverage.
    destruct (categoryPoints records cat) as [|p pts] eqn:E.
    { unfold categoryPoints in E. apply fmap_nil_inv in E. done. }
    eexists. split; [done|].
    apply Math_round_mean_bounds; [done|].
    rewrite <- E. by apply categoryPoints_clear. }
  split_and!; [by apply no_flag_no_pattern|done|].
  intros s. rewrite overallScore_eq.
  destruct ((λ c, default 0%Z (cs_score c)) <$> categoryScores records)
    as [|x xs] eqn:E; [done|].
  intros [= <-]. apply Math_round_mean_bounds; [done|].
  rewrite <- E. apply Forall_fmap, Forall_forall. intros c Hc.
  unfold compose. destruct (Hcs c Hc) as (s & -> & Hb). done.
Qed.

Lemma no_flag_all_clear_witness :
  let rs := [mkRecord "glucose" 85 1; mkRecord "hdl" 45 1] in
  flaggedMarkers rs = [] ∧
  detectPatterns rs = [] ∧
  (∀ c, c ∈ categoryScores rs → ∃ s, cs_score c = Some s ∧ (80 ≤ s ≤ 100)%Z) ∧
  (∀ s, overallScore rs = Some s → (80 ≤ s ≤ 100)%Z).
Proof.
  split; [vm_compute; reflexivity|].
  apply no_flag_all_clear. vm_compute; reflexivity.
Defined.

Lemma generateSampleData_markerIds random dateOf :
  markerId <$> generateSampleData random dateOf
  = sampleMarkers ≫= replicate 6.
Proof. reflexivity. Qed.

(** X20: whatever [Math.random] returns in [0, 1), the demo data of
    [generateSampleData] are 90 records, six for each of its fifteen
    markers, every value lies strictly inside the normal window of its
    marker and is classified [optimal] or [normal]; so the demo data
    flag no marker and trigger no pattern. *)
Theorem generateSampleData_all_clear random dateOf :
  (∀ m i, 0 <= random m i ∧ random m i < 1) →
  markerId <$> generateSampleData random dateOf = sampleMarkers ≫= replicate 6 ∧
  (∀ r, r ∈ generateSampleData random dateOf →
     ∃ def, lookupDef BIOMARKER_DEFINITIONS (markerId r) = Some def ∧
            (normalRange def).1 < value r ∧ value r < (normalRange def).2 ∧
            (getStatus (value r) (markerId r) = optimal
             ∨ getStatus (value r) (markerId r) = normal)) ∧
  flaggedMarkers (generateSampleData random dateOf) = [] ∧
  detectPatterns (generateSampleData random dateOf) = [].
Proof.
  intros Hrand.
  assert (Hnil : flaggedMarkers (generateSampleData random dateOf) = []).
  { apply flaggedMarkers_nil. intros id r _ (Hin & <- & _)%latestRecord_Some.
    by destruct (generateSampleData_status random dateOf r Hrand Hin)
      as (_ & _ & _ & _ & Hs). }
  split_and!.
  - apply generateSampleData_markerIds.
  - intros r Hr. by apply (generateSampleData_status random dateOf).
  - done.
  - by apply no_flag_no_pattern.
Qed.

Lemma generateSampleData_all_clear_witness :
  let random : string → nat → Q := λ _ i, if Nat.even i then 1 # 4 else 3 # 4 in
  let dateOf : nat → Z := λ i, (- 60 * Z.of_nat i)%Z in
  length (generateSampleData random dateOf) = 90%nat ∧
  flaggedMarkers (generateSampleData random dateOf) = [] ∧
  detectPatterns (generateSampleData random dateOf) = [].
Proof.
  intros random dateOf. split; [reflexivity|].
  refine (proj2 (proj2 (generateSampleData_all_clear random dateOf _))).
  intros m i. unfold random. destruct (Nat.even i); split; lra.
Defined.

(** ** The card grid *)

Lemma filter_keys_lookupDef defs (P : BiomarkerDefinition → bool) :
  NoDup (keys defs) →
  filter (λ id, Is_true (match lookupDef defs id with
                         | Some d => P d
                         | None => false
                         end)) (keys defs)
  = (filter (λ e, Is_true (P e.2)) defs).*1.
Proof.
  unfold keys. induction defs as [|[k d] defs IH]; [done|].
  rewrite fmap_cons. cbn [fst]. intros [Hk Hnd]%NoDup_cons.
  rewrite !filter_cons. cbn [lookupDef snd]. rewrite String.eqb_refl.
  assert (Htl : filter (λ id, Is_true (match (if String.eqb k id then Some d
                                              else lookupDef defs id) with
                                       | Some d => P d
                                       | None => false
                                       end)) defs.*1
                = (filter (λ e, Is_true (P e.2)) defs).*1).
  { rewrite <- (IH Hnd). apply filter_ext_in. intros id Hid.
    destruct (String.eqb_spec k id) as [->|_]; [done|tauto]. }
  rewrite Htl. by destruct (decide (Is_true (P d))).
Qed.

Lemma filter_all {A} (P : A → Prop) `{!∀ x, Decision (P x)} (l : list A) :
  Forall P l → filter P l = l.
Proof.
  induction 1 as [|x l Hx _ IH]; [done|].
  rewrite filter_cons_True by done. by f_equal.
Qed.

Lemma filter_filter_sublist {A} (P Q : A → Prop)
    `{!∀ x, Decision (P x), !∀ x, Decision (Q x)} (l : list A) :
  filter P (filter Q l) `sublist_of` filter P l.
Proof.
  induction l as [|a l IH]; [done|].
  rewrite (filter_cons Q). destruct (decide (Q a)).
  - rewrite !filter_cons. destruct (decide (P a)); [by constructor|done].
  - rewrite filter_cons. destruct (decide (P a)); [by constructor|done].
Qed.

Lemma getMarkerData_length records id :
  length (getMarkerData records id) = length (recordsOf records id).
Proof. apply sortBy_length. Qed.

Lemma filteredMarkers_category found records cat :
  cat ≠ "all" →
  filteredMarkers found records cat "" = markersWithData records cat.
Proof.
  intros Hall. unfold filteredMarkers, markersWithData, categoryMarkers.
  assert (Hf : filter (λ id, Is_true (markerShown found cat "" id))
                 (keys BIOMARKER_DEFINITIONS)
               = (filter (λ e, category e.2 = cat) BIOMARKER_DEFINITIONS).*1).
  { transitivity ((filter (λ e, Is_true (String.eqb (category e.2) cat))
                     BIOMARKER_DEFINITIONS).*1).
    - rewrite <- (filter_keys_lookupDef _ (λ d, String.eqb (category d) cat))
        by apply keys_NoDup.
      apply filter_ext_in. intros id _. unfold markerShown.
      destruct (lookupDef BIOMARKER_DEFINITIONS id) as [def|]; [|done].
      apply String.eqb_neq in Hall. rewrite Hall. cbn [negb andb String.eqb].
      by destruct (String.eqb (category def) cat).
    - f_equal. apply filter_ext_in. intros e _.
      rewrite Is_true_true. apply String.eqb_eq. }
  rewrite Hf. apply filter_ext_in. intros id _.
  unfold hasData. by rewrite getMarkerData_length.
Qed.

(** X21: every marker of the card grid is a catalog marker with data
    whose [BiomarkerCard] renders, with the status of the latest
    observation by position; the grid lists no marker twice; a search
    term or category filter only removes markers from the unfiltered
    grid; and with a category selected and no search term the grid shows
    exactly the markers that the health score of that category counts. *)
Theorem filteredMarkers_grid found records categoryFilter searchTerm :
  (∀ id, id ∈ filteredMarkers found records categoryFilter searchTerm →
     id ∈ keys BIOMARKER_DEFINITIONS ∧ hasData records id ∧
     ∃ v latest, BiomarkerCard id (getMarkerData records id) = Some v ∧
                 last (getMarkerData records id) = Some latest ∧
                 cv_status v = getStatus (value latest) id) ∧
  NoDup (filteredMarkers found records categoryFilter searchTerm) ∧
  filteredMarkers found records categoryFilter searchTerm
    `sublist_of` filteredMarkers found records "all" "" ∧
  filteredMarkers found records "all" "" = filter (hasData records) (keys BIOMARKER_DEFINITIONS) ∧
  (∀ cat, cat ∈ CATEGORIES →
     filteredMarkers found records cat "" = markersWithData records cat ∧
     cs_count (categoryEntry records cat)
     = Z.of_nat (length (filteredMarkers found records cat ""))).
Proof.
  assert (Hall : filteredMarkers found records "all" ""
                 = filter (λ m, 0 < length (getMarkerData records m))%nat
                     (keys BIOMARKER_DEFINITIONS)).
  { unfold filteredMarkers.
    assert (Hk : filter (λ id, Is_true (markerShown found "all" "" id))
                   (keys BIOMARKER_DEFINITIONS) = keys BIOMARKER_DEFINITIONS).
    { apply filter_all, Forall_forall. intros id [d Hd]%key_lookupDef.
      unfold markerShown. by rewrite Hd. }
    by rewrite Hk. }
  split_and!.
  - intros id [Hlen [Hs Hk]%list_elem_of_filter]%list_elem_of_filter.
    split_and!; [done|by rewrite getMarkerData_length in Hlen|].
    destruct (key_lookupDef _ _ Hk) as [def Hdef].
    unfold BiomarkerCard. rewrite Hdef.
    assert (Hl : getMarkerData records id !! (length (getMarkerData records id) - 1)%nat
                 = last (getMarkerData records id)) by (by rewrite last_lookup, Nat.sub_1_r).
    rewrite Hl.
    destruct (last (getMarkerData records id)) as [latest|] eqn:E.
    + by eexists _, latest.
    + apply last_None in E. rewrite E in Hlen. simpl in Hlen. lia.
  - unfold filteredMarkers. do 2 apply NoDup_filter. apply keys_NoDup.
  - rewrite Hall. unfold filteredMarkers. apply filter_filter_sublist.
  - rewrite Hall. apply filter_ext_in. intros id _.
    unfold hasData. by rewrite getMarkerData_length.
  - intros cat Hcat.
    assert (Hne : cat ≠ "all").
    { intros ->. revert Hcat. clear. intros H.
      repeat (apply elem_of_cons in H as [H|H]; [discriminate H|]).
      by apply elem_of_nil in H. }
    rewrite (filteredMarkers_category found records cat Hne).
    split; [done|]. by rewrite categoryEntry_eq.
Qed.

(** ** Medications and watched markers *)

Lemma toggleMedication_offline_other medications id :
  filter (λ m, med_id m ≠ id) (toggleMedication_offline medications id)
  = filter (λ m, med_id m ≠ id) medications.
Proof.
  unfold toggleMedication_offline.
  induction medications as [|m ms IH]; [done|].
  rewrite fmap_cons, !filter_cons, IH.
  destruct (String.eqb_spec (med_id m) id) as [E|E]; cbn [med_id].
  - destruct (decide (med_id m ≠ id)); done.
  - done.
Qed.

(** X22: offline, toggling a medication twice restores the list; a
    toggle keeps the ids and their order, leaves every medication with
    another id as it is and flips the active flag of each one with the
    id; deleting removes exactly the medications with the id, so a toggle
    before a deletion of the same id makes no difference and a toggle
    after it changes nothing. *)
Theorem medications_toggle_delete medications id :
  toggleMedication_offline (toggleMedication_offline medications id) id = medications ∧
  med_id <$> toggleMedication_offline medications id = med_id <$> medications ∧
  Forall2 (λ m m', med_active m' = (if String.eqb (med_id m) id
                                   then negb (med_active m) else med_active m))
    medications (toggleMedication_offline medications id) ∧
  deleteMedication_offline (toggleMedication_offline medications id) id
    = deleteMedication_offline medications id ∧
  toggleMedication_offline (deleteMedication_offline medications id) id
    = deleteMedication_offline medications id ∧
  (∀ m, m ∈ deleteMedication_offline medications id ↔ m ∈ medications ∧ med_id m ≠ id) ∧
  (∀ m, med_id m ≠ id →
     (m ∈ activeMedications (toggleMedication_offline medications id)
      ↔ m ∈ activeMedications medications)).
Proof.
  split_and!.
  - unfold toggleMedication_offline. rewrite <- list_fmap_compose.
    rewrite <- (list_fmap_id medications) at 2. apply list_fmap_ext.
    intros _ [i n d f a s] _. unfold compose. cbn [med_id].
    destruct (String.eqb i id) eqn:E; cbn [med_id med_name med_dosage med_frequency
      med_active med_startDate]; rewrite ?E, ?negb_involutive; done.
  - unfold toggleMedication_offline. rewrite <- list_fmap_compose.
    apply list_fmap_ext. intros _ m _. unfold compose.
    by destruct (String.eqb (med_id m) id).
  - unfold toggleMedication_offline. apply Forall2_fmap_r, Forall_Forall2_diag,
      Forall_forall. intros m _. unfold compose.
    by destruct (String.eqb (med_id m) id).
  - apply toggleMedication_offline_other.
  - unfold toggleMedication_offline, deleteMedication_offline.
    rewrite <- (list_fmap_id (filter _ medications)) at 2.
    apply list_fmap_ext. intros i m Hm.
    apply list_elem_of_lookup_2, list_elem_of_filter in Hm as [Hne _].
    apply String.eqb_neq in Hne. by rewrite Hne.
  - intros m. unfold deleteMedication_offline. rewrite list_elem_of_filter. tauto.
  - intros m Hne. unfold activeMedications. rewrite !list_elem_of_filter.
    assert (Hin : m ∈ toggleMedication_offline medications id ↔ m ∈ medications).
    { pose proof (toggleMedication_offline_other medications id) as Hf.
      split; intros Hm.
      - assert (H' : m ∈ filter (λ m, med_id m ≠ id)
                           (toggleMedication_offline medications id))
          by (by apply list_elem_of_filter).
        rewrite Hf in H'. by apply list_elem_of_filter in H' as [_ ?].
      - assert (H' : m ∈ filter (λ m, med_id m ≠ id) medications)
          by (by apply list_elem_of_filter).
        rewrite <- Hf in H'. by apply list_elem_of_filter in H' as [_ ?]. }
    by rewrite Hin.
Qed.

(** X23: the watch button toggles membership of the selected marker and
    of nothing else, and pressing it twice restores the set. *)
Theorem toggleWatched_involution (watchedMarkers : gset string) selectedMarker :
  toggleWatched (toggleWatched watchedMarkers selectedMarker) selectedMarker
    = watchedMarkers ∧
  (selectedMarker ∈ toggleWatched watchedMarkers selectedMarker
   ↔ selectedMarker ∉ watchedMarkers) ∧
  (∀ m, m ≠ selectedMarker →
     (m ∈ toggleWatched watchedMarkers selectedMarker ↔ m ∈ watchedMarkers)).
Proof.
  unfold toggleWatched.
  destruct (bool_decide_reflect (selectedMarker ∈ watchedMarkers)) as [Hin|Hin];
    split_and!.
  - rewrite bool_decide_eq_false_2
      by (intros [_ Hn]%elem_of_difference; by apply Hn, elem_of_singleton).
    apply set_eq. intros x.
    rewrite elem_of_union, elem_of_difference, elem_of_singleton.
    destruct (decide (x = selectedMarker)) as [->|]; tauto.
  - rewrite elem_of_difference, elem_of_singleton. tauto.
  - intros m Hne. rewrite elem_of_difference, elem_of_singleton. tauto.
  - rewrite bool_decide_eq_true_2
      by (apply elem_of_union; right; by apply elem_of_singleton).
    apply set_eq. intros x.
    rewrite elem_of_difference, elem_of_union, elem_of_singleton.
    destruct (decide (x = selectedMarker)) as [->|]; tauto.
  - rewrite elem_of_union, elem_of_singleton. tauto.
  - intros m Hne. rewrite elem_of_union, elem_of_singleton. tauto.
Qed.

(** ** The stored token *)

(** X24: after [setToken] a client constructed from [localStorage]
    sends the same [Authorization] header as the client that set the
    token, and holds the same token when that is truthy; [setToken]
    never stores an empty token, leaves every other entry of
    [localStorage] alone, and for [null] or the empty string removes the
    stored token. *)
Theorem setToken_persisted token (localStorage : gmap string string) :
  authorization (ApiClient_constructor (setToken token localStorage).2)
    = authorization (setToken token localStorage).1 ∧
  (truthyToken token = true →
     ApiClient_constructor (setToken token localStorage).2 = token) ∧
  (truthyToken token = false →
     ApiClient_constructor (setToken token localStorage).2 = None) ∧
  (setToken token localStorage).2 !! tokenKey ≠ Some "" ∧
  (∀ k, k ≠ tokenKey →
     (setToken token localStorage).2 !! k = localStorage !! k).
Proof.
  unfold ApiClient_constructor, setToken, authorization. cbn [fst snd].
  destruct token as [t|]; [destruct (truthyToken (Some t)) eqn:E|].
  - rewrite lookup_insert_eq. rewrite E. split_and!; [done..| |].
    + intros [= ->]. discriminate E.
    + intros k Hk. by rewrite lookup_insert_ne.
  - rewrite lookup_delete_eq. split_and!; [done..|].
    intros k Hk. by rewrite lookup_delete_ne.
  - rewrite lookup_delete_eq. split_and!; [done..|].
    intros k Hk. by rewrite lookup_delete_ne.
Qed.
